(** * Content auditor: the page pipeline, its cache and its budget

    A shallow embedding of the Python sources
    ([utils/budget.py], [utils/cache.py], [utils/html_fetch.py],
    [utils/html_to_text.py], [rules/seo_rules.py], [rules/a11y_rules.py],
    [chains/tone_chain.py], [main.py]) and the properties the design
    document states about them.

    Conventions.
    - A Python value that can live in a result dict is a [pyval]: [None],
      [bool], [int] (as [Z]), [float] (IEEE binary64, Rocq's primitive
      floats), [str], [list] and [dict] with string keys.  Every [pyval]
      is JSON-serializable.
    - A Python [str] is a [string]; each [ascii] stands for one code point
      below 256.
    - A [dict] is an association list in insertion order without repeated
      keys (what [json.dumps] prints); the cache directory and
      [calls_by_type], which are never printed in order, are [gmap]s.
    - Libraries the repository calls but does not contain (hashlib, json,
      httpx, readability, the html parser of BeautifulSoup, the Ollama
      client, float formatting) are the fields of the class [External].
    - Stateful code is written in a state monad over [World]: the cache
      directory, the budget, the outside world and a log of the
      collaborators [process_page] invoked.
    - Log lines and console output are left out, except the line in which
      [Cache.clear] reports its count. *)

From Stdlib Require Import ZArith String Ascii List Bool Lia.
From Stdlib Require Import Floats.PrimFloat Floats.SpecFloat Floats.FloatOps.
From Stdlib Require Import Numbers.Cyclic.Int63.Uint63.
From stdpp Require Import gmap strings.

Import ListNotations.
Set Warnings "-register-all".
Local Open Scope Z_scope.
Local Open Scope string_scope.

(** ** Python values and exceptions *)

Inductive pyval : Type :=
| PyNone
| PyBool (b : bool)
| PyInt (z : Z)
| PyFloat (f : float)
| PyStr (s : string)
| PyList (l : list pyval)
| PyDict (d : list (string * pyval)).

Inductive exn : Type :=
| KeyError (key : string)
| TypeError
| ValueError
| AttributeError
| JSONDecodeError
| ZeroDivisionError
| OtherError (msg : string).

(** The outcome of an expression that may raise. *)
Inductive pyres (A : Type) : Type :=
| Ok (a : A)
| Raise (e : exn).
Arguments Ok {A} a.
Arguments Raise {A} e.

Definition pyres_bind {A B} (r : pyres A) (k : A -> pyres B) : pyres B :=
  match r with
  | Ok a => k a
  | Raise e => Raise e
  end.

Declare Scope pyres_scope.
Delimit Scope pyres_scope with pyres.
Notation "'try!' x <- r ; k" := (pyres_bind r (fun x => k))
  (at level 10, x name, r at level 100, k at level 200) : pyres_scope.

(** [int -> float] for the small counts this program divides, and Python's
    true division of two ints. *)
Definition float_of_Z (z : Z) : float := PrimFloat.of_uint63 (Uint63.of_Z z).
Definition truediv (a b : Z) : float := PrimFloat.div (float_of_Z a) (float_of_Z b).

(** [bool(v)]: Python truthiness. *)
Definition truthy (v : pyval) : bool :=
  match v with
  | PyNone => false
  | PyBool b => b
  | PyInt z => negb (z =? 0)%Z
  | PyFloat f => negb (PrimFloat.eqb f PrimFloat.zero)
  | PyStr s => negb (String.eqb s "")
  | PyList l => match l with [] => false | _ => true end
  | PyDict d => match d with [] => false | _ => true end
  end.

(** Truthiness of an [Optional[str]]. *)
Definition truthy_str (o : option string) : bool :=
  match o with
  | Some s => negb (String.eqb s "")
  | None => false
  end.

(** ** Dicts *)

Fixpoint dict_get (k : string) (d : list (string * pyval)) : option pyval :=
  match d with
  | [] => None
  | (k', v) :: d' => if String.eqb k k' then Some v else dict_get k d'
  end.

(** [d[k] = v]: update in place, or append a new key. *)
Fixpoint dict_set (k : string) (v : pyval) (d : list (string * pyval))
  : list (string * pyval) :=
  match d with
  | [] => [(k, v)]
  | (k', v') :: d' =>
      if String.eqb k k' then (k, v) :: d' else (k', v') :: dict_set k v d'
  end.

(** [v[k]] for a string key [k]. *)
Definition subscript (v : pyval) (k : string) : pyres pyval :=
  match v with
  | PyDict d => match dict_get k d with
                | Some x => Ok x
                | None => Raise (KeyError k)
                end
  | _ => Raise TypeError
  end.

(** [v.get(k, default)]. *)
Definition py_get (v : pyval) (k : string) (default : pyval) : pyres pyval :=
  match v with
  | PyDict d => Ok (match dict_get k d with Some x => x | None => default end)
  | _ => Raise AttributeError
  end.

(** [len(v)]. *)
Definition py_len (v : pyval) : pyres Z :=
  match v with
  | PyStr s => Ok (Z.of_nat (String.length s))
  | PyList l => Ok (Z.of_nat (List.length l))
  | PyDict d => Ok (Z.of_nat (List.length d))
  | _ => Raise TypeError
  end.

(** ** Strings *)

Definition dquote : string := String "034"%char "".
Definition newline : string := String "010"%char "".
Definition backtick3 : string := "```".

(** [str.isspace] on one code point below 256. *)
Definition is_space (c : ascii) : bool :=
  let n := N_of_ascii c in
  ((9 <=? n) && (n <=? 13) || (28 <=? n) && (n <=? 32)
   || (n =? 133) || (n =? 160))%N.

Fixpoint lstrip (s : string) : string :=
  match s with
  | String c s' => if is_space c then lstrip s' else s
  | EmptyString => EmptyString
  end.

Fixpoint rstrip (s : string) : string :=
  match s with
  | String c s' =>
      match rstrip s' with
      | EmptyString => if is_space c then EmptyString else String c EmptyString
      | t => String c t
      end
  | EmptyString => EmptyString
  end.

(** [s.strip()]. *)
Definition strip (s : string) : string := rstrip (lstrip s).

(** [text.split()]: the maximal runs of non-space characters.  [cur] is the
    word being read, reversed. *)
Fixpoint split_ws_aux (s : string) (cur : list ascii) : list string :=
  let flush := match cur with
               | [] => []
               | _ => [string_of_list_ascii (rev cur)]
               end in
  match s with
  | EmptyString => flush
  | String c s' =>
      if is_space c then (flush ++ split_ws_aux s' [])%list
      else split_ws_aux s' (c :: cur)
  end.
Definition split_ws (s : string) : list string := split_ws_aux s [].

(** [s.split(sep)] for a one-character separator. *)
Fixpoint split_char_aux (sep : ascii) (s : string) (cur : list ascii)
  : list string :=
  match s with
  | EmptyString => [string_of_list_ascii (rev cur)]
  | String c s' =>
      if Ascii.eqb c sep
      then string_of_list_ascii (rev cur) :: split_char_aux sep s' []
      else split_char_aux sep s' (c :: cur)
  end.
Definition split_char (sep : ascii) (s : string) : list string :=
  split_char_aux sep s [].

(** [sep.join(parts)]. *)
Fixpoint join (sep : string) (parts : list string) : string :=
  match parts with
  | [] => ""
  | [p] => p
  | p :: rest => p ++ sep ++ join sep rest
  end.

(** [s.startswith(p)]. *)
Definition startswith (s p : string) : bool := String.prefix p s.

(** [s[:n]] for [n >= 0]. *)
Definition take (n : nat) (s : string) : string := String.substring 0 n s.

Fixpoint drop (n : nat) (s : string) : string :=
  match n, s with
  | O, _ => s
  | S n', String _ s' => drop n' s'
  | S _, EmptyString => EmptyString
  end.

(** [s.replace(old, "")] for a non-empty [old]: the occurrences are found
    from the left and do not overlap.  [fuel] bounds the length of [s]. *)
Fixpoint remove_all_aux (fuel : nat) (old s : string) : string :=
  match fuel with
  | O => s
  | S fuel' =>
      match s with
      | EmptyString => EmptyString
      | String c s' =>
          if String.prefix old s
          then remove_all_aux fuel' old (drop (String.length old) s)
          else String c (remove_all_aux fuel' old s')
      end
  end.
Definition remove_all (old s : string) : string :=
  remove_all_aux (String.length s) old s.

(** [needle in s] for strings. *)
Fixpoint contains (s needle : string) : bool :=
  String.prefix needle s
  || match s with
     | EmptyString => false
     | String _ s' => contains s' needle
     end.

(** [re.sub(r'\s+', ' ', s)]: every maximal run of spaces becomes one
    blank.  [in_run] says that the previous character was a space. *)
Fixpoint collapse_ws_aux (s : string) (in_run : bool) : string :=
  match s with
  | EmptyString => EmptyString
  | String c s' =>
      if is_space c
      then if in_run then collapse_ws_aux s' true
           else String " "%char (collapse_ws_aux s' true)
      else String c (collapse_ws_aux s' false)
  end.
Definition collapse_ws (s : string) : string := collapse_ws_aux s false.

(** [s.lower()] on code points below 256. *)
Definition lower_char (c : ascii) : ascii :=
  let n := N_of_ascii c in
  if ((65 <=? n) && (n <=? 90)
      || (192 <=? n) && (n <=? 222) && negb (n =? 215))%N
  then ascii_of_N (n + 32) else c.
Fixpoint lower (s : string) : string :=
  match s with
  | EmptyString => EmptyString
  | String c s' => String (lower_char c) (lower s')
  end.

(** [str(n)] for an int. *)
Definition digit_char (d : nat) : ascii := ascii_of_nat (48 + d).
Fixpoint str_of_nat_aux (fuel n : nat) (acc : string) : string :=
  match fuel with
  | O => acc
  | S fuel' =>
      let acc' := String (digit_char (n mod 10)) acc in
      match (n / 10)%nat with
      | O => acc'
      | q => str_of_nat_aux fuel' q acc'
      end
  end.
Definition str_of_nat (n : nat) : string := str_of_nat_aux (S n) n "".
Definition str_of_Z (z : Z) : string :=
  if (z <? 0)%Z then "-" ++ str_of_nat (Z.to_nat (- z)) else str_of_nat (Z.to_nat z).

Definition len (s : string) : Z := Z.of_nat (String.length s).

(** ** The parsed page

    What [BeautifulSoup(html, 'html.parser')] returns, as far as the rule
    functions look at it: a forest of tags and text nodes.  An attribute
    value is a string, or a list of strings for the multi-valued
    attributes ([rel], [class]). *)

Inductive attr_value : Type :=
| AttrStr (s : string)
| AttrList (l : list string).

Inductive node : Type :=
| NText (s : string)
| NTag (name : string) (attrs : list (string * attr_value)) (children : list node).

Definition soup : Type := list node.

(** All nodes below (and including) the roots [ns], in document order. *)
Fixpoint subtree (n : node) : list node :=
  n :: match n with
       | NText _ => []
       | NTag _ _ children =>
           (fix forest (ns : list node) : list node :=
              match ns with
              | [] => []
              | c :: ns' => (subtree c ++ forest ns')%list
              end) children
       end.
Definition descendants (ns : soup) : list node := flat_map subtree ns.

Definition tag_named (names : list string) (n : node) : bool :=
  match n with
  | NTag name _ _ => existsb (String.eqb name) names
  | NText _ => false
  end.

(** [soup.find_all(name)] and [soup([name1, name2])]. *)
Definition find_all (names : list string) (s : soup) : list node :=
  List.filter (tag_named names) (descendants s).

(** [tag.get(attr)]. *)
Fixpoint attr_lookup (attr : string) (attrs : list (string * attr_value))
  : option attr_value :=
  match attrs with
  | [] => None
  | (a, v) :: attrs' => if String.eqb attr a then Some v else attr_lookup attr attrs'
  end.
Definition tag_get (n : node) (attr : string) : option attr_value :=
  match n with
  | NTag _ attrs _ => attr_lookup attr attrs
  | NText _ => None
  end.

(** How [find(..., attrs={attr: wanted})] matches an attribute value. *)
Definition attr_matches (wanted : string) (v : attr_value) : bool :=
  match v with
  | AttrStr s => String.eqb s wanted
  | AttrList l => existsb (String.eqb wanted) l || String.eqb (join " " l) wanted
  end.

(** [soup.find(name, attrs={attr: wanted})]: the first match, or [None]. *)
Definition find_attr (name attr wanted : string) (s : soup) : option node :=
  List.find (fun n => match tag_get n attr with
                      | Some v => attr_matches wanted v
                      | None => false
                      end)
            (find_all [name] s).

(** [soup.find(name)]. *)
Definition find (name : string) (s : soup) : option node :=
  match find_all [name] s with
  | [] => None
  | n :: _ => Some n
  end.

Definition attr_truthy (o : option attr_value) : bool :=
  match o with
  | Some (AttrStr s) => negb (String.eqb s "")
  | Some (AttrList l) => match l with [] => false | _ => true end
  | None => false
  end.

Definition attr_len (v : attr_value) : Z :=
  match v with
  | AttrStr s => len s
  | AttrList l => Z.of_nat (List.length l)
  end.

(** The strings of [ns] and below, each stripped, the empty ones dropped. *)
Definition stripped_strings (ns : list node) : list string :=
  List.filter (fun s => negb (String.eqb s ""))
         (flat_map (fun n => match n with
                             | NText s => [strip s]
                             | NTag _ _ _ => []
                             end)
                   (descendants ns)).

(** [tag.get_text(separator=sep, strip=True)]. *)
Definition get_text (sep : string) (n : node) : string :=
  match n with
  | NText s => strip s
  | NTag _ _ children => join sep (stripped_strings children)
  end.

(** [for t in soup(names): t.decompose()]: the matching tags leave the tree. *)
Fixpoint decompose (names : list string) (n : node) : list node :=
  if tag_named names n then []
  else match n with
       | NText _ => [n]
       | NTag name attrs children =>
           [NTag name attrs
              ((fix forest (ns : list node) : list node :=
                  match ns with
                  | [] => []
                  | c :: ns' => (decompose names c ++ forest ns')%list
                  end) children)]
       end.
Definition decompose_all (names : list string) (s : soup) : soup :=
  flat_map (decompose names) s.

(** ** Libraries outside the repository *)

Class External : Type := {
  (** the state of the outside world: the network, the model server *)
  Env : Type;
  (** [hashlib.sha256(key.encode()).hexdigest()] *)
  sha256_hexdigest : string -> string;
  (** [json.dumps(v)] *)
  json_dumps : pyval -> string;
  (** what [json.dump(v, f, indent=2)] writes to [f] *)
  json_dump_indent : pyval -> string;
  (** [json.loads(s)] and [json.load(f)] on a file that holds [s] *)
  json_loads : string -> pyres pyval;
  (** [client.get(url)], [raise_for_status()], [response.text] *)
  httpx_get : string -> Env -> pyres string * Env;
  (** [Document(html).summary()] *)
  readability_summary : string -> pyres string;
  (** [BeautifulSoup(html, 'html.parser')] *)
  html_parser : string -> pyres soup;
  (** [os.getenv], [Ollama(...)] and [llm.invoke(prompt)] *)
  ollama_invoke : string -> Env -> pyres string * Env;
  (** [f"{x:.1f}"] for a float *)
  format_1f : float -> string;
  (** [str(e)] for an exception *)
  str_of_exn : exn -> string;
}.

(** ** rules/seo_rules.py *)

(** The small dicts the single checks return. *)
Record LengthResult : Type :=   (* {"score", "length", "issues"} *)
  { lr_score : Z; lr_length : Z; lr_issues : list string }.
Record CountResult : Type :=    (* {"score", "count", "issues"} *)
  { cr_score : Z; cr_count : Z; cr_issues : list string }.
Record PlainResult : Type :=    (* {"score", "issues"} *)
  { pr_score : Z; pr_issues : list string }.
Record RatioResult : Type :=    (* {"score", "total", "with_alt" or "with_text", "issues"} *)
  { rr_score : Z; rr_total : Z; rr_with : Z; rr_issues : list string }.

Definition check_title_tag (s : soup) : LengthResult :=
  match find "title" s with
  | None => {| lr_score := 0; lr_length := 0; lr_issues := ["Missing title tag"] |}
  | Some title_tag =>
      let title_text := get_text "" title_tag in
      let length := len title_text in
      if (length =? 0)%Z then
        {| lr_score := 0; lr_length := length; lr_issues := ["Empty title tag"] |}
      else if (length <? 30)%Z then
        {| lr_score := 50; lr_length := length;
           lr_issues := ["Title too short (" ++ str_of_Z length
                           ++ " chars, recommended 30-60)"] |}
      else if (60 <? length)%Z then
        {| lr_score := 75; lr_length := length;
           lr_issues := ["Title too long (" ++ str_of_Z length
                           ++ " chars, recommended 30-60)"] |}
      else
        {| lr_score := 100; lr_length := length; lr_issues := [] |}
  end.

Definition check_meta_description (s : soup) : LengthResult :=
  let missing :=
    {| lr_score := 0; lr_length := 0; lr_issues := ["Missing meta description"] |} in
  match find_attr "meta" "name" "description" s with
  | None => missing
  | Some meta_desc =>
      match tag_get meta_desc "content" with
      | None => missing
      | Some desc_text =>
          if negb (attr_truthy (Some desc_text)) then missing else
          let length := attr_len desc_text in
          if (length =? 0)%Z then
            {| lr_score := 0; lr_length := length;
               lr_issues := ["Empty meta description"] |}
          else if (length <? 120)%Z then
            {| lr_score := 50; lr_length := length;
               lr_issues := ["Meta description too short (" ++ str_of_Z length
                               ++ " chars, recommended 120-160)"] |}
          else if (160 <? length)%Z then
            {| lr_score := 75; lr_length := length;
               lr_issues := ["Meta description too long (" ++ str_of_Z length
                               ++ " chars, recommended 120-160)"] |}
          else
            {| lr_score := 100; lr_length := length; lr_issues := [] |}
      end
  end.

Definition check_h1_tags (s : soup) : CountResult :=
  let h1_tags := find_all ["h1"] s in
  let count := Z.of_nat (List.length h1_tags) in
  if (count =? 0)%Z then
    {| cr_score := 0; cr_count := count; cr_issues := ["Missing H1 tag"] |}
  else if (1 <? count)%Z then
    {| cr_score := 75; cr_count := count;
       cr_issues := ["Multiple H1 tags found (" ++ str_of_Z count
                       ++ ", recommended 1)"] |}
  else
    {| cr_score := 100; cr_count := count; cr_issues := [] |}.

Definition check_canonical (s : soup) : PlainResult :=
  match find_attr "link" "rel" "canonical" s with
  | None => {| pr_score := 0; pr_issues := ["Missing canonical URL"] |}
  | Some canonical =>
      if negb (attr_truthy (tag_get canonical "href"))
      then {| pr_score := 0; pr_issues := ["Missing canonical URL"] |}
      else {| pr_score := 100; pr_issues := [] |}
  end.

Definition check_word_count (text : string) : CountResult :=
  let words := split_ws text in
  let count := Z.of_nat (List.length words) in
  if (count <? 300)%Z then
    {| cr_score := 25; cr_count := count;
       cr_issues := ["Low word count (" ++ str_of_Z count ++ ", recommended 300+)"] |}
  else if (count <? 600)%Z then
    {| cr_score := 75; cr_count := count; cr_issues := [] |}
  else
    {| cr_score := 100; cr_count := count; cr_issues := [] |}.

(** [sum(scores) / len(scores) if scores else 0], where [scores] are the
    values of [results["scores"]]. *)
Definition overall_score (scores : list (string * Z)) : pyval :=
  match scores with
  | [] => PyInt 0
  | _ => PyFloat (truediv (fold_right Z.add 0%Z (map snd scores))
                          (Z.of_nat (List.length scores)))
  end.

Definition int_dict (d : list (string * Z)) : pyval :=
  PyDict (map (fun kv => (fst kv, PyInt (snd kv))) d).
Definition str_list (l : list string) : pyval := PyList (map PyStr l).

(** The dict a rule set returns when every check has run, and the one it
    is left with when the parser raises before the first check. *)
Definition rule_bundle (scores : list (string * Z)) (issues : list string)
    (metrics : list (string * Z)) : pyval :=
  PyDict [("scores", int_dict scores); ("issues", str_list issues);
          ("metrics", int_dict metrics); ("overall_score", overall_score scores)].
Definition rule_bundle_error (msg : string) : pyval :=
  PyDict [("scores", PyDict []); ("issues", PyList []); ("metrics", PyDict []);
          ("error", PyStr msg)].

Section Rules.
Context {E : External}.

(** The checks of [check_seo] on a parsed page. *)
Definition seo_checks (s : soup) (text : string) : pyval :=
  let title_result := check_title_tag s in
  let meta_result := check_meta_description s in
  let h1_result := check_h1_tags s in
  let canonical_result := check_canonical s in
  let word_count_result := check_word_count text in
  rule_bundle
    [("title", lr_score title_result);
     ("meta_description", lr_score meta_result);
     ("h1", cr_score h1_result);
     ("canonical", pr_score canonical_result);
     ("word_count", cr_score word_count_result)]
    (lr_issues title_result ++ lr_issues meta_result ++ cr_issues h1_result
       ++ pr_issues canonical_result ++ cr_issues word_count_result)%list
    [("title_length", lr_length title_result);
     ("meta_desc_length", lr_length meta_result);
     ("h1_count", cr_count h1_result);
     ("word_count", cr_count word_count_result)].

Definition check_seo (html text : string) : pyval :=
  match html_parser html with
  | Ok s => seo_checks s text
  | Raise e => rule_bundle_error (str_of_exn e)
  end.

(** ** rules/a11y_rules.py *)

Definition check_image_alts (s : soup) : RatioResult :=
  let images := find_all ["img"] s in
  let total := Z.of_nat (List.length images) in
  if (total =? 0)%Z then
    {| rr_score := 100; rr_total := total; rr_with := 0; rr_issues := [] |}
  else
    let with_alt :=
      Z.of_nat (List.length
                  (List.filter (fun img => match tag_get img "alt" with
                                      | Some _ => true
                                      | None => false
                                      end) images)) in
    let alt_percentage :=
      if (0 <? total)%Z
      then PrimFloat.mul (truediv with_alt total) (float_of_Z 100)
      else float_of_Z 0 in
    let issue := str_of_Z (total - with_alt) ++ " images missing alt text ("
                   ++ format_1f alt_percentage ++ "% have alt)" in
    if PrimFloat.eqb alt_percentage (float_of_Z 100) then
      {| rr_score := 100; rr_total := total; rr_with := with_alt; rr_issues := [] |}
    else if PrimFloat.leb (float_of_Z 80) alt_percentage then
      {| rr_score := 75; rr_total := total; rr_with := with_alt;
         rr_issues := [issue] |}
    else if PrimFloat.leb (float_of_Z 50) alt_percentage then
      {| rr_score := 50; rr_total := total; rr_with := with_alt;
         rr_issues := [issue] |}
    else
      {| rr_score := 25; rr_total := total; rr_with := with_alt;
         rr_issues := [issue] |}.

(** The levels of the headings, collected level by level:
    all [h1] first, then all [h2], ... *)
Definition heading_levels (s : soup) : list Z :=
  flat_map (fun level =>
              map (fun _ => level) (find_all ["h" ++ str_of_Z level] s))
           [1; 2; 3; 4; 5; 6]%Z.

(** The first adjacent pair that skips a level. *)
Fixpoint first_skip (headings : list Z) : option (Z * Z) :=
  match headings with
  | a :: ((b :: _) as rest) =>
      if (1 <? b - a)%Z then Some (a, b) else first_skip rest
  | _ => None
  end.

Definition check_heading_hierarchy (s : soup) : PlainResult :=
  let headings := heading_levels s in
  match headings with
  | [] => {| pr_score := 50; pr_issues := ["No headings found"] |}
  | _ =>
      match first_skip headings with
      | Some (a, b) =>
          {| pr_score := 50;
             pr_issues := ["Heading hierarchy skips from H" ++ str_of_Z a
                             ++ " to H" ++ str_of_Z b] |}
      | None => {| pr_score := 100; pr_issues := [] |}
      end
  end.

Definition generic_phrases : list string :=
  ["click here"; "read more"; "here"; "more"; "link"].

Definition check_link_text (s : soup) : RatioResult :=
  let links := find_all ["a"] s in
  let total := Z.of_nat (List.length links) in
  if (total =? 0)%Z then
    {| rr_score := 100; rr_total := total; rr_with := 0; rr_issues := [] |}
  else
    let texts := map (fun link => lower (get_text "" link)) links in
    let with_text_links := List.filter (fun text => negb (String.eqb text "")) texts in
    let with_text := Z.of_nat (List.length with_text_links) in
    let generic_count :=
      Z.of_nat (List.length
                  (List.filter (fun text => existsb (String.eqb text) generic_phrases)
                          with_text_links)) in
    let text_percentage :=
      if (0 <? total)%Z
      then PrimFloat.mul (truediv with_text total) (float_of_Z 100)
      else float_of_Z 0 in
    if PrimFloat.ltb text_percentage (float_of_Z 80) then
      {| rr_score := 25; rr_total := total; rr_with := with_text;
         rr_issues := [str_of_Z (total - with_text) ++ " links without text ("
                         ++ format_1f text_percentage ++ "% have text)"] |}
    else if PrimFloat.ltb (PrimFloat.mul (float_of_Z total) (truediv 1 5 (* 0.2 *)))
                          (float_of_Z generic_count) then
      {| rr_score := 50; rr_total := total; rr_with := with_text;
         rr_issues := [str_of_Z generic_count
                         ++ " links use generic text (e.g., 'click here', 'read more')"] |}
    else
      {| rr_score := 100; rr_total := total; rr_with := with_text; rr_issues := [] |}.

(** The checks of [check_a11y] on a parsed page. *)
Definition a11y_checks (s : soup) : pyval :=
  let img_result := check_image_alts s in
  let heading_result := check_heading_hierarchy s in
  let link_result := check_link_text s in
  rule_bundle
    [("image_alts", rr_score img_result);
     ("heading_hierarchy", pr_score heading_result);
     ("link_text", rr_score link_result)]
    (rr_issues img_result ++ pr_issues heading_result ++ rr_issues link_result)%list
    [("images_total", rr_total img_result);
     ("images_with_alt", rr_with img_result);
     ("links_total", rr_total link_result);
     ("links_with_text", rr_with link_result)].

Definition check_a11y (html text : string) : pyval :=
  match html_parser html with
  | Ok s => a11y_checks s
  | Raise e => rule_bundle_error (str_of_exn e)
  end.

End Rules.

(** ** utils/budget.py *)

(** The fields of a [BudgetManager] object. *)
Record BudgetState : Type := {
  max_calls : Z;
  calls_made : Z;
  calls_by_type : gmap string Z;
}.

Module BudgetManager.

(** [BudgetManager(max_calls)]. *)
Definition new (max_calls : Z) : BudgetState :=
  {| max_calls := max_calls; calls_made := 0; calls_by_type := ∅ |}.

Definition can_make_call (self : BudgetState) (call_type : string) : bool :=
  if (max_calls self <=? calls_made self)%Z then false else true.

Definition record_call (self : BudgetState) (call_type : string) : BudgetState :=
  {| max_calls := max_calls self;
     calls_made := calls_made self + 1;
     calls_by_type :=
       <[call_type := default 0%Z (calls_by_type self !! call_type) + 1]>
         (calls_by_type self) |}.

Definition reset (self : BudgetState) : BudgetState :=
  {| max_calls := max_calls self; calls_made := 0; calls_by_type := ∅ |}.

(** The dict [get_stats()] returns. *)
Record Stats : Type := {
  total_calls : Z;
  stats_max_calls : Z;
  remaining_calls : Z;
  budget_used_percent : pyval;
  stats_calls_by_type : gmap string Z;
}.

Definition get_stats (self : BudgetState) : Stats :=
  {| total_calls := calls_made self;
     stats_max_calls := max_calls self;
     remaining_calls := Z.max 0 (max_calls self - calls_made self);
     budget_used_percent :=
       if (0 <? max_calls self)%Z
       then PyFloat (PrimFloat.mul (truediv (calls_made self) (max_calls self))
                                   (float_of_Z 100))
       else PyInt 0;
     stats_calls_by_type := calls_by_type self |}.

End BudgetManager.

(** ** utils/cache.py

    The cache directory is a finite map from file names to file contents;
    reading and writing a file of the directory always succeeds. *)

Definition is_json_file (name : string) : bool :=
  String.eqb (drop (String.length name - String.length ".json") name) ".json"
  && (String.length ".json" <=? String.length name)%nat.

Module Cache.
Section WithExternal.
Context {E : External}.

Definition _get_hash (key : string) : string := sha256_hexdigest key.

(** The file name below [cache_dir]. *)
Definition _get_cache_path (key : string) : string :=
  _get_hash key ++ ".json".

(** [cache.get(key)]: [None] for a missing entry and for one that does not
    parse. *)
Definition get (dir : gmap string string) (key : string) : pyval :=
  match dir !! _get_cache_path key with
  | Some content =>
      match json_loads content with
      | Ok data => data
      | Raise _ => PyNone
      end
  | None => PyNone
  end.

Definition set (dir : gmap string string) (key : string) (data : pyval)
  : gmap string string :=
  <[_get_cache_path key := json_dump_indent data]> dir.

(** The files [cache_dir.glob("*.json")] yields. *)
Definition json_files (dir : gmap string string) : gmap string string :=
  filter (fun kv => is_json_file (fst kv) = true) dir.

(** [count] when the loop of [clear] is over. *)
Definition clear_count (dir : gmap string string) : Z :=
  Z.of_nat (size (json_files dir)).

(** [cache.clear()]: the value the call returns (the function has no
    [return]) and the directory it leaves. *)
Definition clear (dir : gmap string string) : pyval * gmap string string :=
  (PyNone, filter (fun kv => is_json_file (fst kv) = false) dir).

(** The line [clear] logs. *)
Definition clear_log (dir : gmap string string) : string :=
  "Cleared " ++ str_of_Z (clear_count dir) ++ " cached files".

(** [get_stats()["total_entries"]] and [["total_size_bytes"]]. *)
Definition total_entries (dir : gmap string string) : Z :=
  Z.of_nat (size (json_files dir)).
Definition total_size_bytes (dir : gmap string string) : Z :=
  map_fold (fun _ content acc => (len content + acc)%Z) 0%Z (json_files dir).

End WithExternal.
End Cache.

(** ** The state of a run *)

(** One entry per invocation of a collaborator by [process_page]: what a
    test with mocked collaborators counts. *)
Inductive Call : Type :=
| CallFetch (url : string)
| CallExtract (html : string)
| CallCheckSeo (html text : string)
| CallCheckA11y (html text : string)
| CallAnalyzeTone (text : string)
| CallRecord (call_type : string).

Record World {E : External} : Type := {
  files : gmap string string;   (** the cache directory *)
  budget : BudgetState;         (** the [BudgetManager] of the run *)
  env : Env;                    (** the outside world *)
  calls : list Call;            (** the invocations so far, oldest first *)
}.

Section Pipeline.
Context {E : External}.

(** Code that reads and writes the state of the run and may raise. *)
Definition M (A : Type) : Type := World -> pyres A * World.

Definition ret {A} (a : A) : M A := fun w => (Ok a, w).
Definition bind {A B} (m : M A) (k : A -> M B) : M B :=
  fun w => match m w with
           | (Ok a, w') => k a w'
           | (Raise e, w') => (Raise e, w')
           end.
Definition lift {A} (r : pyres A) : M A := fun w => (r, w).

Notation "'do!' x <- m ; k" := (bind m (fun x => k))
  (at level 10, x name, m at level 100, k at level 200).
Notation "'run!' m ; k" := (bind m (fun _ => k))
  (at level 10, m at level 100, k at level 200).

Definition set_files (f : gmap string string) : M unit :=
  fun w => (Ok tt, {| files := f; budget := budget w; env := env w; calls := calls w |}).
Definition set_budget (b : BudgetState) : M unit :=
  fun w => (Ok tt, {| files := files w; budget := b; env := env w; calls := calls w |}).
Definition called (c : Call) : M unit :=
  fun w => (Ok tt, {| files := files w; budget := budget w; env := env w;
                      calls := (calls w ++ [c])%list |}).
Definition get_files : M (gmap string string) := fun w => (Ok (files w), w).
Definition get_budget : M BudgetState := fun w => (Ok (budget w), w).

(** A call of the outside world: its answer, and the world moved on. *)
Definition ask {A} (f : Env -> A * Env) : M A :=
  fun w => let (a, e') := f (env w) in
           (Ok a, {| files := files w; budget := budget w; env := e';
                     calls := calls w |}).

(** ** utils/html_fetch.py *)

(** [fetch_page(url)]: every exception is caught and gives [None]. *)
Definition fetch_page (url : string) : M (option string) :=
  do! response <- ask (httpx_get url);
  match response with
  | Ok text => ret (Some text)
  | Raise _ => ret None
  end.

(** ** utils/html_to_text.py *)

Definition extract_text_max_length : Z := 50000.

(** The body of the [try] of [extract_text]. *)
Definition extract_text_body (html : string) : pyres string :=
  (try! content_html <- readability_summary html;
   try! s <- html_parser content_html;
   let s := decompose_all ["script"; "style"] s in
   let text := join " " (stripped_strings s) in
   let text := collapse_ws text in
   let text := strip text in
   let text := if (extract_text_max_length <? len text)%Z
               then take (Z.to_nat extract_text_max_length) text
               else text in
   Ok text)%pyres.

Definition extract_text (html : string) : option string :=
  match extract_text_body html with
  | Ok text => Some text
  | Raise _ => None
  end.

(** ** chains/tone_chain.py *)

Definition tone_max_length : Z := 1200.

Definition tone_prompt (text : string) : string :=
  "You are a concise content analyzer. Analyze the following text for tone and readability."
  ++ newline ++ newline
  ++ "Provide your response as a JSON object with these exact keys:" ++ newline
  ++ "- " ++ dquote ++ "readability" ++ dquote
  ++ ": Brief assessment (max 2 sentences)" ++ newline
  ++ "- " ++ dquote ++ "tone" ++ dquote
  ++ ": Brief description (max 2 sentences)" ++ newline
  ++ "- " ++ dquote ++ "risks" ++ dquote
  ++ ": Potential issues (max 2 sentences)" ++ newline ++ newline
  ++ "Text to analyze:" ++ newline
  ++ text ++ newline ++ newline
  ++ "Response (JSON only):".

(** [response.strip()] and the removal of a markdown code fence. *)
Definition clean_response (response : string) : string :=
  let response := strip response in
  if startswith response backtick3 then
    let lines := split_char "010"%char response in
    let response := if (2 <? List.length lines)%nat
                    then join newline (removelast (tl lines))
                    else response in
    strip (remove_all backtick3 (remove_all (backtick3 ++ "json") response))
  else response.

Definition required_keys : list string := ["readability"; "tone"; "risks"].

(** [key in result]. *)
Definition py_in (key : string) (result : pyval) : pyres bool :=
  match result with
  | PyDict d => Ok (match dict_get key d with Some _ => true | None => false end)
  | PyList l => Ok (existsb (fun x => match x with
                                      | PyStr s => String.eqb s key
                                      | _ => false
                                      end) l)
  | PyStr s => Ok (contains s key)
  | _ => Raise TypeError
  end.

(** [all(key in result for key in keys)]. *)
Fixpoint all_in (keys : list string) (result : pyval) : pyres bool :=
  match keys with
  | [] => Ok true
  | key :: keys' =>
      (try! found <- py_in key result;
       if found then all_in keys' result else Ok false)%pyres
  end.

Definition placeholder_invalid_format : pyval :=
  PyDict [("readability", PyStr "Unable to analyze");
          ("tone", PyStr "Unable to analyze");
          ("risks", PyStr "Analysis failed - invalid response format")].
Definition placeholder_parse_error : pyval :=
  PyDict [("readability", PyStr "Unable to analyze");
          ("tone", PyStr "Unable to analyze");
          ("risks", PyStr "Analysis failed - JSON parse error")].

(** The inner [try] of [analyze_tone], with its
    [except json.JSONDecodeError]. *)
Definition parse_response (response : string) : pyres pyval :=
  let response := clean_response response in
  match json_loads response with
  | Ok result =>
      (try! complete <- all_in required_keys result;
       if negb complete then Ok placeholder_invalid_format else Ok result)%pyres
  | Raise JSONDecodeError => Ok placeholder_parse_error
  | Raise e => Raise e
  end.

(** The outer [try] of [analyze_tone]: what it returns or raises. *)
Definition analyze_tone_body (text : string) : M (pyres pyval) :=
  let text := if (tone_max_length <? len text)%Z
              then take (Z.to_nat tone_max_length) text
              else text in
  let prompt := tone_prompt text in
  do! response <- ask (ollama_invoke prompt);
  match response with
  | Ok response => ret (parse_response response)
  | Raise e => ret (Raise e)
  end.

(** [analyze_tone(text)]: [except Exception] turns a raise into [None]. *)
Definition analyze_tone (text : string) : M pyval :=
  do! outcome <- analyze_tone_body text;
  match outcome with
  | Ok result => ret result
  | Raise _ => ret PyNone
  end.

(** ** main.py *)

(** The result of a page that could not be fetched or read. *)
Definition error_result (url msg : string) : pyval :=
  PyDict [("url", PyStr url); ("error", PyStr msg); ("seo_rules", PyDict []);
          ("a11y_rules", PyDict []); ("tone_summary", PyNone)].

(** [a + b] for the two issue lists [process_page] adds.  Only lists are
    added there; no other pair of operands is given a value. *)
Definition concat_issues (a b : pyval) : pyres pyval :=
  match a, b with
  | PyList x, PyList y => Ok (PyList (x ++ y))
  | _, _ => Raise TypeError
  end.

(** The dict [process_page] compiles from the rule results and the tone
    summary. *)
Definition compile_result (url : string) (seo_results a11y_results tone_summary : pyval)
  : pyres pyval :=
  (try! seo_issues <- py_get seo_results "issues" (PyList []);
   try! a11y_issues <- py_get a11y_results "issues" (PyList []);
   try! issues <- concat_issues seo_issues a11y_issues;
   try! seo_score <- py_get seo_results "overall_score" (PyInt 0);
   try! a11y_score <- py_get a11y_results "overall_score" (PyInt 0);
   Ok (PyDict [("url", PyStr url);
               ("seo_rules", seo_results);
               ("a11y_rules", a11y_results);
               ("tone_summary", tone_summary);
               ("issues", issues);
               ("scores", PyDict [("seo", seo_score); ("a11y", a11y_score)])]))%pyres.

(** The optional tone analysis of [process_page]: the call is recorded
    only after the analyzer returned a non-empty value. *)
Definition tone_step (text : string) (use_llm : bool) : M pyval :=
  do! b <- get_budget;
  if use_llm && BudgetManager.can_make_call b "tone_analysis" then
    run! called (CallAnalyzeTone text);
    do! tone_summary <- analyze_tone text;
    if truthy tone_summary then
      run! called (CallRecord "tone_analysis");
      do! b <- get_budget;
      run! set_budget (BudgetManager.record_call b "tone_analysis");
      ret tone_summary
    else ret tone_summary
  else ret PyNone.

(** [process_page(url, cache, budget, use_llm)].  The [called] lines log
    the invocation that follows them; the source has no counterpart for
    them. *)
Definition process_page (url : string) (use_llm : bool) : M pyval :=
  (* Check cache first *)
  do! dir <- get_files;
  let cached := Cache.get dir url in
  if truthy cached then ret cached else
  (* Fetch HTML *)
  run! called (CallFetch url);
  do! html <- fetch_page url;
  if negb (truthy_str html) then ret (error_result url "Failed to fetch page") else
  let html := default "" html in
  (* Extract text and metadata *)
  run! called (CallExtract html);
  let text := extract_text html in
  if negb (truthy_str text) then ret (error_result url "Failed to extract text") else
  let text := default "" text in
  (* Run rule-based checks *)
  run! called (CallCheckSeo html text);
  let seo_results := check_seo html text in
  run! called (CallCheckA11y html text);
  let a11y_results := check_a11y html text in
  (* Optionally run LLM tone analysis *)
  do! tone_summary <- tone_step text use_llm;
  (* Compile results *)
  do! result <- lift (compile_result url seo_results a11y_results tone_summary);
  (* Cache result *)
  do! dir <- get_files;
  run! set_files (Cache.set dir url result);
  ret result.

(** The loop of [audit] over the pages: [results] is the list so far. *)
Fixpoint batch_loop (urls : list string) (no_llm : bool) (results : list pyval)
  : M (list pyval) :=
  match urls with
  | [] => ret results
  | url :: urls' =>
      do! result <- process_page url (negb no_llm);
      let results := (results ++ [result])%list in
      do! b <- get_budget;
      (* Stop if budget exhausted *)
      if negb no_llm && negb (BudgetManager.can_make_call b "default")
      then ret results
      else batch_loop urls' no_llm results
  end.

(** [l[:n]]. *)
Definition slice_to {A} (n : Z) (l : list A) : list A :=
  if (0 <=? n)%Z then firstn (Z.to_nat n) l
  else firstn (List.length l - Z.to_nat (- n)) l.

(** [f"{v:.1f}"]; the ints formatted here are scores between 0 and 100. *)
Definition format_score (v : pyval) : pyres string :=
  match v with
  | PyFloat f => Ok (format_1f f)
  | PyInt z => Ok (format_1f (float_of_Z z))
  | PyBool b => Ok (format_1f (float_of_Z (if b then 1 else 0)))
  | PyStr _ => Raise ValueError
  | _ => Raise TypeError
  end.

Definition summary_header : list pyval :=
  [PyStr "URL"; PyStr "SEO Score"; PyStr "A11y Score"; PyStr "Issues Count";
   PyStr "Has Tone Analysis"].

(** The row of [summary.csv] for one result. *)
Definition summary_row (result : pyval) : pyres (list pyval) :=
  (try! url <- subscript result "url";
   try! scores <- subscript result "scores";
   try! seo <- subscript scores "seo";
   try! seo_cell <- format_score seo;
   try! scores <- subscript result "scores";
   try! a11y <- subscript scores "a11y";
   try! a11y_cell <- format_score a11y;
   try! issues <- subscript result "issues";
   try! issues_count <- py_len issues;
   try! tone_summary <- py_get result "tone_summary" PyNone;
   Ok [url; PyStr seo_cell; PyStr a11y_cell; PyInt issues_count;
       PyStr (if truthy tone_summary then "Yes" else "No")])%pyres.

Fixpoint summary_rows (results : list pyval) : pyres (list (list pyval)) :=
  match results with
  | [] => Ok []
  | result :: results' =>
      (try! row <- summary_row result;
       try! rows <- summary_rows results';
       Ok (row :: rows))%pyres
  end.

(** The two report files: the lines of [pages.jsonl] and the rows of
    [summary.csv]. *)
Record Reports : Type := {
  pages_jsonl : list string;
  summary_csv : list (list pyval);
}.

(** The report writing of [audit].  [pages.jsonl] is written first; a
    raise while a row of [summary.csv] is computed ends the run. *)
Definition save_reports (results : list pyval) : pyres Reports :=
  let lines := map (fun result => json_dumps result ++ newline) results in
  (try! rows <- summary_rows results;
   Ok {| pages_jsonl := lines; summary_csv := summary_header :: rows |})%pyres.

(** What [list.extend(v)] iterates over. *)
Definition py_iter (v : pyval) : pyres (list pyval) :=
  match v with
  | PyList l => Ok l
  | PyDict d => Ok (map (fun kv => PyStr (fst kv)) d)
  | PyStr s => Ok (map (fun c => PyStr (String c "")) (list_ascii_of_string s))
  | _ => Raise TypeError
  end.

Definition hashable (v : pyval) : bool :=
  match v with
  | PyList _ | PyDict _ => false
  | _ => true
  end.

(** The statistics [audit] prints after the reports, as far as they can
    raise: the average time per page and the count of the issues. *)
Fixpoint all_issues (results : list pyval) : pyres (list pyval) :=
  match results with
  | [] => Ok []
  | result :: results' =>
      (try! issues <- subscript result "issues";
       try! items <- py_iter issues;
       try! rest <- all_issues results';
       Ok (items ++ rest)%list)%pyres
  end.
Definition run_statistics (results : list pyval) : pyres unit :=
  match results with
  | [] => Raise ZeroDivisionError
  | _ =>
      (try! issues <- all_issues results;
       if forallb hashable issues then Ok tt else Raise TypeError)%pyres
  end.

(** The state [audit] starts from: the cache directory as found on disk
    (emptied when [clear_cache] is set), a fresh budget. *)
Definition initial_world (dir : gmap string string) (e : Env)
    (max_llm_calls : Z) (clear_cache : bool) : World :=
  {| files := if clear_cache then snd (Cache.clear dir) else dir;
     budget := BudgetManager.new max_llm_calls;
     env := e;
     calls := [] |}.

(** [audit] after its set-up, from the list of URLs read from the input
    file to the reports and the statistics. *)
Definition audit_pages (all_urls : list string) (max_pages : Z) (no_llm : bool)
  : M Reports :=
  (* Limit URLs *)
  let urls := slice_to max_pages all_urls in
  (* Process pages *)
  do! results <- batch_loop urls no_llm [];
  (* Save results *)
  do! reports <- lift (save_reports results);
  (* Display statistics *)
  run! lift (run_statistics results);
  ret reports.

(** [audit]: the reports it writes, or the exception that ends it, and
    the state it leaves.  [dir] and [e] are the cache directory and the
    outside world it finds. *)
Definition audit (all_urls : list string) (max_pages : Z) (no_llm : bool)
    (max_llm_calls : Z) (clear_cache : bool) (dir : gmap string string) (e : Env)
  : pyres Reports * World :=
  audit_pages all_urls max_pages no_llm
    (initial_world dir e max_llm_calls clear_cache).

End Pipeline.

(** ** Code beside the pipeline *)

Section Beside.
Context {E : External}.

(** [tag[attr]] as a Python value. *)
Definition attr_pyval (v : attr_value) : pyval :=
  match v with
  | AttrStr s => PyStr s
  | AttrList l => PyList (map PyStr l)
  end.

Definition heading_names : list string := ["h1"; "h2"; "h3"; "h4"; "h5"; "h6"].

(** The dict [extract_metadata] starts with, and returns when the parser
    raises. *)
Definition empty_metadata : pyval :=
  PyDict [("title", PyNone);
          ("meta_description", PyNone);
          ("canonical_url", PyNone);
          ("h1_tags", PyList []);
          ("headings_count",
           PyDict (map (fun name => (name, PyInt 0)) heading_names))].

(** [extract_metadata(html)] in [utils/html_to_text.py]. *)
Definition extract_metadata (html : string) : pyval :=
  match html_parser html with
  | Raise _ => empty_metadata
  | Ok s =>
      let title :=
        match find "title" s with
        | Some title_tag => PyStr (get_text "" title_tag)
        | None => PyNone
        end in
      let meta_description :=
        match find_attr "meta" "name" "description" s with
        | Some meta_desc =>
            match tag_get meta_desc "content" with
            | Some content =>
                if attr_truthy (Some content) then attr_pyval content else PyNone
            | None => PyNone
            end
        | None => PyNone
        end in
      let canonical_url :=
        match find_attr "link" "rel" "canonical" s with
        | Some canonical =>
            match tag_get canonical "href" with
            | Some href =>
                if attr_truthy (Some href) then attr_pyval href else PyNone
            | None => PyNone
            end
        | None => PyNone
        end in
      let h1_tags := find_all ["h1"] s in
      PyDict [("title", title);
              ("meta_description", meta_description);
              ("canonical_url", canonical_url);
              ("h1_tags", PyList (map (fun h1 => PyStr (get_text "" h1)) h1_tags));
              ("headings_count",
               PyDict (map (fun level =>
                              ("h" ++ str_of_Z level,
                               PyInt (Z.of_nat (List.length
                                                  (find_all ["h" ++ str_of_Z level] s)))))
                           [1; 2; 3; 4; 5; 6]%Z))]
  end.

(** A row of [csv.DictReader]: a value per column, [None] for a column
    the line is too short for. *)
Definition csv_row : Type := list (string * option string).

(** [row.get(column)]. *)
Fixpoint row_get (row : csv_row) (column : string) : option string :=
  match row with
  | [] => None
  | (c, v) :: row' => if String.eqb column c then v else row_get row' column
  end.

(** [a or b] on optional strings. *)
Definition py_or (a b : option string) : option string :=
  if truthy_str a then a else b.

(** The loop of [load_urls_from_csv] over the rows of the file. *)
Fixpoint urls_of_rows (rows : list csv_row) : list string :=
  match rows with
  | [] => []
  | row :: rows' =>
      (* Try common column names *)
      let url := py_or (py_or (py_or (row_get row "url") (row_get row "URL"))
                              (row_get row "Url"))
                       (row_get row "link") in
      if truthy_str url
      then strip (default "" url) :: urls_of_rows rows'
      else urls_of_rows rows'
  end.

(** [load_urls_from_csv(csv_path)]: [reader] is what opening and reading
    the file gives, the rows or the exception, which is raised again. *)
Definition load_urls_from_csv (reader : pyres (list csv_row)) : pyres (list string) :=
  match reader with
  | Ok rows => Ok (urls_of_rows rows)
  | Raise e => Raise e
  end.

End Beside.

(** ** A concrete outside world

    Stand-ins for the libraries, in the way a test suite mocks them: a
    small JSON printer and reader, a network that serves a line of text
    for every [http] URL (a blank page below [http://blank]) and refuses
    the others, a parser that wraps the text of a page into one
    paragraph, and a model that answers with a well-formed summary.  They make the
    hypotheses of the theorems below checkable on concrete runs. *)

Module Mock.

Definition dq : ascii := "034"%char.
Definition bs : ascii := "092"%char.

Fixpoint escape (s : string) : string :=
  match s with
  | EmptyString => EmptyString
  | String c s' =>
      if Ascii.eqb c dq || Ascii.eqb c bs
      then String bs (String c (escape s'))
      else String c (escape s')
  end.

Definition quoted (s : string) : string := dquote ++ escape s ++ dquote.

Fixpoint dumps (v : pyval) : string :=
  match v with
  | PyNone => "null"
  | PyBool true => "true"
  | PyBool false => "false"
  | PyInt z => str_of_Z z
  | PyFloat _ => "NaN"
  | PyStr s => quoted s
  | PyList l =>
      "[" ++ join ", " ((fix items (l : list pyval) : list string :=
                           match l with
                           | [] => []
                           | x :: l' => dumps x :: items l'
                           end) l) ++ "]"
  | PyDict d =>
      "{" ++ join ", " ((fix members (d : list (string * pyval)) : list string :=
                           match d with
                           | [] => []
                           | (k, x) :: d' => (quoted k ++ ": " ++ dumps x) :: members d'
                           end) d) ++ "}"
  end.

Fixpoint skip_ws (s : list ascii) : list ascii :=
  match s with
  | c :: s' => if is_space c then skip_ws s' else s
  | [] => []
  end.

(** The characters of a string literal after its opening quote. *)
Fixpoint read_string (s : list ascii) (acc : list ascii)
  : option (string * list ascii) :=
  match s with
  | [] => None
  | c :: s' =>
      if Ascii.eqb c dq then Some (string_of_list_ascii (rev acc), s')
      else if Ascii.eqb c bs then
        match s' with
        | e :: s'' => read_string s'' (e :: acc)
        | [] => None
        end
      else read_string s' (c :: acc)
  end.

Definition digit_of (c : ascii) : option Z :=
  let n := Z.of_N (N_of_ascii c) in
  if (48 <=? n)%Z && (n <=? 57)%Z then Some (n - 48)%Z else None.

Fixpoint read_digits (s : list ascii) (acc : Z) : Z * list ascii :=
  match s with
  | c :: s' =>
      match digit_of c with
      | Some d => read_digits s' (10 * acc + d)%Z
      | None => (acc, s)
      end
  | [] => (acc, [])
  end.

Definition expect (c : ascii) (s : list ascii) : option (list ascii) :=
  match skip_ws s with
  | c' :: s' => if Ascii.eqb c c' then Some s' else None
  | [] => None
  end.

Fixpoint read_value (fuel : nat) (s : list ascii) : option (pyval * list ascii) :=
  match fuel with
  | O => None
  | S fuel' =>
      match skip_ws s with
      | "n" :: "u" :: "l" :: "l" :: s' => Some (PyNone, s')
      | "t" :: "r" :: "u" :: "e" :: s' => Some (PyBool true, s')
      | "f" :: "a" :: "l" :: "s" :: "e" :: s' => Some (PyBool false, s')
      | "N" :: "a" :: "N" :: s' => Some (PyFloat PrimFloat.nan, s')
      | "[" :: s' =>
          match skip_ws s' with
          | "]" :: s'' => Some (PyList [], s'')
          | _ => match read_items fuel' s' with
                 | Some (l, s'') => Some (PyList l, s'')
                 | None => None
                 end
          end
      | "{" :: s' =>
          match skip_ws s' with
          | "}" :: s'' => Some (PyDict [], s'')
          | _ => match read_members fuel' s' with
                 | Some (d, s'') => Some (PyDict d, s'')
                 | None => None
                 end
          end
      | "-" :: c :: s' =>
          match digit_of c with
          | Some _ => let (z, s'') := read_digits (c :: s') 0 in Some (PyInt (- z), s'')
          | None => None
          end
      | c :: s' =>
          if Ascii.eqb c dq then
            match read_string s' [] with
            | Some (str, s'') => Some (PyStr str, s'')
            | None => None
            end
          else
            match digit_of c with
            | Some _ => let (z, s'') := read_digits (c :: s') 0 in Some (PyInt z, s'')
            | None => None
            end
      | [] => None
      end
  end%char
with read_items (fuel : nat) (s : list ascii) : option (list pyval * list ascii) :=
  match fuel with
  | O => None
  | S fuel' =>
      match read_value fuel' s with
      | Some (v, s') =>
          match skip_ws s' with
          | "," :: s'' =>
              match read_items fuel' s'' with
              | Some (l, s''') => Some (v :: l, s''')
              | None => None
              end
          | "]" :: s'' => Some ([v], s'')
          | _ => None
          end
      | None => None
      end
  end%char
with read_members (fuel : nat) (s : list ascii)
  : option (list (string * pyval) * list ascii) :=
  match fuel with
  | O => None
  | S fuel' =>
      match expect dq s with
      | Some s1 =>
          match read_string s1 [] with
          | Some (k, s2) =>
              match expect ":" s2 with
              | Some s3 =>
                  match read_value fuel' s3 with
                  | Some (v, s4) =>
                      match skip_ws s4 with
                      | "," :: s5 =>
                          match read_members fuel' s5 with
                          | Some (d, s6) => Some ((k, v) :: d, s6)
                          | None => None
                          end
                      | "}" :: s5 => Some ([(k, v)], s5)
                      | _ => None
                      end
                  | None => None
                  end
              | None => None
              end
          | None => None
          end
      | None => None
      end
  end%char.

Definition loads (s : string) : pyres pyval :=
  let cs := list_ascii_of_string s in
  match read_value (S (List.length cs)) cs with
  | Some (v, rest) =>
      match skip_ws rest with
      | [] => Ok v
      | _ => Raise JSONDecodeError
      end
  | None => Raise JSONDecodeError
  end.

(** The model's answer to a prompt, unless the text to analyze says
    otherwise: a text with [garbled] in it is answered in prose, one with
    [partial] by an incomplete object, one with [timeout] not at all. *)
Definition answer : string :=
  dumps (PyDict [("readability", PyStr "Easy to read.");
                 ("tone", PyStr "Neutral.");
                 ("risks", PyStr "None found.")]).

(** An answer that is JSON but lacks two of the keys. *)
Definition partial_answer : string :=
  dumps (PyDict [("tone", PyStr "Neutral.")]).

Definition external : External :=
  {| Env := nat;
     sha256_hexdigest := fun key => "sha256:" ++ key;
     json_dumps := dumps;
     json_dump_indent := dumps;
     json_loads := loads;
     httpx_get := fun url requests =>
       (if String.prefix "http://blank" url then Ok " "
        else if String.prefix "http" url then Ok ("Page at " ++ url)
        else Raise (OtherError "unsupported protocol"),
        S requests);
     readability_summary := fun html => Ok html;
     html_parser := fun html =>
       Ok (if String.eqb html "" then [] else [NTag "p" [] [NText html]]);
     ollama_invoke := fun prompt requests =>
       (if contains prompt "garbled" then Ok "The text reads well."
        else if contains prompt "partial" then Ok partial_answer
        else if contains prompt "timeout"
        then Raise (OtherError "connection refused")
        else Ok answer,
        S requests);
     format_1f := fun f => "0.0";
     str_of_exn := fun e => "error" |}.

End Mock.

(** * The runs of the pipeline as functions of the outside world *)

Section Views.
Context {E : External}.

(** What [fetch_page(url)] returns when the outside world is [e]. *)
Definition fetched (url : string) (e : Env) : option string :=
  match fst (httpx_get url e) with
  | Ok text => Some text
  | Raise _ => None
  end.

(** The outside world after the request for [url]. *)
Definition after_fetch (url : string) (e : Env) : Env := snd (httpx_get url e).

(** ** The tone analysis, as a function of the outside world *)

Definition tone_text (text : string) : string :=
  if (tone_max_length <? len text)%Z
  then take (Z.to_nat tone_max_length) text
  else text.

(** What the [try] block of [analyze_tone(text)] comes to when the outside
    world is [e]: a value, or the exception it raises. *)
Definition tone_outcome (text : string) (e : Env) : pyres pyval :=
  match fst (ollama_invoke (tone_prompt (tone_text text)) e) with
  | Ok response => parse_response response
  | Raise err => Raise err
  end.

(** What [analyze_tone(text)] returns. *)
Definition tone_value (text : string) (e : Env) : pyval :=
  match tone_outcome text e with
  | Ok result => result
  | Raise _ => PyNone
  end.

Definition after_tone (text : string) (e : Env) : Env :=
  snd (ollama_invoke (tone_prompt (tone_text text)) e).

(** The state after the tone step, when the step is taken. *)
Definition tone_taken (text : string) (w : World) : World :=
  let tone := tone_value text (env w) in
  {| files := files w;
     budget := if truthy tone
               then BudgetManager.record_call (budget w) "tone_analysis"
               else budget w;
     env := after_tone text (env w);
     calls := if truthy tone
              then (calls w ++ [CallAnalyzeTone text; CallRecord "tone_analysis"])%list
              else (calls w ++ [CallAnalyzeTone text])%list |}.

(** The tone step in one equation: it never raises. *)
Definition tone_result (text : string) (use_llm : bool) (w : World) : pyval * World :=
  if use_llm && BudgetManager.can_make_call (budget w) "tone_analysis"
  then (tone_value text (env w), tone_taken text w)
  else (PyNone, w).

(** ** The shape of the rule results *)

(** A dict that holds a list under ["issues"], as both rule sets return. *)
Definition is_bundle (v : pyval) : Prop :=
  exists d l, v = PyDict d /\ dict_get "issues" d = Some (PyList l).

(** The compiled result, for rule results of the right shape. *)
Definition page_result (url : string) (seo_results a11y_results tone_summary : pyval)
  : pyval :=
  match compile_result url seo_results a11y_results tone_summary with
  | Ok result => result
  | Raise _ => PyNone
  end.

(** ** The paths of [process_page] *)

(** The state after the fetch, after the extraction, and after the rule
    checks of a page. *)
Definition world_fetched (url : string) (w : World) : World :=
  {| files := files w; budget := budget w; env := after_fetch url (env w);
     calls := (calls w ++ [CallFetch url])%list |}.
Definition world_extracted (url html : string) (w : World) : World :=
  {| files := files w; budget := budget w; env := after_fetch url (env w);
     calls := (calls w ++ [CallFetch url; CallExtract html])%list |}.
Definition world_checked (url html text : string) (w : World) : World :=
  {| files := files w; budget := budget w; env := after_fetch url (env w);
     calls := (calls w ++ [CallFetch url; CallExtract html;
                           CallCheckSeo html text; CallCheckA11y html text])%list |}.

(** ** Counting the recorded calls *)

Definition is_record (call_type : string) (c : Call) : bool :=
  match c with
  | CallRecord t => String.eqb t call_type
  | _ => false
  end.

(** How often [record_call(call_type)] was invoked. *)
Definition recorded (call_type : string) (cs : list Call) : Z :=
  Z.of_nat (List.length (List.filter (is_record call_type) cs)).

(** The calls of the tone step. *)
Definition is_tone_call (c : Call) : bool :=
  match c with
  | CallAnalyzeTone _ | CallRecord _ => true
  | _ => false
  end.

(** The state after [process_page] was called on each of [urls] in turn,
    whatever it returned. *)
Fixpoint drive (urls : list string) (use_llm : bool) (w : World) : World :=
  match urls with
  | [] => w
  | url :: urls' => drive urls' use_llm (snd (process_page url use_llm w))
  end.

(** A run that starts with a fresh [BudgetManager(max_calls)]. *)
Definition fresh_world (dir : gmap string string) (e : Env) (max_calls : Z) : World :=
  initial_world dir e max_calls false.

(** The budget ceiling, as the pipeline keeps it. *)
Definition within_budget (N : Z) (b : BudgetState) (cs : list Call) : Prop :=
  max_calls b = N
  /\ (calls_made b <= N)%Z
  /\ recorded "tone_analysis" cs = calls_made b
  /\ default 0%Z (calls_by_type b !! "tone_analysis") = calls_made b.

(** ** Failing pages *)

(** The page at [url] cannot be fetched, or its text cannot be extracted,
    when the outside world is [e]; the index is the message of the error
    result. *)
Inductive page_failure (url : string) (e : Env) : string -> Prop :=
| fetch_fails :
    truthy_str (fetched url e) = false ->
    page_failure url e "Failed to fetch page"
| extract_fails (html : string) :
    fetched url e = Some html ->
    html <> "" ->
    truthy_str (extract_text html) = false ->
    page_failure url e "Failed to extract text".

(** ** Serialization *)

(** [data] survives [json.dump] followed by [json.load]. *)
Definition json_round_trips (data : pyval) : Prop :=
  json_loads (json_dump_indent data) = Ok data.

(** ** Sub-scores *)

(** [bundle["scores"][name]]. *)
Definition sub_score (bundle : pyval) (name : string) : pyres pyval :=
  (try! scores <- subscript bundle "scores"; subscript scores name)%pyres.

(** The tags the rule checks look for. *)
Definition checked_tags : list string :=
  ["title"; "meta"; "link"; "h1"; "h2"; "h3"; "h4"; "h5"; "h6"; "img"; "a"].

(** A page without any of them. *)
Definition no_checked_tags (s : soup) : Prop :=
  forall name, In name checked_tags -> find_all [name] s = [].

(** ** Pages eligible for the tone analysis *)

(** Whatever the state of the outside world, the page at [url] is
    fetched, its text is extracted, and the analyzer returns a summary
    for it. *)
Definition eligible (url : string) : Prop :=
  forall e, exists html text,
    fetched url e = Some html /\ html <> ""
    /\ extract_text html = Some text /\ text <> ""
    /\ forall e', tone_value text e' <> PyNone.

(** [result["url"]] is [url] and [result["tone_summary"]] is not [None]. *)
Definition analysed_result (url : string) (result : pyval) : Prop :=
  subscript result "url" = Ok (PyStr url)
  /\ exists tone_summary,
       subscript result "tone_summary" = Ok tone_summary
       /\ tone_summary <> PyNone.

(** ** Malformed model output *)

(** The cleaned response is not JSON, or it is JSON without all of the
    required keys; the index is the placeholder [analyze_tone] has for
    the case. *)
Inductive malformed (response : string) : pyval -> Prop :=
| not_json :
    json_loads (clean_response response) = Raise JSONDecodeError ->
    malformed response placeholder_parse_error
| missing_keys (result : pyval) :
    json_loads (clean_response response) = Ok result ->
    all_in required_keys result = Ok false ->
    malformed response placeholder_invalid_format.

(** ** The results of analysed pages *)

(** A rule result as the report writing reads it: its issues are strings
    and its overall score, 0 when it has none, is a number. *)
Definition scored_bundle (v : pyval) : Prop :=
  exists d issues score cell,
    v = PyDict d
    /\ dict_get "issues" d = Some (str_list issues)
    /\ py_get v "overall_score" (PyInt 0) = Ok score
    /\ format_score score = Ok cell.

(** A result [process_page] compiled from the two rule results. *)
Definition compiled_result (result : pyval) : Prop :=
  exists url html text html' text' tone_summary,
    result = page_result url (check_seo html text) (check_a11y html' text')
               tone_summary.

(** The issues of a rule result. *)
Definition issues_of (bundle : pyval) : list pyval :=
  match subscript bundle "issues" with
  | Ok (PyList l) => l
  | _ => []
  end.

(** The cell of [summary.csv] for the overall score of a rule result. *)
Definition score_cell (bundle : pyval) : string :=
  match (try! score <- py_get bundle "overall_score" (PyInt 0);
         format_score score)%pyres with
  | Ok cell => cell
  | Raise _ => ""
  end.

End Views.

(** * Concrete inputs *)

(** The dict of [test_cache] in [tests/test_integration.py]. *)
Definition test_data : pyval := PyDict [("foo", PyStr "bar"); ("score", PyInt 95)].

(** A stored result without a tone summary. *)
Definition stored_result : pyval :=
  PyDict [("url", PyStr "http://a");
          ("seo_rules", PyDict []);
          ("a11y_rules", PyDict []);
          ("tone_summary", PyNone);
          ("issues", PyList [PyStr "Missing title tag"]);
          ("scores", PyDict [("seo", PyInt 0); ("a11y", PyInt 50)])].

(** A cache directory with one entry and one foreign file. *)
Definition one_entry_dir : gmap string string :=
  <["notes.txt" := "keep"]> (Cache.set (E := Mock.external) ∅ "http://a" stored_result).

(** Pages for the runs on the stand-ins: three that are served, one whose
    protocol the network refuses, one that is blank. *)
Definition served_urls : list string := ["http://a"; "http://b"; "http://c"].
Definition refused_url : string := "ftp://a".
Definition blank_url : string := "http://blank".

(** Pages whose analysis the model answers in prose, with an incomplete
    object, or not at all. *)
Definition garbled_url : string := "http://garbled".
Definition partial_url : string := "http://partial".
Definition timeout_url : string := "http://timeout".

Definition five_urls : list string :=
  ["http://a"; "http://b"; "http://c"; "http://d"; "http://e"].

(** The page of [test_poor_seo] in [tests/test_rules.py], parsed. *)
Definition short_page : soup :=
  [NTag "html" [] [NTag "body" [] [NTag "p" [] [NText "Short content"]]]].

(** [n] words. *)
Definition words (n : nat) : string := join " " (repeat "word" n).

(** A page with a title of 43 characters, a meta description of 130, a
    canonical link and one H1, after [test_seo_rules]. *)
Definition clean_page : soup :=
  [NTag "html" []
     [NTag "head" []
        [NTag "title" [] [NText "This is a good title length for SEO testing"];
         NTag "meta" [("name", AttrStr "description");
                      ("content", AttrStr (take 130 (words 40)))] [];
         NTag "link" [("rel", AttrList ["canonical"]);
                      ("href", AttrStr "https://example.com/page")] []];
      NTag "body" [] [NTag "h1" [] [NText "Main Heading"];
                      NTag "p" [] [NText (words 400)]]]].

(** The pages of [test_a11y_rules] and [test_poor_a11y]. *)
Definition accessible_page : soup :=
  [NTag "html" []
     [NTag "body" []
        [NTag "h1" [] [NText "Main Title"];
         NTag "h2" [] [NText "Subtitle"];
         NTag "h3" [] [NText "Section"];
         NTag "img" [("src", AttrStr "image1.jpg"); ("alt", AttrStr "Description 1")] [];
         NTag "img" [("src", AttrStr "image2.jpg"); ("alt", AttrStr "Description 2")] [];
         NTag "a" [("href", AttrStr "/page1")] [NText "Link with good text"];
         NTag "a" [("href", AttrStr "/page2")] [NText "Another descriptive link"]]]].
Definition poor_page : soup :=
  [NTag "html" []
     [NTag "body" []
        [NTag "img" [("src", AttrStr "no-alt.jpg")] [];
         NTag "a" [("href", AttrStr "/page")] [NText "click here"]]]].

(** A fresh run on the stand-ins: the cache directory [dir], no request
    made yet, [BudgetManager(max_calls)]. *)
Definition mock_world (dir : gmap string string) (max_calls : Z)
  : World (E := Mock.external) :=
  fresh_world (E := Mock.external) dir 0%nat max_calls.

(** * Notions for the further properties *)

(** [record_call] for each of [call_types] in turn. *)
Definition record_calls (b : BudgetState) (call_types : list string) : BudgetState :=
  fold_left BudgetManager.record_call call_types b.

(** How often [call_type] occurs in [call_types]. *)
Definition occurrences (call_type : string) (call_types : list string) : Z :=
  Z.of_nat (List.length (List.filter (String.eqb call_type) call_types)).

(** The sum of the counts of [calls_by_type]. *)
Definition total_by_type (b : BudgetState) : Z :=
  map_fold (fun _ n acc => (n + acc)%Z) 0%Z (calls_by_type b).

(** The heading levels that occur in a page, in increasing order. *)
Definition levels_present (s : soup) : list Z :=
  List.filter
    (fun level => (0 <? List.length (find_all ["h" ++ str_of_Z level] s))%nat)
    [1; 2; 3; 4; 5; 6]%Z.

(** Pages with the same headings in another order and number. *)
Definition skipping_page : soup :=
  [NTag "h1" [] [NText "a"]; NTag "h3" [] [NText "c"]; NTag "h2" [] [NText "b"]].
Definition orderly_page : soup :=
  [NTag "h1" [] [NText "a"]; NTag "h2" [] [NText "b"]; NTag "h2" [] [NText "b"];
   NTag "h3" [] [NText "c"]].

(** The stand-ins with a model that gives the same [answer] to every
    prompt. *)
Definition model_answering (answer : string) : External :=
  {| Env := nat;
     sha256_hexdigest := sha256_hexdigest (External := Mock.external);
     json_dumps := Mock.dumps;
     json_dump_indent := Mock.dumps;
     json_loads := Mock.loads;
     httpx_get := httpx_get (External := Mock.external);
     readability_summary := readability_summary (External := Mock.external);
     html_parser := html_parser (External := Mock.external);
     ollama_invoke := fun prompt requests => (Ok answer, S requests);
     format_1f := format_1f (External := Mock.external);
     str_of_exn := str_of_exn (External := Mock.external) |}.

(** A JSON value that is no object, list or string. *)
Definition is_scalar (v : pyval) : bool :=
  match v with
  | PyNone | PyBool _ | PyInt _ | PyFloat _ => true
  | _ => false
  end.

(** Two answers that are no tone summary: an object of numbers with a key
    more, and a sentence as a JSON string. *)
Definition numbers_answer : string :=
  Mock.dumps (PyDict [("readability", PyInt 1); ("tone", PyInt 2);
                      ("risks", PyInt 3); ("extra", PyInt 4)]).

Definition prose_answer : string :=
  Mock.dumps (PyStr "readability, tone and risks are fine").

(** A string in which every white-space character is a blank that follows
    no other white space; [after_space] says that the character before the
    string was one. *)
Fixpoint collapsed_from (after_space : bool) (s : string) : bool :=
  match s with
  | EmptyString => true
  | String c s' =>
      (if is_space c then Ascii.eqb c " "%char && negb after_space else true)
      && collapsed_from (is_space c) s'
  end.

(** A string that does not begin with white space. *)
Definition starts_clean (s : string) : bool :=
  match s with
  | EmptyString => true
  | String c _ => negb (is_space c)
  end.

(** A JSON codec that is exact on floats, as Python's is for the finite
    ones: a float travels as its sign, the binary digits of its mantissa
    (lowest first) and its exponent. *)
Fixpoint binary_digits (p : positive) : list pyval :=
  match p with
  | xH => [PyInt 1]
  | xO p' => PyInt 0 :: binary_digits p'
  | xI p' => PyInt 1 :: binary_digits p'
  end.

Fixpoint of_binary_digits (l : list pyval) : Z :=
  match l with
  | [] => 0
  | PyInt d :: l' => d + 2 * of_binary_digits l'
  | _ :: l' => 2 * of_binary_digits l'
  end.

Definition float_code (f : float) : pyval :=
  let parts :=
    match Prim2SF f with
    | S754_zero s => [PyInt 0; PyBool s; PyList []; PyInt 0]
    | S754_infinity s => [PyInt 1; PyBool s; PyList []; PyInt 0]
    | S754_nan => [PyInt 2; PyBool false; PyList []; PyInt 0]
    | S754_finite s m e => [PyInt 3; PyBool s; PyList (binary_digits m); PyInt e]
    end in
  PyDict [("float", PyList parts)].

Definition float_decode (v : pyval) : option float :=
  match v with
  | PyDict [(key, PyList [PyInt kind; PyBool s; PyList digits; PyInt e])] =>
      if String.eqb key "float" then
        Some (SF2Prim (if (kind =? 0)%Z then S754_zero s
                       else if (kind =? 1)%Z then S754_infinity s
                       else if (kind =? 2)%Z then S754_nan
                       else S754_finite s (Z.to_pos (of_binary_digits digits)) e))
      else None
  | _ => None
  end.

Fixpoint encode_floats (v : pyval) : pyval :=
  match v with
  | PyFloat f => float_code f
  | PyList l => PyList (map encode_floats l)
  | PyDict d => PyDict (map (fun kv => let '(k, x) := kv in (k, encode_floats x)) d)
  | _ => v
  end.

Fixpoint decode_floats (v : pyval) : pyval :=
  match float_decode v with
  | Some f => PyFloat f
  | None =>
      match v with
      | PyList l => PyList (map decode_floats l)
      | PyDict d => PyDict (map (fun kv => let '(k, x) := kv in (k, decode_floats x)) d)
      | _ => v
      end
  end.

(** The stand-ins with that codec. *)
Definition exact_codec : External :=
  {| Env := nat;
     sha256_hexdigest := sha256_hexdigest (External := Mock.external);
     json_dumps := fun v => Mock.dumps (encode_floats v);
     json_dump_indent := fun v => Mock.dumps (encode_floats v);
     json_loads := fun s =>
       match Mock.loads s with
       | Ok v => Ok (decode_floats v)
       | Raise e => Raise e
       end;
     httpx_get := httpx_get (External := Mock.external);
     readability_summary := readability_summary (External := Mock.external);
     html_parser := html_parser (External := Mock.external);
     ollama_invoke := ollama_invoke (External := Mock.external);
     format_1f := format_1f (External := Mock.external);
     str_of_exn := str_of_exn (External := Mock.external) |}.

(** A fresh run on the stand-ins with the exact codec, and the result of
    a call of [process_page] in it. *)
Definition exact_world (dir : gmap string string) (max_calls : Z)
  : World (E := exact_codec) :=
  fresh_world (E := exact_codec) dir 0%nat max_calls.

Definition first_result (url : string) : pyval :=
  match fst (process_page (E := exact_codec) url true (exact_world ∅ 5)) with
  | Ok result => result
  | Raise _ => PyNone
  end.

(** A cache directory whose file for [http://a] is no JSON. *)
Definition corrupt_dir : gmap string string :=
  {[ Cache._get_cache_path (E := Mock.external) "http://a" := "not json" ]}.

(** The reports of a run of [audit] on the stand-ins. *)
Definition mock_reports (all_urls : list string) (max_pages : Z) : Reports :=
  match fst (audit (E := Mock.external) all_urls max_pages false 200 false ∅ 0%nat) with
  | Ok reports => reports
  | Raise _ => {| pages_jsonl := []; summary_csv := [] |}
  end.

(** The columns [load_urls_from_csv] looks at, in the order it does. *)
Definition url_columns : list string := ["url"; "URL"; "Url"; "link"].

(** * Properties *)

Example strip_example : strip "  ab c  " = "ab c".
Proof. reflexivity. Qed.
Example split_ws_example : split_ws " Short  content " = ["Short"; "content"].
Proof. reflexivity. Qed.
Example split_ws_empty : split_ws "" = [].
Proof. reflexivity. Qed.
Example split_char_example : split_char ","%char "a,,b" = ["a"; ""; "b"].
Proof. reflexivity. Qed.
Example remove_all_example : remove_all "ab" "xabababy" = "xy".
Proof. reflexivity. Qed.
Example collapse_ws_example : collapse_ws "a  b   c " = "a b c ".
Proof. reflexivity. Qed.
Example str_of_Z_example : str_of_Z 1200 = "1200" /\ str_of_Z 0 = "0".
Proof. split; reflexivity. Qed.

(** The scenarios of [tests/test_rules.py] and of the design document. *)

Example low_content_page :
  seo_checks short_page "Short content"
  = rule_bundle
      [("title", 0); ("meta_description", 0); ("h1", 0); ("canonical", 0);
       ("word_count", 25)]%Z
      ["Missing title tag"; "Missing meta description"; "Missing H1 tag";
       "Missing canonical URL"; "Low word count (2, recommended 300+)"]
      [("title_length", 0); ("meta_desc_length", 0); ("h1_count", 0);
       ("word_count", 2)]%Z
  /\ subscript (seo_checks short_page "Short content")
       "overall_score"
     = Ok (PyFloat (float_of_Z 5)).
Proof. split; vm_compute; reflexivity. Qed.

Example clean_page_scores_100 :
  subscript (seo_checks clean_page (words 600)) "overall_score"
  = Ok (PyFloat (float_of_Z 100))
  /\ subscript (seo_checks clean_page (words 600)) "issues"
     = Ok (PyList [])
  /\ sub_score (seo_checks clean_page (words 400)) "word_count"
     = Ok (PyInt 75).
Proof. repeat split; vm_compute; reflexivity. Qed.

Example accessible_page_scores_100 :
  subscript (a11y_checks (E := Mock.external) accessible_page) "scores"
  = Ok (int_dict [("image_alts", 100); ("heading_hierarchy", 100);
                  ("link_text", 100)]%Z).
Proof. vm_compute. reflexivity. Qed.

Example poor_page_scores :
  subscript (a11y_checks (E := Mock.external) poor_page) "scores"
  = Ok (int_dict [("image_alts", 25); ("heading_hierarchy", 50);
                  ("link_text", 50)]%Z).
Proof. vm_compute. reflexivity. Qed.

Example heading_skip :
  check_heading_hierarchy
    [NTag "h3" [] [NText "c"]; NTag "h1" [] [NText "a"]]
  = {| pr_score := 50; pr_issues := ["Heading hierarchy skips from H1 to H3"] |}.
Proof. vm_compute. reflexivity. Qed.

Example clean_response_fenced :
  clean_response (backtick3 ++ "json" ++ newline ++ "{}" ++ newline ++ backtick3)
  = "{}"
  /\ clean_response "  [1, 2] " = "[1, 2]".
Proof. split; vm_compute; reflexivity. Qed.

Example slice_to_examples :
  slice_to 2 [1; 2; 3]%Z = [1; 2]%Z /\ slice_to 5 [1; 2; 3]%Z = [1; 2; 3]%Z
  /\ slice_to 0 [1; 2; 3]%Z = [] /\ slice_to (-1) [1; 2; 3]%Z = [1; 2]%Z.
Proof. repeat split. Qed.

Section Properties.
Context {E : External}.

Lemma fetch_page_spec (url : string) (w : World) :
  fetch_page url w =
    (Ok (fetched url (env w)),
     {| files := files w; budget := budget w; env := after_fetch url (env w);
        calls := calls w |}).
Proof.
  unfold fetch_page, bind, ask, fetched, after_fetch, ret.
  destruct (httpx_get url (env w)) as [[text | e] e']; reflexivity.
Qed.

(** ** The cache check *)

Lemma process_page_hit (url : string) (use_llm : bool) (w : World) :
  truthy (Cache.get (files w) url) = true ->
  process_page url use_llm w = (Ok (Cache.get (files w) url), w).
Proof.
  intros Hhit. unfold process_page, bind, get_files, ret.
  rewrite Hhit. reflexivity.
Qed.

Lemma analyze_tone_body_spec (text : string) (w : World) :
  analyze_tone_body text w =
    (Ok (tone_outcome text (env w)),
     {| files := files w; budget := budget w; env := after_tone text (env w);
        calls := calls w |}).
Proof.
  unfold analyze_tone_body, bind, ask, tone_outcome, after_tone, tone_text, ret.
  destruct (ollama_invoke _ (env w)) as [[response | err] e']; reflexivity.
Qed.

Lemma analyze_tone_spec (text : string) (w : World) :
  analyze_tone text w =
    (Ok (tone_value text (env w)),
     {| files := files w; budget := budget w; env := after_tone text (env w);
        calls := calls w |}).
Proof.
  unfold analyze_tone, bind. rewrite analyze_tone_body_spec.
  unfold tone_value. destruct (tone_outcome text (env w)); reflexivity.
Qed.

Lemma tone_step_taken (text : string) (w : World) :
  BudgetManager.can_make_call (budget w) "tone_analysis" = true ->
  tone_step text true w = (Ok (tone_value text (env w)), tone_taken text w).
Proof.
  intros Hcan. unfold tone_step, bind, get_budget. rewrite Hcan. cbn [andb].
  unfold called at 1. cbn [files budget env calls].
  rewrite analyze_tone_spec. cbn [files budget env calls].
  unfold tone_taken. destruct (truthy (tone_value text (env w))).
  - unfold called, set_budget, ret. cbn [files budget env calls].
    rewrite <- app_assoc. reflexivity.
  - reflexivity.
Qed.

Lemma tone_step_skipped (text : string) (use_llm : bool) (w : World) :
  use_llm && BudgetManager.can_make_call (budget w) "tone_analysis" = false ->
  tone_step text use_llm w = (Ok PyNone, w).
Proof.
  intros Hskip. unfold tone_step, bind, get_budget. rewrite Hskip. reflexivity.
Qed.

Lemma tone_step_spec (text : string) (use_llm : bool) (w : World) :
  tone_step text use_llm w =
    (Ok (fst (tone_result text use_llm w)), snd (tone_result text use_llm w)).
Proof.
  unfold tone_result.
  destruct (use_llm && BudgetManager.can_make_call (budget w) "tone_analysis")
    eqn:Hgo.
  - apply andb_true_iff in Hgo as [-> Hcan]. now apply tone_step_taken.
  - now apply tone_step_skipped.
Qed.

Lemma rule_bundle_is_bundle scores issues metrics :
  is_bundle (rule_bundle scores issues metrics).
Proof. unfold rule_bundle, str_list. eexists _, _. split; reflexivity. Qed.

Lemma rule_bundle_error_is_bundle msg : is_bundle (rule_bundle_error msg).
Proof. unfold rule_bundle_error. eexists _, _. split; reflexivity. Qed.

Lemma check_seo_is_bundle html text : is_bundle (check_seo html text).
Proof.
  unfold check_seo, seo_checks. destruct (html_parser html).
  - apply rule_bundle_is_bundle.
  - apply rule_bundle_error_is_bundle.
Qed.

Lemma check_a11y_is_bundle html text : is_bundle (check_a11y html text).
Proof.
  unfold check_a11y, a11y_checks. destruct (html_parser html).
  - apply rule_bundle_is_bundle.
  - apply rule_bundle_error_is_bundle.
Qed.

Lemma compile_result_bundles url seo_results a11y_results tone_summary :
  is_bundle seo_results -> is_bundle a11y_results ->
  exists issues scores,
    compile_result url seo_results a11y_results tone_summary =
      Ok (PyDict [("url", PyStr url); ("seo_rules", seo_results);
                  ("a11y_rules", a11y_results); ("tone_summary", tone_summary);
                  ("issues", issues); ("scores", scores)]).
Proof.
  intros (d1 & l1 & -> & H1) (d2 & l2 & -> & H2).
  unfold compile_result. cbn [py_get pyres_bind]. rewrite H1, H2.
  cbn [concat_issues pyres_bind]. eexists _, _. reflexivity.
Qed.

Lemma page_result_spec url seo_results a11y_results tone_summary :
  is_bundle seo_results -> is_bundle a11y_results ->
  compile_result url seo_results a11y_results tone_summary =
    Ok (page_result url seo_results a11y_results tone_summary)
  /\ subscript (page_result url seo_results a11y_results tone_summary) "url"
      = Ok (PyStr url)
  /\ subscript (page_result url seo_results a11y_results tone_summary) "tone_summary"
      = Ok tone_summary
  /\ truthy (page_result url seo_results a11y_results tone_summary) = true.
Proof.
  intros Hseo Ha11y. unfold page_result.
  destruct (compile_result_bundles url _ _ tone_summary Hseo Ha11y)
    as (issues & scores & ->).
  repeat split; reflexivity.
Qed.

Lemma process_page_fetch_failed (url : string) (use_llm : bool) (w : World) :
  truthy (Cache.get (files w) url) = false ->
  truthy_str (fetched url (env w)) = false ->
  process_page url use_llm w =
    (Ok (error_result url "Failed to fetch page"), world_fetched url w).
Proof.
  intros Hmiss Hfetch. unfold process_page, bind at 1, get_files.
  rewrite Hmiss. unfold bind at 1, called at 1. unfold bind at 1.
  rewrite fetch_page_spec. cbn [files budget env calls].
  rewrite Hfetch. reflexivity.
Qed.

Lemma process_page_extract_failed (url : string) (use_llm : bool) (w : World)
    (html : string) :
  truthy (Cache.get (files w) url) = false ->
  fetched url (env w) = Some html ->
  html <> "" ->
  truthy_str (extract_text html) = false ->
  process_page url use_llm w =
    (Ok (error_result url "Failed to extract text"), world_extracted url html w).
Proof.
  intros Hmiss Hfetch Hhtml Htext. unfold process_page, bind at 1, get_files.
  rewrite Hmiss. unfold bind at 1, called at 1. unfold bind at 1.
  rewrite fetch_page_spec. cbn [files budget env calls].
  rewrite Hfetch. cbn [truthy_str default from_option id].
  apply String.eqb_neq in Hhtml. rewrite Hhtml. cbn [negb].
  unfold bind at 1, called at 1. cbn [files budget env calls].
  rewrite Htext. cbn [negb]. unfold ret, world_extracted.
  rewrite <- app_assoc. reflexivity.
Qed.

Lemma process_page_analysed (url : string) (use_llm : bool) (w : World)
    (html text : string) :
  truthy (Cache.get (files w) url) = false ->
  fetched url (env w) = Some html ->
  html <> "" ->
  extract_text html = Some text ->
  text <> "" ->
  let stepped := tone_result text use_llm (world_checked url html text w) in
  let result :=
    page_result url (check_seo html text) (check_a11y html text) (fst stepped) in
  process_page url use_llm w =
    (Ok result,
     {| files := Cache.set (files w) url result;
        budget := budget (snd stepped);
        env := env (snd stepped);
        calls := calls (snd stepped) |}).
Proof.
  intros Hmiss Hfetch Hhtml Hextract Htext. cbv zeta.
  unfold process_page, bind at 1, get_files.
  rewrite Hmiss. unfold bind at 1, called at 1. unfold bind at 1.
  rewrite fetch_page_spec. cbn [files budget env calls].
  rewrite Hfetch. cbn [truthy_str default from_option id].
  apply String.eqb_neq in Hhtml. rewrite Hhtml. cbn [negb].
  unfold bind at 1, called at 1. cbn [files budget env calls].
  rewrite Hextract. cbn [truthy_str default from_option id].
  apply String.eqb_neq in Htext. rewrite Htext. cbn [negb].
  unfold bind at 1, called at 1. cbn [files budget env calls].
  unfold bind at 1, called at 1. cbn [files budget env calls].
  unfold bind at 1. rewrite tone_step_spec.
  repeat rewrite <- app_assoc. cbn [app].
  fold (world_checked url html text w).
  set (stepped := tone_result text use_llm (world_checked url html text w)).
  destruct (page_result_spec url (check_seo html text) (check_a11y html text)
              (fst stepped) (check_seo_is_bundle html text)
              (check_a11y_is_bundle html text)) as (Hcompile & _).
  unfold bind at 1, lift. rewrite Hcompile.
  unfold bind, get_files, set_files, ret. cbn [files budget env calls].
  assert (Hfiles : files (snd stepped) = files w).
  { unfold stepped, tone_result, tone_taken.
    destruct (use_llm && _); reflexivity. }
  rewrite Hfiles. reflexivity.
Qed.

(** ** What every path keeps *)

(** [process_page] always returns, and it keeps every property of the
    budget and of the call log that the tone step keeps and that the
    logging of the other collaborators does not disturb. *)
Lemma process_page_keeps (Q : BudgetState -> list Call -> Prop) :
  (forall b cs c, Q b cs -> is_tone_call c = false -> Q b (cs ++ [c])%list) ->
  (forall text use_llm w,
     Q (budget w) (calls w) ->
     Q (budget (snd (tone_result text use_llm w)))
       (calls (snd (tone_result text use_llm w)))) ->
  forall url use_llm w,
    Q (budget w) (calls w) ->
    (exists result, fst (process_page url use_llm w) = Ok result)
    /\ Q (budget (snd (process_page url use_llm w)))
         (calls (snd (process_page url use_llm w))).
Proof.
  intros Hlog Htone url use_llm w HQ.
  destruct (truthy (Cache.get (files w) url)) eqn:Hcache.
  { rewrite process_page_hit by assumption. cbn [fst snd]. eauto. }
  destruct (truthy_str (fetched url (env w))) eqn:Hfetch.
  2:{ rewrite process_page_fetch_failed by assumption. cbn [fst snd].
      split; [eauto |]. unfold world_fetched. cbn [budget calls].
      apply Hlog; [assumption | reflexivity]. }
  destruct (fetched url (env w)) as [html |] eqn:Hhtml; [| discriminate].
  assert (Hne : html <> "").
  { cbn in Hfetch. apply negb_true_iff in Hfetch. now apply String.eqb_neq. }
  destruct (truthy_str (extract_text html)) eqn:Hextract.
  2:{ rewrite (process_page_extract_failed url use_llm w html) by assumption.
      cbn [fst snd]. split; [eauto |]. unfold world_extracted. cbn [budget calls].
      change [CallFetch url; CallExtract html]
        with ([CallFetch url] ++ [CallExtract html])%list.
      rewrite app_assoc. repeat (apply Hlog; [| reflexivity]). assumption. }
  destruct (extract_text html) as [text |] eqn:Htext; [| discriminate].
  assert (Htne : text <> "").
  { cbn in Hextract. apply negb_true_iff in Hextract. now apply String.eqb_neq. }
  rewrite (process_page_analysed url use_llm w html text) by assumption.
  cbn [fst snd budget calls]. split; [eauto |].
  apply Htone. unfold world_checked. cbn [budget calls].
  change [CallFetch url; CallExtract html; CallCheckSeo html text;
          CallCheckA11y html text]
    with ([CallFetch url] ++ [CallExtract html] ++ [CallCheckSeo html text]
            ++ [CallCheckA11y html text])%list.
  rewrite !app_assoc. repeat (apply Hlog; [| reflexivity]). assumption.
Qed.

(** ** The budget ceiling *)

Lemma recorded_app call_type cs cs' :
  recorded call_type (cs ++ cs') = (recorded call_type cs + recorded call_type cs')%Z.
Proof.
  unfold recorded. rewrite List.filter_app, List.length_app. lia.
Qed.

Lemma within_budget_log N b cs c :
  within_budget N b cs -> is_tone_call c = false -> within_budget N b (cs ++ [c]).
Proof.
  intros (Hmax & Hle & Hrec & Htype) Hc. repeat split; try assumption.
  rewrite recorded_app, Hrec.
  destruct c; try discriminate; unfold recorded; cbn; lia.
Qed.

Lemma within_budget_tone N text use_llm w :
  within_budget N (budget w) (calls w) ->
  within_budget N (budget (snd (tone_result text use_llm w)))
                  (calls (snd (tone_result text use_llm w))).
Proof.
  intros (Hmax & Hle & Hrec & Htype). unfold tone_result.
  destruct (use_llm && BudgetManager.can_make_call (budget w) "tone_analysis")
    eqn:Hgo; cbn [snd]; [| now repeat split].
  apply andb_true_iff in Hgo as [_ Hcan].
  unfold BudgetManager.can_make_call in Hcan.
  destruct (max_calls (budget w) <=? calls_made (budget w))%Z eqn:Hfull;
    [discriminate |].
  apply Z.leb_gt in Hfull.
  unfold tone_taken. cbn [budget calls].
  destruct (truthy (tone_value text (env w))).
  - unfold BudgetManager.record_call. repeat split; cbn [max_calls calls_made calls_by_type].
    + assumption.
    + lia.
    + rewrite recorded_app, Hrec. unfold recorded. cbn. lia.
    + rewrite lookup_insert_eq. cbn. lia.
  - repeat split; try assumption.
    rewrite recorded_app, Hrec. unfold recorded. cbn. lia.
Qed.

Lemma within_budget_process_page N url use_llm w :
  within_budget N (budget w) (calls w) ->
  within_budget N (budget (snd (process_page url use_llm w)))
                  (calls (snd (process_page url use_llm w))).
Proof.
  intros Hw.
  apply (process_page_keeps (within_budget N)); try assumption.
  - intros b cs c. apply within_budget_log.
  - intros text llm w'. apply within_budget_tone.
Qed.

Lemma within_budget_drive N urls use_llm w :
  within_budget N (budget w) (calls w) ->
  within_budget N (budget (drive urls use_llm w)) (calls (drive urls use_llm w)).
Proof.
  revert w. induction urls as [| url urls IH]; intros w Hw; cbn [drive].
  - assumption.
  - apply IH. now apply within_budget_process_page.
Qed.

Lemma within_budget_batch_loop N urls no_llm results w :
  within_budget N (budget w) (calls w) ->
  within_budget N (budget (snd (batch_loop urls no_llm results w)))
                  (calls (snd (batch_loop urls no_llm results w))).
Proof.
  revert results w. induction urls as [| url urls IH]; intros results w Hw.
  - assumption.
  - cbn [batch_loop]. unfold bind, get_budget.
    pose proof (within_budget_process_page N url (negb no_llm) w Hw) as Hstep.
    destruct (process_page url (negb no_llm) w) as [[result | err] w'];
      cbn [snd] in *; [| assumption].
    destruct (negb no_llm && negb (BudgetManager.can_make_call (budget w') "default")).
    + assumption.
    + now apply IH.
Qed.

Lemma within_budget_fresh N dir e :
  (0 <= N)%Z ->
  within_budget N (budget (fresh_world dir e N)) (calls (fresh_world dir e N)).
Proof.
  intros HN. unfold fresh_world, initial_world, within_budget, BudgetManager.new.
  cbn [budget calls max_calls calls_made calls_by_type].
  rewrite lookup_empty. repeat split; auto.
Qed.

(** C1.  With [BudgetManager(max_calls = N)], [N >= 0], however many
    URLs are driven through [process_page] with the tone analysis
    enabled, [record_call("tone_analysis")] is invoked at most [N] times,
    [calls_made] counts exactly these invocations and never exceeds [N];
    the same holds for the loop of [audit].  The ceiling is kept by the
    check before every analysis ([can_make_call] is true iff
    [calls_made < max_calls]): [record_call] itself increments
    unconditionally. *)
Theorem budget_ceiling_respected (N : Z) (urls : list string)
    (dir : gmap string string) (e : Env) :
  (0 <= N)%Z ->
  let direct := drive urls true (fresh_world dir e N) in
  let looped := snd (batch_loop urls false [] (fresh_world dir e N)) in
  (recorded "tone_analysis" (calls direct) <= N)%Z
  /\ (calls_made (budget direct) <= N)%Z
  /\ calls_made (budget direct) = recorded "tone_analysis" (calls direct)
  /\ (recorded "tone_analysis" (calls looped) <= N)%Z
  /\ (calls_made (budget looped) <= N)%Z
  /\ calls_made (budget looped) = recorded "tone_analysis" (calls looped)
  /\ (forall b call_type,
        BudgetManager.can_make_call b call_type = true
        <-> (calls_made b < max_calls b)%Z)
  /\ (forall b call_type,
        calls_made (BudgetManager.record_call b call_type) = (calls_made b + 1)%Z).
Proof.
  intros HN direct looped.
  destruct (within_budget_drive N urls true _ (within_budget_fresh N dir e HN))
    as (_ & Hle & Hrec & _).
  destruct (within_budget_batch_loop N urls false [] _ (within_budget_fresh N dir e HN))
    as (_ & Hle' & Hrec' & _).
  fold direct in Hle, Hrec. fold looped in Hle', Hrec'.
  repeat (split; [lia |]). split; [| reflexivity].
  intros b call_type. unfold BudgetManager.can_make_call.
  destruct (max_calls b <=? calls_made b)%Z eqn:Hfull.
  - apply Z.leb_le in Hfull. split; [discriminate | lia].
  - apply Z.leb_gt in Hfull. split; [lia | reflexivity].
Qed.

(** ** The cache *)

Lemma drop_app (s t : string) : drop (String.length s) (s ++ t) = t.
Proof. induction s as [| c s IH]; [reflexivity | exact IH]. Qed.

Lemma length_app (s t : string) :
  String.length (s ++ t) = (String.length s + String.length t)%nat.
Proof.
  induction s as [| c s IH]; [reflexivity |].
  change (String c s ++ t) with (String c (s ++ t)).
  cbn [String.length]. now rewrite IH.
Qed.

Lemma cache_path_is_json_file (key : string) :
  is_json_file (Cache._get_cache_path key) = true.
Proof.
  unfold is_json_file, Cache._get_cache_path.
  rewrite length_app.
  replace (String.length (Cache._get_hash key) + String.length ".json"
             - String.length ".json")%nat
    with (String.length (Cache._get_hash key)) by lia.
  rewrite drop_app. apply andb_true_iff. split; [reflexivity |].
  apply Nat.leb_le. lia.
Qed.

Lemma json_files_clear (dir : gmap string string) :
  Cache.json_files (snd (Cache.clear dir)) = ∅.
Proof.
  unfold Cache.json_files, Cache.clear. cbn [snd].
  apply map_eq. intros name. rewrite lookup_empty.
  apply map_lookup_filter_None. right. intros content Hlookup Hjson.
  apply map_lookup_filter_Some in Hlookup as [_ Hnot].
  cbn [fst] in *. congruence.
Qed.

(** Every dict with a [url] field, so every result [process_page] stores,
    is a hit when it is read back. *)
Lemma result_with_url_is_hit (r v : pyval) :
  subscript r "url" = Ok v -> truthy r = true.
Proof.
  destruct r as [| b | z | f | s | l | d]; try discriminate.
  destruct d; [discriminate | reflexivity].
Qed.

(** C3.  When the cache holds a result [r] for [url] (a cache hit: the
    stored value is a non-empty result), [process_page] returns exactly
    [r] and leaves the whole state as it was: the call log (no fetch, no
    extraction, no rule check, no tone analysis), the budget, the cache
    directory and the outside world; also with the tone analysis enabled
    and no tone summary in [r]. *)
Theorem cache_hit_returns_stored_result (url : string) (r : pyval)
    (use_llm : bool) (w : World) :
  Cache.get (files w) url = r ->
  truthy r = true ->
  process_page url use_llm w = (Ok r, w).
Proof.
  intros Hget Hhit. subst r. now apply process_page_hit.
Qed.

(** C4.  When the page at [url] is not in the cache and its fetch or its
    extraction fails, [process_page] returns the error result with
    ["Failed to fetch page"] or ["Failed to extract text"] in its [error]
    field, and the cache directory is the one before the call: an entry
    that was absent is still absent. *)
Theorem failed_page_is_not_cached (url msg : string) (use_llm : bool) (w : World) :
  truthy (Cache.get (files w) url) = false ->
  page_failure url (env w) msg ->
  exists w',
    process_page url use_llm w = (Ok (error_result url msg), w')
    /\ subscript (error_result url msg) "error" = Ok (PyStr msg)
    /\ files w' = files w
    /\ Cache.get (files w') url = Cache.get (files w) url
    /\ (Cache.get (files w) url = PyNone -> Cache.get (files w') url = PyNone).
Proof.
  intros Hmiss [Hfetch | html Hfetch Hhtml Htext].
  - exists (world_fetched url w).
    rewrite process_page_fetch_failed by assumption.
    repeat split; auto.
  - exists (world_extracted url html w).
    rewrite (process_page_extract_failed url use_llm w html) by assumption.
    repeat split; auto.
Qed.

(** C5.  After [cache.set(url, r)], [cache.get(url)] returns [r], for
    every key and every result that the JSON library writes and reads
    back unchanged. *)
Theorem cache_set_get_round_trip (dir : gmap string string) (url : string)
    (r : pyval) :
  json_round_trips r ->
  Cache.get (Cache.set dir url r) url = r.
Proof.
  intros Hjson. unfold Cache.get, Cache.set.
  rewrite lookup_insert_eq. unfold json_round_trips in Hjson.
  now rewrite Hjson.
Qed.

(** C7, as stated, fails: on a cache with one entry [clear] removes one
    file and returns [None], not the count 1. *)
Lemma clear_returns_none_not_count :
  Cache.total_entries one_entry_dir = 1%Z
  /\ Cache.total_entries (snd (Cache.clear one_entry_dir)) = 0%Z
  /\ fst (Cache.clear one_entry_dir) = PyNone
  /\ fst (Cache.clear one_entry_dir) <> PyInt 1.
Proof.
  repeat split; try (vm_compute; reflexivity).
  intros Heq. discriminate Heq.
Qed.

(** C7, amended.  [clear] deletes every entry of the cache store (every
    [*.json] file of the directory, and no other file) and returns
    [None]; the number of entries removed is the count it logs. *)
Theorem clear_deletes_every_entry (dir : gmap string string) :
  fst (Cache.clear dir) = PyNone
  /\ Cache.json_files (snd (Cache.clear dir)) = ∅
  /\ Cache.total_entries (snd (Cache.clear dir)) = 0%Z
  /\ (forall key, Cache.get (snd (Cache.clear dir)) key = PyNone)
  /\ (forall name, is_json_file name = false ->
                   snd (Cache.clear dir) !! name = dir !! name)
  /\ Cache.clear_count dir
     = (Cache.total_entries dir - Cache.total_entries (snd (Cache.clear dir)))%Z
  /\ Cache.clear_log dir
     = "Cleared " ++ str_of_Z (Cache.total_entries dir) ++ " cached files".
Proof.
  assert (Hnone : Cache.total_entries (snd (Cache.clear dir)) = 0%Z).
  { unfold Cache.total_entries. rewrite json_files_clear.
    now rewrite map_size_empty. }
  split; [reflexivity |]. split; [apply json_files_clear |].
  split; [exact Hnone |]. split; [| split; [| split]].
  - intros key. unfold Cache.get.
    destruct (snd (Cache.clear dir) !! Cache._get_cache_path key)
      as [content |] eqn:Hlookup; [| reflexivity].
    unfold Cache.clear in Hlookup. cbn [snd] in Hlookup.
    apply map_lookup_filter_Some in Hlookup as [_ Hnot]. cbn [fst] in Hnot.
    now rewrite cache_path_is_json_file in Hnot.
  - intros name Hname. unfold Cache.clear. cbn [snd].
    destruct (dir !! name) as [content |] eqn:Hlookup.
    + apply map_lookup_filter_Some. now split.
    + apply map_lookup_filter_None. now left.
  - rewrite Hnone. unfold Cache.clear_count, Cache.total_entries. lia.
  - reflexivity.
Qed.

(** ** The rule checks on an empty page *)

Lemma heading_levels_none (s : soup) : no_checked_tags s -> heading_levels s = [].
Proof.
  intros Hnone. unfold heading_levels. cbn [flat_map].
  change ("h" ++ str_of_Z 1) with "h1". change ("h" ++ str_of_Z 2) with "h2".
  change ("h" ++ str_of_Z 3) with "h3". change ("h" ++ str_of_Z 4) with "h4".
  change ("h" ++ str_of_Z 5) with "h5". change ("h" ++ str_of_Z 6) with "h6".
  rewrite !Hnone by (cbn; tauto). reflexivity.
Qed.

Lemma seo_checks_empty (s : soup) (text : string) :
  no_checked_tags s -> split_ws text = [] ->
  subscript (seo_checks s text) "scores"
  = Ok (int_dict [("title", 0); ("meta_description", 0); ("h1", 0);
                  ("canonical", 0); ("word_count", 25)]%Z).
Proof.
  intros Hnone Hwords.
  unfold seo_checks, check_title_tag, check_meta_description, check_h1_tags,
    check_canonical, check_word_count, find, find_attr.
  rewrite !Hnone by (cbn; tauto). rewrite Hwords. reflexivity.
Qed.

Lemma a11y_checks_empty (s : soup) :
  no_checked_tags s ->
  subscript (a11y_checks s) "scores"
  = Ok (int_dict [("image_alts", 100); ("heading_hierarchy", 50);
                  ("link_text", 100)]%Z)
  /\ subscript (a11y_checks s) "issues" = Ok (str_list ["No headings found"]).
Proof.
  intros Hnone.
  unfold a11y_checks, check_image_alts, check_heading_hierarchy, check_link_text.
  rewrite heading_levels_none by assumption.
  rewrite !Hnone by (cbn; tauto). split; reflexivity.
Qed.

(** C6, as stated, fails: on the empty page the heading-hierarchy
    sub-score of [check_a11y] is 50, not 100. *)
Lemma empty_page_heading_score_is_50 :
  sub_score (check_a11y (E := Mock.external) "" "") "heading_hierarchy"
  = Ok (PyInt 50)
  /\ pr_score (check_heading_hierarchy []) = 50%Z
  /\ pr_issues (check_heading_hierarchy []) = ["No headings found"]
  /\ PyInt 50 <> PyInt 100.
Proof.
  repeat split; try reflexivity. intros Heq. discriminate Heq.
Qed.

(** C6, amended.  For an empty page (no title, meta description,
    canonical link, heading, image or link, and no word of text) the
    sub-scores of [check_seo] and [check_a11y] are: 100 for image alts and
    link text; 50 for the heading hierarchy ("No headings found"); 0 for
    title, meta description, H1 and canonical; 25 for the word count, its
    lowest threshold. *)
Theorem empty_page_sub_scores (html text : string) (s : soup) :
  html_parser html = Ok s ->
  no_checked_tags s ->
  split_ws text = [] ->
  subscript (check_seo html text) "scores"
  = Ok (int_dict [("title", 0); ("meta_description", 0); ("h1", 0);
                  ("canonical", 0); ("word_count", 25)]%Z)
  /\ subscript (check_a11y html text) "scores"
     = Ok (int_dict [("image_alts", 100); ("heading_hierarchy", 50);
                     ("link_text", 100)]%Z)
  /\ subscript (check_a11y html text) "issues" = Ok (str_list ["No headings found"]).
Proof.
  intros Hparse Hnone Hwords. unfold check_seo, check_a11y. rewrite Hparse.
  split; [now apply seo_checks_empty | now apply a11y_checks_empty].
Qed.

(** ** What the analyzer returns *)

Lemma all_in_complete_truthy (result : pyval) :
  all_in required_keys result = Ok true -> truthy result = true.
Proof.
  destruct result as [| b | z | f | s | l | d]; try discriminate.
  - destruct s; [discriminate | reflexivity].
  - destruct l; [discriminate | reflexivity].
  - destruct d; [discriminate | reflexivity].
Qed.

Lemma parse_response_truthy (response : string) (v : pyval) :
  parse_response response = Ok v -> truthy v = true.
Proof.
  unfold parse_response.
  destruct (json_loads (clean_response response)) as [result | err].
  - destruct (all_in required_keys result) as [complete |] eqn:Hall;
      cbn [pyres_bind]; [| discriminate].
    destruct complete; cbn [negb]; intros [= <-].
    + now apply all_in_complete_truthy.
    + reflexivity.
  - destruct err; try discriminate. intros [= <-]. reflexivity.
Qed.

Lemma tone_outcome_truthy (text : string) (e : Env) (v : pyval) :
  tone_outcome text e = Ok v -> truthy v = true.
Proof.
  unfold tone_outcome.
  destruct (fst (ollama_invoke (tone_prompt (tone_text text)) e))
    as [response | err]; [apply parse_response_truthy | discriminate].
Qed.

(** [analyze_tone] returns [None] or a non-empty value. *)
Lemma tone_value_truthy (text : string) (e : Env) :
  tone_value text e <> PyNone -> truthy (tone_value text e) = true.
Proof.
  unfold tone_value. destruct (tone_outcome text e) as [v |] eqn:Hout.
  - intros _. now apply (tone_outcome_truthy text e).
  - intros Hnone. now contradiction Hnone.
Qed.

(** ** A page that is analysed *)

Lemma cache_get_absent (dir : gmap string string) (url : string) :
  dir !! Cache._get_cache_path url = None -> Cache.get dir url = PyNone.
Proof. intros Hnone. unfold Cache.get. now rewrite Hnone. Qed.

Lemma process_page_eligible (url : string) (w : World) :
  files w !! Cache._get_cache_path url = None ->
  eligible url ->
  BudgetManager.can_make_call (budget w) "tone_analysis" = true ->
  exists result w',
    process_page url true w = (Ok result, w')
    /\ analysed_result url result
    /\ files w' = Cache.set (files w) url result
    /\ budget w' = BudgetManager.record_call (budget w) "tone_analysis".
Proof.
  intros Habsent Hpage Hcan.
  destruct (Hpage (env w)) as (html & text & Hfetch & Hhtml & Hextract & Htext & Htone).
  pose proof (process_page_analysed url true w html text) as Hrun.
  rewrite cache_get_absent in Hrun by assumption.
  specialize (Hrun eq_refl Hfetch Hhtml Hextract Htext). cbv zeta in Hrun.
  unfold tone_result in Hrun.
  change (budget (world_checked url html text w)) with (budget w) in Hrun.
  rewrite Hcan in Hrun. cbn [andb fst snd] in Hrun.
  change (env (world_checked url html text w)) with (after_fetch url (env w)) in Hrun.
  set (tone := tone_value text (after_fetch url (env w))) in *.
  assert (Htruthy : truthy tone = true) by (apply tone_value_truthy, Htone).
  destruct (page_result_spec url (check_seo html text) (check_a11y html text) tone
              (check_seo_is_bundle html text) (check_a11y_is_bundle html text))
    as (_ & Hurl & Hsummary & _).
  eexists _, _. split; [exact Hrun |].
  split; [| split].
  - split; [exact Hurl |]. exists tone. split; [exact Hsummary | apply Htone].
  - reflexivity.
  - unfold tone_taken, world_checked. cbn [budget env]. fold tone.
    now rewrite Htruthy.
Qed.

(** ** The loop of [audit] *)

(** C8.  With [max_calls = 2] and five different pages, none of them in
    the cache and each eligible for the tone analysis, the loop returns
    exactly two results: those of the first two URLs, in input order,
    each with a tone summary.  After the first page the budget check
    still passes; after the second, with two calls recorded, it fails
    and the loop stops, short of the five pages. *)
Theorem budget_exhausted_mid_batch (u1 u2 u3 u4 u5 : string)
    (dir : gmap string string) (e : Env) :
  let urls := [u1; u2; u3; u4; u5] in
  NoDup (map Cache._get_cache_path urls) ->
  (forall u, In u urls -> dir !! Cache._get_cache_path u = None) ->
  (forall u, In u urls -> eligible u) ->
  exists r1 r2 w1 w2,
    process_page u1 true (fresh_world dir e 2) = (Ok r1, w1)
    /\ BudgetManager.can_make_call (budget w1) "default" = true
    /\ process_page u2 true w1 = (Ok r2, w2)
    /\ BudgetManager.can_make_call (budget w2) "default" = false
    /\ batch_loop urls false [] (fresh_world dir e 2) = (Ok [r1; r2], w2)
    /\ analysed_result u1 r1
    /\ analysed_result u2 r2
    /\ calls_made (budget w2) = 2%Z
    /\ recorded "tone_analysis" (calls w2) = 2%Z
    /\ (List.length [r1; r2] < List.length urls)%nat.
Proof.
  intros urls Hdistinct Habsent Hpages.
  assert (Hpaths : Cache._get_cache_path u1 <> Cache._get_cache_path u2).
  { subst urls. cbn [map] in Hdistinct. apply NoDup_cons in Hdistinct as [Hfirst _].
    intros Heq. apply Hfirst. rewrite Heq. left. }
  destruct (process_page_eligible u1 (fresh_world dir e 2))
    as (r1 & w1 & Hrun1 & Hr1 & Hfiles1 & Hbudget1).
  { apply Habsent. subst urls. cbn. tauto. }
  { apply Hpages. subst urls. cbn. tauto. }
  { reflexivity. }
  assert (Hcan1 : BudgetManager.can_make_call (budget w1) "default" = true)
    by (rewrite Hbudget1; reflexivity).
  destruct (process_page_eligible u2 w1)
    as (r2 & w2 & Hrun2 & Hr2 & Hfiles2 & Hbudget2).
  { rewrite Hfiles1. unfold Cache.set. rewrite lookup_insert_ne by assumption.
    apply Habsent. subst urls. cbn. tauto. }
  { apply Hpages. subst urls. cbn. tauto. }
  { rewrite Hbudget1. reflexivity. }
  assert (Hcan2 : BudgetManager.can_make_call (budget w2) "default" = false)
    by (rewrite Hbudget2, Hbudget1; reflexivity).
  assert (Hloop : batch_loop urls false [] (fresh_world dir e 2) = (Ok [r1; r2], w2)).
  { subst urls. cbn [batch_loop negb]. unfold bind at 1. rewrite Hrun1.
    unfold bind at 1, get_budget. rewrite Hcan1. cbn [negb andb].
    unfold bind at 1. rewrite Hrun2.
    unfold bind at 1. rewrite Hcan2. reflexivity. }
  exists r1, r2, w1, w2.
  repeat (split; [assumption |]).
  split; [rewrite Hbudget2, Hbudget1; reflexivity |].
  split; [| cbn; lia].
  pose proof (within_budget_batch_loop 2 urls false [] (fresh_world dir e 2)
                (within_budget_fresh 2 dir e ltac:(lia))) as (_ & _ & Hrec & _).
  rewrite Hloop in Hrec. cbn [snd] in Hrec. rewrite Hrec.
  rewrite Hbudget2, Hbudget1. reflexivity.
Qed.

(** What a run with an exhausted budget keeps: the budget itself, and a
    call log without any call of the tone step. *)
Lemma exhausted_budget_kept (b0 : BudgetState) (url : string) (use_llm : bool)
    (w : World) :
  BudgetManager.can_make_call b0 "tone_analysis" = false ->
  budget w = b0 /\ Forall (fun c => is_tone_call c = false) (calls w) ->
  (exists result, fst (process_page url use_llm w) = Ok result)
  /\ budget (snd (process_page url use_llm w)) = b0
  /\ Forall (fun c => is_tone_call c = false) (calls (snd (process_page url use_llm w))).
Proof.
  intros Hfull Hw.
  apply (process_page_keeps
           (fun b cs => b = b0 /\ Forall (fun c => is_tone_call c = false) cs)).
  - intros b cs c [Hb Hcs] Hc. split; [assumption |].
    apply Forall_app. split; [assumption | now constructor].
  - intros text llm w' [Hb Hcs]. unfold tone_result. rewrite Hb, Hfull.
    rewrite andb_false_r. now split.
  - assumption.
Qed.

(** C9.  With [max_calls = 0] and the tone analysis enabled, the loop
    processes the first URL and stops: the budget check after the page
    fails although no tone call was attempted.  The result list has
    length [min 1 (number of URLs)]; the budget is untouched. *)
Theorem zero_budget_processes_one_page (urls : list string)
    (dir : gmap string string) (e : Env) :
  exists results w',
    batch_loop urls false [] (fresh_world dir e 0) = (Ok results, w')
    /\ List.length results = Nat.min 1 (List.length urls)
    /\ (forall url rest, urls = url :: rest ->
          exists result,
            process_page url true (fresh_world dir e 0) = (Ok result, w')
            /\ results = [result])
    /\ budget w' = BudgetManager.new 0
    /\ BudgetManager.can_make_call (budget w') "default" = false
    /\ Forall (fun c => is_tone_call c = false) (calls w').
Proof.
  destruct urls as [| url rest].
  - exists [], (fresh_world dir e 0). repeat split; try reflexivity.
    + intros url rest Hurls. discriminate Hurls.
    + constructor.
  - destruct (exhausted_budget_kept (BudgetManager.new 0) url true
                (fresh_world dir e 0) eq_refl)
      as ([result Hresult] & Hbudget & Hcalls).
    { split; [reflexivity | constructor]. }
    destruct (process_page url true (fresh_world dir e 0)) as [outcome w'] eqn:Hrun.
    cbn [fst snd] in *. subst outcome.
    exists [result], w'. split; [| split; [| split; [| split; [| split]]]].
    + cbn [batch_loop negb]. unfold bind at 1. rewrite Hrun.
      unfold bind, get_budget. rewrite Hbudget. reflexivity.
    + reflexivity.
    + intros url' rest' [= <- <-]. now exists result.
    + assumption.
    + now rewrite Hbudget.
    + assumption.
Qed.

(** ** The budget and the analyzer *)

Lemma malformed_gives_placeholder (text : string) (e : Env)
    (response : string) (placeholder : pyval) :
  fst (ollama_invoke (tone_prompt (tone_text text)) e) = Ok response ->
  malformed response placeholder ->
  tone_outcome text e = Ok placeholder
  /\ tone_value text e = placeholder
  /\ subscript placeholder "readability" = Ok (PyStr "Unable to analyze")
  /\ subscript placeholder "tone" = Ok (PyStr "Unable to analyze")
  /\ truthy placeholder = true.
Proof.
  intros Hanswer Hbad.
  assert (Hout : tone_outcome text e = Ok placeholder).
  { unfold tone_outcome. rewrite Hanswer. unfold parse_response.
    destruct Hbad as [Hparse | result Hparse Hkeys]; rewrite Hparse.
    - reflexivity.
    - now rewrite Hkeys. }
  split; [exact Hout |]. split; [unfold tone_value; now rewrite Hout |].
  destruct Hbad; repeat split.
Qed.

Lemma record_call_changes (b : BudgetState) (call_type : string) :
  BudgetManager.record_call b call_type <> b.
Proof.
  intros Heq. apply (f_equal calls_made) in Heq.
  unfold BudgetManager.record_call in Heq. cbn [calls_made] in Heq. lia.
Qed.

(** The page whose tone analysis is attempted: what the analyzer
    returned is the tone summary, and it is recorded when it is not empty. *)
Lemma process_page_tone_attempted (url : string) (w : World) (html text : string) :
  truthy (Cache.get (files w) url) = false ->
  fetched url (env w) = Some html ->
  html <> "" ->
  extract_text html = Some text ->
  text <> "" ->
  BudgetManager.can_make_call (budget w) "tone_analysis" = true ->
  let tone := tone_value text (after_fetch url (env w)) in
  exists result w',
    process_page url true w = (Ok result, w')
    /\ subscript result "tone_summary" = Ok tone
    /\ budget w' = (if truthy tone
                    then BudgetManager.record_call (budget w) "tone_analysis"
                    else budget w)
    /\ recorded "tone_analysis" (calls w')
       = (recorded "tone_analysis" (calls w) + if truthy tone then 1 else 0)%Z.
Proof.
  intros Hmiss Hfetch Hhtml Hextract Htext Hcan tone.
  pose proof (process_page_analysed url true w html text
                Hmiss Hfetch Hhtml Hextract Htext) as Hrun.
  cbv zeta in Hrun. unfold tone_result in Hrun.
  change (budget (world_checked url html text w)) with (budget w) in Hrun.
  rewrite Hcan in Hrun. cbn [andb fst snd] in Hrun.
  change (env (world_checked url html text w)) with (after_fetch url (env w)) in Hrun.
  fold tone in Hrun.
  destruct (page_result_spec url (check_seo html text) (check_a11y html text) tone
              (check_seo_is_bundle html text) (check_a11y_is_bundle html text))
    as (_ & _ & Hsummary & _).
  eexists _, _. split; [exact Hrun |]. split; [exact Hsummary |].
  unfold tone_taken, world_checked. cbn [budget env calls]. fold tone.
  split; [reflexivity |].
  destruct (truthy tone); rewrite !recorded_app; unfold recorded; cbn; lia.
Qed.

(** C10.  When the tone analysis of a page is attempted and the output
    of the model is malformed (not JSON, or JSON without all the
    required keys), [analyze_tone] returns the "Unable to analyze"
    placeholder of the case, which is not [None]; it becomes the tone
    summary of the result and [record_call] is invoked for it.  The
    budget is left as it was exactly when the analyzer raised, in which
    case it returned [None]. *)
Theorem malformed_output_consumes_budget (url : string) (w : World)
    (html text : string) :
  truthy (Cache.get (files w) url) = false ->
  fetched url (env w) = Some html ->
  html <> "" ->
  extract_text html = Some text ->
  text <> "" ->
  BudgetManager.can_make_call (budget w) "tone_analysis" = true ->
  let e := after_fetch url (env w) in
  let run := process_page url true w in
  (forall response placeholder,
     fst (ollama_invoke (tone_prompt (tone_text text)) e) = Ok response ->
     malformed response placeholder ->
     tone_value text e = placeholder
     /\ placeholder <> PyNone
     /\ subscript placeholder "readability" = Ok (PyStr "Unable to analyze")
     /\ (exists result,
           fst run = Ok result
           /\ subscript result "tone_summary" = Ok placeholder)
     /\ budget (snd run) = BudgetManager.record_call (budget w) "tone_analysis"
     /\ recorded "tone_analysis" (calls (snd run))
        = (recorded "tone_analysis" (calls w) + 1)%Z)
  /\ (budget (snd run) = budget w <-> exists err, tone_outcome text e = Raise err)
  /\ (forall err, tone_outcome text e = Raise err -> tone_value text e = PyNone).
Proof.
  intros Hmiss Hfetch Hhtml Hextract Htext Hcan e run.
  destruct (process_page_tone_attempted url w html text
              Hmiss Hfetch Hhtml Hextract Htext Hcan)
    as (result & w' & Hrun & Hsummary & Hbudget & Hrecorded).
  fold e in Hsummary, Hbudget, Hrecorded.
  subst run. rewrite Hrun. cbn [fst snd].
  split; [| split].
  - intros response placeholder Hanswer Hbad.
    destruct (malformed_gives_placeholder text e response placeholder Hanswer Hbad)
      as (_ & Hvalue & Hreadability & _ & Htruthy).
    rewrite Hvalue in Hsummary, Hbudget, Hrecorded.
    rewrite Htruthy in Hbudget, Hrecorded.
    split; [exact Hvalue |].
    split; [intros ->; discriminate Htruthy |].
    split; [exact Hreadability |].
    split; [now exists result |]. now split.
  - split.
    + intros Hsame. rewrite Hbudget in Hsame.
      destruct (tone_outcome text e) as [v |] eqn:Hout; [| now eexists].
      assert (Htruthy : truthy (tone_value text e) = true).
      { unfold tone_value. rewrite Hout. now apply (tone_outcome_truthy text e). }
      rewrite Htruthy in Hsame. now apply record_call_changes in Hsame.
    + intros [err Hout]. rewrite Hbudget. unfold tone_value. now rewrite Hout.
  - intros err Hout. unfold tone_value. now rewrite Hout.
Qed.

(** ** The reports *)

Lemma summary_rows_raise (url msg : string) (results : list pyval) :
  In (error_result url msg) results ->
  exists err, summary_rows results = Raise err.
Proof.
  induction results as [| result results IH]; intros Hin; [contradiction |].
  cbn [summary_rows].
  destruct Hin as [-> | Hin]; [now eexists |].
  destruct (summary_row result) as [row | err]; [| now eexists].
  destruct (IH Hin) as [err Hrows]. rewrite Hrows. now eexists.
Qed.

(** C2.  The row of [summary.csv] for an error result cannot be computed:
    the result has no ["scores"] key.  The report writing raises
    [KeyError] on a list that starts with an error result, after
    [pages.jsonl] and before any row of the summary, and it raises on
    every list that holds one. *)
Theorem save_reports_raises_on_error_result (url msg : string)
    (results : list pyval) :
  summary_row (error_result url msg) = Raise (KeyError "scores")
  /\ save_reports (error_result url msg :: results) = Raise (KeyError "scores")
  /\ (In (error_result url msg) results ->
      exists err, save_reports results = Raise err).
Proof.
  split; [reflexivity |]. split; [reflexivity |].
  intros Hin. apply summary_rows_raise in Hin as [err Hrows].
  exists err. unfold save_reports. now rewrite Hrows.
Qed.

End Properties.

(** * The properties on concrete runs *)

(** C1 on a run: three served pages, [max_calls = 2]. *)
Lemma budget_ceiling_respected_witness :
  (0 <= 2)%Z
  /\ (recorded "tone_analysis"
        (calls (drive (E := Mock.external) served_urls true
                  (mock_world ∅ 2))) <= 2)%Z.
Proof.
  split; [lia |].
  pose proof (budget_ceiling_respected (E := Mock.external) 2 served_urls ∅ 0%nat)
    as Hceiling.
  cbv zeta in Hceiling. apply Hceiling. lia.
Defined.

(** C3 on a run: the cache holds a result without tone summary for the
    page, and the tone analysis is enabled. *)
Lemma cache_hit_returns_stored_result_witness :
  Cache.get (E := Mock.external) one_entry_dir "http://a" = stored_result
  /\ truthy stored_result = true
  /\ process_page (E := Mock.external) "http://a" true
       (mock_world one_entry_dir 5)
     = (Ok stored_result, mock_world one_entry_dir 5).
Proof.
  assert (Hget : Cache.get (E := Mock.external) one_entry_dir "http://a"
                 = stored_result) by (vm_compute; reflexivity).
  split; [exact Hget |]. split; [reflexivity |].
  apply (cache_hit_returns_stored_result (E := Mock.external)
           "http://a" stored_result true (mock_world one_entry_dir 5)).
  - exact Hget.
  - reflexivity.
Defined.

(** C4 on two runs: a page the network refuses, and a blank page. *)
Lemma failed_page_is_not_cached_witness :
  (exists w',
     process_page (E := Mock.external) refused_url true (mock_world ∅ 5)
     = (Ok (error_result refused_url "Failed to fetch page"), w')
     /\ files w' = ∅)
  /\ (exists w',
        process_page (E := Mock.external) blank_url true (mock_world ∅ 5)
        = (Ok (error_result blank_url "Failed to extract text"), w')
        /\ files w' = ∅).
Proof.
  split.
  - destruct (failed_page_is_not_cached (E := Mock.external) refused_url
                "Failed to fetch page" true (mock_world ∅ 5))
      as (w' & Hrun & _ & Hfiles & _).
    + reflexivity.
    + apply fetch_fails. reflexivity.
    + exists w'. split; [exact Hrun | exact Hfiles].
  - destruct (failed_page_is_not_cached (E := Mock.external) blank_url
                "Failed to extract text" true (mock_world ∅ 5))
      as (w' & Hrun & _ & Hfiles & _).
    + reflexivity.
    + apply (extract_fails (E := Mock.external) blank_url 0%nat " ").
      * reflexivity.
      * discriminate.
      * vm_compute. reflexivity.
    + exists w'. split; [exact Hrun | exact Hfiles].
Defined.

(** C5 on the data of [test_cache]. *)
Lemma cache_set_get_round_trip_witness :
  json_round_trips (E := Mock.external) test_data
  /\ Cache.get (E := Mock.external)
       (Cache.set (E := Mock.external) ∅ "test_url" test_data) "test_url"
     = test_data.
Proof.
  assert (Hjson : json_round_trips (E := Mock.external) test_data)
    by (vm_compute; reflexivity).
  split; [exact Hjson |].
  exact (cache_set_get_round_trip (E := Mock.external) ∅ "test_url" test_data Hjson).
Defined.

(** C6, amended, on the empty page and the empty text. *)
Lemma empty_page_sub_scores_witness :
  html_parser (External := Mock.external) "" = Ok []
  /\ no_checked_tags []
  /\ split_ws "" = []
  /\ sub_score (check_a11y (E := Mock.external) "" "") "heading_hierarchy"
     = Ok (PyInt 50)
  /\ sub_score (check_seo (E := Mock.external) "" "") "word_count" = Ok (PyInt 25).
Proof.
  assert (Hnone : no_checked_tags []) by (intros name _; reflexivity).
  destruct (empty_page_sub_scores (E := Mock.external) "" "" []
              eq_refl Hnone eq_refl) as (Hseo & Ha11y & _).
  split; [reflexivity |]. split; [exact Hnone |]. split; [reflexivity |]. split.
  - unfold sub_score. rewrite Ha11y. reflexivity.
  - unfold sub_score. rewrite Hseo. reflexivity.
Defined.

(** The five pages are eligible, and they are different pages. *)
Lemma mock_eligible (url : string) :
  In url five_urls -> eligible (E := Mock.external) url.
Proof.
  intros Hin e. exists ("Page at " ++ url), ("Page at " ++ url). cbn in Hin.
  repeat (destruct Hin as [<- | Hin];
          [split; [reflexivity |];
           split; [vm_compute; discriminate |];
           split; [vm_compute; reflexivity |];
           split; [vm_compute; discriminate |];
           intros e'; vm_compute; discriminate |]).
  contradiction.
Qed.

Lemma mock_paths_distinct :
  NoDup (map (Cache._get_cache_path (E := Mock.external)) five_urls).
Proof. apply (bool_decide_unpack _). vm_compute. exact I. Qed.

(** C8 on a run: five served pages, an empty cache, [max_calls = 2]. *)
Lemma budget_exhausted_mid_batch_witness :
  exists r1 r2 w',
    batch_loop (E := Mock.external) five_urls false [] (mock_world ∅ 2)
    = (Ok [r1; r2], w')
    /\ analysed_result "http://a" r1
    /\ analysed_result "http://b" r2
    /\ calls_made (budget w') = 2%Z.
Proof.
  destruct (budget_exhausted_mid_batch (E := Mock.external)
              "http://a" "http://b" "http://c" "http://d" "http://e" ∅ 0%nat
              mock_paths_distinct
              (fun u _ => lookup_empty _)
              mock_eligible)
    as (r1 & r2 & w1 & w2 & _ & _ & _ & _ & Hloop & Hr1 & Hr2 & Hmade & _).
  exists r1, r2, w2.
  split; [exact Hloop |]. split; [exact Hr1 |]. split; [exact Hr2 | exact Hmade].
Defined.

(** C10 on a run: the model answers in prose, the placeholder is the tone
    summary and one call is recorded. *)
Lemma malformed_output_consumes_budget_witness :
  exists result,
    fst (process_page (E := Mock.external) garbled_url true (mock_world ∅ 5))
    = Ok result
    /\ subscript result "tone_summary" = Ok placeholder_parse_error
    /\ budget (snd (process_page (E := Mock.external) garbled_url true
                      (mock_world ∅ 5)))
       = BudgetManager.record_call (BudgetManager.new 5) "tone_analysis".
Proof.
  pose proof (malformed_output_consumes_budget (E := Mock.external) garbled_url
                (mock_world ∅ 5) "Page at http://garbled" "Page at http://garbled")
    as Hclaim.
  destruct Hclaim as (Hbad & _); try reflexivity; try discriminate.
  destruct (Hbad "The text reads well." placeholder_parse_error)
    as (_ & _ & _ & (result & Hresult & Hsummary) & Hbudget & _).
  - reflexivity.
  - apply not_json. vm_compute. reflexivity.
  - exists result. repeat split; assumption.
Defined.

(** Runs on the stand-ins, evaluated. *)

Example three_pages_budget_two :
  calls_made (budget (drive (E := Mock.external) served_urls true (mock_world ∅ 2)))
  = 2%Z
  /\ recorded "tone_analysis"
       (calls (drive (E := Mock.external) served_urls true (mock_world ∅ 2)))
     = 2%Z.
Proof. split; vm_compute; reflexivity. Qed.

Example partial_answer_is_recorded :
  let run := process_page (E := Mock.external) partial_url true (mock_world ∅ 5) in
  (try! result <- fst run; subscript result "tone_summary")%pyres
  = Ok placeholder_invalid_format
  /\ calls_made (budget (snd run)) = 1%Z.
Proof. split; vm_compute; reflexivity. Qed.

Example timeout_is_not_recorded :
  let run := process_page (E := Mock.external) timeout_url true (mock_world ∅ 5) in
  (try! result <- fst run; subscript result "tone_summary")%pyres = Ok PyNone
  /\ calls_made (budget (snd run)) = 0%Z
  /\ calls (snd run)
     = [CallFetch timeout_url;
        CallExtract "Page at http://timeout";
        CallCheckSeo "Page at http://timeout" "Page at http://timeout";
        CallCheckA11y "Page at http://timeout" "Page at http://timeout";
        CallAnalyzeTone "Page at http://timeout"].
Proof. repeat split; vm_compute; reflexivity. Qed.

Example audit_of_a_failed_page_raises :
  fst (audit (E := Mock.external) [refused_url] 200 false 200 false ∅ 0%nat)
  = Raise (KeyError "scores")
  /\ fst (batch_loop (E := Mock.external) [refused_url] false [] (mock_world ∅ 200))
     = Ok [error_result refused_url "Failed to fetch page"].
Proof. split; vm_compute; reflexivity. Qed.

Example audit_of_a_served_page :
  (try! reports <- fst (audit (E := Mock.external) ["http://a"] 200 false 200
                          false ∅ 0%nat);
   Ok (List.length (pages_jsonl reports), summary_csv reports))%pyres
  = Ok (1%nat,
        [summary_header;
         [PyStr "http://a"; PyStr "0.0"; PyStr "0.0"; PyInt 6; PyStr "Yes"]]).
Proof. vm_compute. reflexivity. Qed.

Example audit_of_no_page_raises :
  fst (audit (E := Mock.external) [] 200 false 200 false ∅ 0%nat)
  = Raise ZeroDivisionError.
Proof. vm_compute. reflexivity. Qed.

(** * Further properties of the code *)

(** ** utils/budget.py *)

Lemma sum_fold_insert (m : gmap string Z) (k : string) (n : Z) :
  m !! k = None ->
  map_fold (fun _ n acc => (n + acc)%Z) 0%Z (<[k := n]> m)
  = (n + map_fold (fun _ n acc => (n + acc)%Z) 0%Z m)%Z.
Proof.
  intros Hnone.
  apply (map_fold_insert_L (fun _ n acc => (n + acc)%Z)); [| assumption].
  intros. lia.
Qed.

Lemma total_by_type_record (b : BudgetState) (call_type : string) :
  total_by_type (BudgetManager.record_call b call_type) = (total_by_type b + 1)%Z.
Proof.
  unfold total_by_type, BudgetManager.record_call. cbn [calls_by_type].
  destruct (calls_by_type b !! call_type) as [n |] eqn:Hlookup; cbn [default from_option id].
  - rewrite <- (insert_delete_eq (calls_by_type b) call_type (n + 1)%Z).
    rewrite <- (insert_delete_id (calls_by_type b) call_type n Hlookup) at 2.
    rewrite !sum_fold_insert by apply lookup_delete_eq. lia.
  - rewrite sum_fold_insert by assumption. lia.
Qed.

Lemma record_calls_spec (b : BudgetState) (call_types : list string) :
  max_calls (record_calls b call_types) = max_calls b
  /\ calls_made (record_calls b call_types)
     = (calls_made b + Z.of_nat (List.length call_types))%Z
  /\ total_by_type (record_calls b call_types)
     = (total_by_type b + Z.of_nat (List.length call_types))%Z
  /\ (forall t,
        default 0%Z (calls_by_type (record_calls b call_types) !! t)
        = (default 0%Z (calls_by_type b !! t) + occurrences t call_types)%Z).
Proof.
  revert b. induction call_types as [| call_type call_types IH]; intros b.
  - unfold occurrences. cbn. repeat split; try intros t; lia.
  - cbn [record_calls fold_left]. fold (record_calls (BudgetManager.record_call b call_type) call_types).
    destruct (IH (BudgetManager.record_call b call_type)) as (Hmax & Hmade & Htotal & Htypes).
    rewrite Hmax, Hmade, Htotal, total_by_type_record.
    cbn [BudgetManager.record_call max_calls calls_made List.length].
    repeat split; try lia.
    intros t. rewrite Htypes. unfold BudgetManager.record_call at 1. cbn [calls_by_type].
    unfold occurrences. cbn [List.filter].
    destruct (String.eqb_spec t call_type) as [-> | Hne].
    + rewrite lookup_insert_eq. cbn [default from_option id List.length]. lia.
    + rewrite lookup_insert_ne by congruence. lia.
Qed.

(** X1.  After any sequence of [record_call]s on a fresh
    [BudgetManager(max_calls)], [calls_made] is the number of calls
    recorded, also beyond the ceiling, which [record_call] never checks;
    the count of each type is the number of calls of that type, the
    counts of all types add up to [calls_made], and [can_make_call]
    answers whether fewer than [max_calls] calls were recorded. *)
Theorem record_calls_counts (max : Z) (call_types : list string) :
  let b := record_calls (BudgetManager.new max) call_types in
  max_calls b = max
  /\ calls_made b = Z.of_nat (List.length call_types)
  /\ (forall t, default 0%Z (calls_by_type b !! t) = occurrences t call_types)
  /\ total_by_type b = calls_made b
  /\ (forall t, BudgetManager.can_make_call b t = true
                <-> (Z.of_nat (List.length call_types) < max)%Z).
Proof.
  intros b.
  destruct (record_calls_spec (BudgetManager.new max) call_types)
    as (Hmax & Hmade & Htotal & Htypes).
  fold b in Hmax, Hmade, Htotal, Htypes.
  cbn [BudgetManager.new max_calls calls_made] in Hmax, Hmade.
  assert (Hzero : total_by_type (BudgetManager.new max) = 0%Z)
    by (unfold total_by_type; cbn; apply map_fold_empty).
  split; [exact Hmax |]. split; [lia |]. split; [| split; [lia |]].
  - intros t. rewrite Htypes. cbn [BudgetManager.new calls_by_type].
    rewrite lookup_empty. cbn. lia.
  - intros t. unfold BudgetManager.can_make_call. rewrite Hmax, Hmade.
    destruct (max <=? 0 + Z.of_nat (List.length call_types))%Z eqn:Hfull.
    + apply Z.leb_le in Hfull. split; [discriminate | lia].
    + apply Z.leb_gt in Hfull. split; [lia | reflexivity].
Qed.

(** X2.  [get_stats] never divides by zero and never reports a negative
    remainder: [remaining_calls] is [max_calls - calls_made] while a call
    can be made and 0 otherwise, so it is positive exactly when
    [can_make_call] is true; with [max_calls <= 0] the percentage is the
    int 0.  [reset] brings the counters back to those of a fresh
    manager with the same ceiling. *)
Theorem get_stats_remaining (b : BudgetState) (call_type : string) :
  let stats := BudgetManager.get_stats b in
  (0 <= BudgetManager.remaining_calls stats)%Z
  /\ (BudgetManager.can_make_call b call_type = true
      <-> (0 < BudgetManager.remaining_calls stats)%Z)
  /\ (BudgetManager.can_make_call b call_type = true ->
      BudgetManager.remaining_calls stats = (max_calls b - calls_made b)%Z)
  /\ (BudgetManager.can_make_call b call_type = false -> BudgetManager.remaining_calls stats = 0%Z)
  /\ ((max_calls b <= 0)%Z -> BudgetManager.budget_used_percent stats = PyInt 0)
  /\ BudgetManager.get_stats (BudgetManager.reset b)
     = BudgetManager.get_stats (BudgetManager.new (max_calls b)).
Proof.
  cbv zeta. unfold BudgetManager.get_stats, BudgetManager.can_make_call.
  cbn [BudgetManager.remaining_calls BudgetManager.budget_used_percent].
  destruct (max_calls b <=? calls_made b)%Z eqn:Hfull.
  - apply Z.leb_le in Hfull. repeat split; try lia; try discriminate.
    intros Hmax. apply Z.ltb_ge in Hmax. now rewrite Hmax.
  - apply Z.leb_gt in Hfull. repeat split; try lia; try discriminate.
    intros Hmax. apply Z.ltb_ge in Hmax. now rewrite Hmax.
Qed.

(** ** utils/cache.py *)

Section CacheProperties.
Context {E : External}.

Lemma append_cancel_r (s s' t : string) : s ++ t = s' ++ t -> s = s'.
Proof.
  revert s'. induction s as [| c s IH]; intros s' Heq.
  - destruct s' as [| c' s']; [reflexivity |].
    apply (f_equal String.length) in Heq.
    change ("" ++ t) with t in Heq.
    change (String c' s' ++ t) with (String c' (s' ++ t)) in Heq.
    cbn [String.length] in Heq. rewrite length_app in Heq. lia.
  - destruct s' as [| c' s'].
    + apply (f_equal String.length) in Heq.
      change ("" ++ t) with t in Heq.
      change (String c s ++ t) with (String c (s ++ t)) in Heq.
      cbn [String.length] in Heq. rewrite length_app in Heq. lia.
    + change (String c s ++ t) with (String c (s ++ t)) in Heq.
      change (String c' s' ++ t) with (String c' (s' ++ t)) in Heq.
      injection Heq as -> Heq. f_equal. now apply IH.
Qed.

Lemma cache_path_inj (key key' : string) :
  Cache._get_cache_path key = Cache._get_cache_path key' ->
  Cache._get_hash key = Cache._get_hash key'.
Proof. unfold Cache._get_cache_path. apply append_cancel_r. Qed.

(** X3.  The cache is keyed by the digest of the key alone: [set] for
    one key leaves [get] for every key with another digest as it was,
    and two keys with the same digest read the same entry. *)
Theorem cache_keyed_by_digest (dir : gmap string string) (key key' : string)
    (data : pyval) :
  (Cache._get_hash key <> Cache._get_hash key' ->
   Cache.get (Cache.set dir key data) key' = Cache.get dir key')
  /\ (Cache._get_hash key = Cache._get_hash key' ->
      Cache.get (Cache.set dir key data) key'
      = Cache.get (Cache.set dir key data) key
      /\ Cache.set dir key data = Cache.set dir key' data).
Proof.
  split.
  - intros Hne. unfold Cache.get, Cache.set.
    rewrite lookup_insert_ne; [reflexivity |].
    intros Heq. apply Hne. now apply cache_path_inj.
  - intros Heq. unfold Cache.get, Cache.set, Cache._get_cache_path.
    rewrite Heq. split; reflexivity.
Qed.

Lemma json_files_set (dir : gmap string string) (key : string) (data : pyval) :
  Cache.json_files (Cache.set dir key data)
  = <[Cache._get_cache_path key := json_dump_indent data]> (Cache.json_files dir).
Proof.
  unfold Cache.json_files, Cache.set.
  apply map_filter_insert_True. cbn [fst]. apply cache_path_is_json_file.
Qed.

(** X4.  [set] writes one file: the number of entries [get_stats] counts
    grows by one for a key that had no file and stays the same when an
    entry is overwritten; a second [set] for the key replaces the first. *)
Theorem cache_set_counts_entries (dir : gmap string string) (key : string)
    (data data' : pyval) :
  Cache.total_entries (Cache.set dir key data)
  = (Cache.total_entries dir
     + match dir !! Cache._get_cache_path key with
       | Some _ => 0
       | None => 1
       end)%Z
  /\ Cache.set (Cache.set dir key data) key data' = Cache.set dir key data'
  /\ Cache.total_entries (Cache.set (Cache.set dir key data) key data')
     = Cache.total_entries (Cache.set dir key data).
Proof.
  assert (Hcount : forall d k x,
             Cache.total_entries (Cache.set d k x)
             = (Cache.total_entries d
                + match d !! Cache._get_cache_path k with
                  | Some _ => 0
                  | None => 1
                  end)%Z).
  { intros d k x. unfold Cache.total_entries. rewrite json_files_set.
    destruct (d !! Cache._get_cache_path k) as [content |] eqn:Hfile.
    - assert (Hin : Cache.json_files d !! Cache._get_cache_path k = Some content).
      { unfold Cache.json_files. apply map_lookup_filter_Some. split; [assumption |].
        cbn [fst]. apply cache_path_is_json_file. }
      rewrite map_size_insert, Hin. unfold id. lia.
    - assert (Hout : Cache.json_files d !! Cache._get_cache_path k = None).
      { unfold Cache.json_files. apply map_lookup_filter_None. now left. }
      rewrite map_size_insert, Hout. lia. }
  split; [apply Hcount |]. split.
  - unfold Cache.set. apply insert_insert_eq.
  - rewrite Hcount. unfold Cache.set at 2. rewrite lookup_insert_eq. lia.
Qed.

End CacheProperties.

(** ** rules/seo_rules.py and rules/a11y_rules.py *)

Ltac split_ifs :=
  repeat match goal with
         | |- context [if ?c then _ else _] => destruct c eqn:?
         | |- context [match ?o with Some _ => _ | None => _ end] => destruct o eqn:?
         end.

Ltac cases_of_In :=
  repeat match goal with
         | H : In _ (_ :: _) |- _ => destruct H as [<- | H]
         | H : In _ [] |- _ => contradiction H
         end.

Section RuleProperties.
Context {E : External}.

Lemma title_score_values (s : soup) :
  In (lr_score (check_title_tag s)) [0; 50; 75; 100]%Z.
Proof. unfold check_title_tag. split_ifs; cbn; tauto. Qed.

Lemma meta_score_values (s : soup) :
  In (lr_score (check_meta_description s)) [0; 50; 75; 100]%Z.
Proof. unfold check_meta_description. split_ifs; cbn; tauto. Qed.

Lemma h1_score_values (s : soup) : In (cr_score (check_h1_tags s)) [0; 75; 100]%Z.
Proof. unfold check_h1_tags. split_ifs; cbn; tauto. Qed.

Lemma canonical_score_values (s : soup) :
  In (pr_score (check_canonical s)) [0; 100]%Z.
Proof. unfold check_canonical. split_ifs; cbn; tauto. Qed.

Lemma word_count_score_values (text : string) :
  In (cr_score (check_word_count text)) [25; 75; 100]%Z.
Proof. unfold check_word_count. split_ifs; cbn; tauto. Qed.

Lemma seo_mean_bounds (a b c d e : Z) :
  In a [0; 50; 75; 100]%Z -> In b [0; 50; 75; 100]%Z -> In c [0; 75; 100]%Z ->
  In d [0; 100]%Z -> In e [25; 75; 100]%Z ->
  PrimFloat.leb (float_of_Z 5) (truediv (a + (b + (c + (d + (e + 0))))) 5) = true
  /\ PrimFloat.leb (truediv (a + (b + (c + (d + (e + 0))))) 5) (float_of_Z 100) = true.
Proof.
  intros Ha Hb Hc Hd He. cases_of_In; split; vm_compute; reflexivity.
Qed.

(** X5.  [check_seo] returns either the bundle without [overall_score]
    that it is left with when the parser raises, or five sub-scores, each
    one of the fixed values of its check, and as [overall_score] their
    mean: a float between 5 (the word count never scores 0) and 100. *)
Theorem check_seo_scores_bounded (html text : string) :
  (exists err,
     html_parser html = Raise err
     /\ check_seo html text = rule_bundle_error (str_of_exn err)
     /\ subscript (check_seo html text) "overall_score"
        = Raise (KeyError "overall_score"))
  \/ (exists a b c d e,
        subscript (check_seo html text) "scores"
        = Ok (int_dict [("title", a); ("meta_description", b); ("h1", c);
                        ("canonical", d); ("word_count", e)])
        /\ In a [0; 50; 75; 100]%Z /\ In b [0; 50; 75; 100]%Z
        /\ In c [0; 75; 100]%Z /\ In d [0; 100]%Z /\ In e [25; 75; 100]%Z
        /\ subscript (check_seo html text) "overall_score"
           = Ok (PyFloat (truediv (a + (b + (c + (d + (e + 0))))) 5))
        /\ PrimFloat.leb (float_of_Z 5)
             (truediv (a + (b + (c + (d + (e + 0))))) 5) = true
        /\ PrimFloat.leb (truediv (a + (b + (c + (d + (e + 0))))) 5)
             (float_of_Z 100) = true).
Proof.
  unfold check_seo. destruct (html_parser html) as [s | err].
  - right.
    exists (lr_score (check_title_tag s)), (lr_score (check_meta_description s)),
      (cr_score (check_h1_tags s)), (pr_score (check_canonical s)),
      (cr_score (check_word_count text)).
    pose proof (title_score_values s) as Ha.
    pose proof (meta_score_values s) as Hb.
    pose proof (h1_score_values s) as Hc.
    pose proof (canonical_score_values s) as Hd.
    pose proof (word_count_score_values text) as He.
    destruct (seo_mean_bounds _ _ _ _ _ Ha Hb Hc Hd He) as [Hlow Hhigh].
    split; [reflexivity |]. do 5 (split; [assumption |]).
    split; [reflexivity |]. now split.
  - left. exists err. repeat split.
Qed.

Lemma image_score_values (s : soup) :
  In (rr_score (check_image_alts s)) [25; 50; 75; 100]%Z.
Proof. unfold check_image_alts. split_ifs; cbn; tauto. Qed.

Lemma heading_score_values (s : soup) :
  In (pr_score (check_heading_hierarchy s)) [50; 100]%Z.
Proof.
  unfold check_heading_hierarchy.
  destruct (heading_levels s); [cbn; tauto |].
  destruct (first_skip _) as [[a b] |]; cbn; tauto.
Qed.

Lemma link_score_values (s : soup) :
  In (rr_score (check_link_text s)) [25; 50; 100]%Z.
Proof. unfold check_link_text. split_ifs; cbn; tauto. Qed.

Lemma a11y_mean_bounds (a b c : Z) :
  In a [25; 50; 75; 100]%Z -> In b [50; 100]%Z -> In c [25; 50; 100]%Z ->
  PrimFloat.leb (truediv 100 3) (truediv (a + (b + (c + 0))) 3) = true
  /\ PrimFloat.leb (truediv (a + (b + (c + 0))) 3) (float_of_Z 100) = true.
Proof.
  intros Ha Hb Hc. cases_of_In; split; vm_compute; reflexivity.
Qed.

(** X6.  [check_a11y] returns either the bundle without [overall_score]
    of a parser failure, or three sub-scores, each one of the fixed
    values of its check and none of them 0, and as [overall_score] their
    mean: a float between 100/3 and 100. *)
Theorem check_a11y_scores_bounded (html text : string) :
  (exists err,
     html_parser html = Raise err
     /\ check_a11y html text = rule_bundle_error (str_of_exn err)
     /\ subscript (check_a11y html text) "overall_score"
        = Raise (KeyError "overall_score"))
  \/ (exists a b c,
        subscript (check_a11y html text) "scores"
        = Ok (int_dict [("image_alts", a); ("heading_hierarchy", b);
                        ("link_text", c)])
        /\ In a [25; 50; 75; 100]%Z /\ In b [50; 100]%Z /\ In c [25; 50; 100]%Z
        /\ subscript (check_a11y html text) "overall_score"
           = Ok (PyFloat (truediv (a + (b + (c + 0))) 3))
        /\ PrimFloat.leb (truediv 100 3) (truediv (a + (b + (c + 0))) 3) = true
        /\ PrimFloat.leb (truediv (a + (b + (c + 0))) 3) (float_of_Z 100) = true).
Proof.
  unfold check_a11y. destruct (html_parser html) as [s | err].
  - right.
    exists (rr_score (check_image_alts s)), (pr_score (check_heading_hierarchy s)),
      (rr_score (check_link_text s)).
    pose proof (image_score_values s) as Ha.
    pose proof (heading_score_values s) as Hb.
    pose proof (link_score_values s) as Hc.
    destruct (a11y_mean_bounds _ _ _ Ha Hb Hc) as [Hlow Hhigh].
    split; [reflexivity |]. do 3 (split; [assumption |]).
    split; [reflexivity |]. now split.
  - left. exists err. repeat split.
Qed.

Lemma title_issue_iff (s : soup) :
  lr_issues (check_title_tag s) = [] <-> lr_score (check_title_tag s) = 100%Z.
Proof.
  unfold check_title_tag. split_ifs; cbn; split; intros H; try discriminate H;
    reflexivity.
Qed.

Lemma meta_issue_iff (s : soup) :
  lr_issues (check_meta_description s) = []
  <-> lr_score (check_meta_description s) = 100%Z.
Proof.
  unfold check_meta_description. split_ifs; cbn; split; intros H;
    try discriminate H; reflexivity.
Qed.

Lemma h1_issue_iff (s : soup) :
  cr_issues (check_h1_tags s) = [] <-> cr_score (check_h1_tags s) = 100%Z.
Proof.
  unfold check_h1_tags. split_ifs; cbn; split; intros H; try discriminate H;
    reflexivity.
Qed.

Lemma canonical_issue_iff (s : soup) :
  pr_issues (check_canonical s) = [] <-> pr_score (check_canonical s) = 100%Z.
Proof.
  unfold check_canonical. split_ifs; cbn; split; intros H; try discriminate H;
    reflexivity.
Qed.

Lemma word_count_issue_iff (text : string) :
  cr_issues (check_word_count text) = []
  <-> cr_score (check_word_count text) = 75%Z
      \/ cr_score (check_word_count text) = 100%Z.
Proof.
  unfold check_word_count. split_ifs; cbn; split; intros H;
    try discriminate H; try tauto; destruct H as [H | H]; discriminate H.
Qed.

Lemma ok_int_inj (a b : Z) : Ok (PyInt a) = Ok (PyInt b) <-> a = b.
Proof. split; [now intros [= ->] | now intros ->]. Qed.

(** X7.  [check_seo] reports no issue exactly when the title, meta
    description, H1 and canonical sub-scores are 100 and the word count
    scores 75 or 100: a text of 300 to 599 words loses points without an
    issue being reported, every other loss comes with an issue. *)
Theorem seo_no_issue_iff (s : soup) (text : string) :
  subscript (seo_checks s text) "issues" = Ok (PyList [])
  <-> sub_score (seo_checks s text) "title" = Ok (PyInt 100)
      /\ sub_score (seo_checks s text) "meta_description" = Ok (PyInt 100)
      /\ sub_score (seo_checks s text) "h1" = Ok (PyInt 100)
      /\ sub_score (seo_checks s text) "canonical" = Ok (PyInt 100)
      /\ (sub_score (seo_checks s text) "word_count" = Ok (PyInt 75)
          \/ sub_score (seo_checks s text) "word_count" = Ok (PyInt 100)).
Proof.
  unfold seo_checks, sub_score, rule_bundle.
  pose proof (title_issue_iff s) as Ht. pose proof (meta_issue_iff s) as Hm.
  pose proof (h1_issue_iff s) as Hh. pose proof (canonical_issue_iff s) as Hc.
  pose proof (word_count_issue_iff text) as Hw.
  set (t := check_title_tag s) in *. set (m := check_meta_description s) in *.
  set (h := check_h1_tags s) in *. set (c := check_canonical s) in *.
  set (w := check_word_count text) in *.
  cbn [subscript dict_get String.eqb Ascii.eqb Bool.eqb pyres_bind int_dict map
       fst snd].
  rewrite !ok_int_inj, <- Ht, <- Hm, <- Hh, <- Hc, <- Hw.
  split.
  - intros [= Hnil]. apply map_eq_nil in Hnil.
    repeat (apply app_eq_nil in Hnil as [? Hnil]). tauto.
  - intros (-> & -> & -> & -> & ->). reflexivity.
Qed.

Lemma image_issue_iff (s : soup) :
  rr_issues (check_image_alts s) = [] <-> rr_score (check_image_alts s) = 100%Z.
Proof.
  unfold check_image_alts. split_ifs; cbn; split; intros H; try discriminate H;
    reflexivity.
Qed.

Lemma heading_issue_iff (s : soup) :
  pr_issues (check_heading_hierarchy s) = []
  <-> pr_score (check_heading_hierarchy s) = 100%Z.
Proof.
  unfold check_heading_hierarchy.
  destruct (heading_levels s); [cbn; split; discriminate |].
  destruct (first_skip _) as [[a b] |]; cbn; split; intros H;
    try discriminate H; reflexivity.
Qed.

Lemma link_issue_iff (s : soup) :
  rr_issues (check_link_text s) = [] <-> rr_score (check_link_text s) = 100%Z.
Proof.
  unfold check_link_text. split_ifs; cbn; split; intros H; try discriminate H;
    reflexivity.
Qed.

(** X8.  [check_a11y] reports no issue exactly when its three sub-scores
    are 100: every loss of points comes with an issue. *)
Theorem a11y_no_issue_iff (s : soup) :
  subscript (a11y_checks s) "issues" = Ok (PyList [])
  <-> sub_score (a11y_checks s) "image_alts" = Ok (PyInt 100)
      /\ sub_score (a11y_checks s) "heading_hierarchy" = Ok (PyInt 100)
      /\ sub_score (a11y_checks s) "link_text" = Ok (PyInt 100).
Proof.
  unfold a11y_checks, sub_score, rule_bundle.
  pose proof (image_issue_iff s) as Hi. pose proof (heading_issue_iff s) as Hh.
  pose proof (link_issue_iff s) as Hl.
  set (i := check_image_alts s) in *. set (h := check_heading_hierarchy s) in *.
  set (l := check_link_text s) in *.
  cbn [subscript dict_get String.eqb Ascii.eqb Bool.eqb pyres_bind int_dict map
       fst snd].
  rewrite !ok_int_inj, <- Hi, <- Hh, <- Hl.
  split.
  - intros [= Hnil]. apply map_eq_nil in Hnil.
    repeat (apply app_eq_nil in Hnil as [? Hnil]). tauto.
  - intros (-> & -> & ->). reflexivity.
Qed.

(** *** The heading hierarchy *)

Lemma map_const_repeat {A B} (b : B) (l : list A) :
  map (fun _ => b) l = repeat b (List.length l).
Proof. induction l as [| x l IH]; cbn; [reflexivity | now rewrite IH]. Qed.

Lemma first_skip_cons (a b : Z) (l : list Z) :
  first_skip (a :: b :: l)
  = if (1 <? b - a)%Z then Some (a, b) else first_skip (b :: l).
Proof. reflexivity. Qed.

Lemma first_skip_same (a : Z) (l : list Z) :
  first_skip (a :: a :: l) = first_skip (a :: l).
Proof.
  cbn [first_skip]. replace (a - a)%Z with 0%Z by lia. reflexivity.
Qed.

Lemma first_skip_repeat (a : Z) (n : nat) (l : list Z) :
  first_skip (repeat a (S n) ++ l) = first_skip (a :: l).
Proof.
  induction n as [| n IH]; [reflexivity |].
  change (repeat a (S (S n)) ++ l)%list with (a :: a :: (repeat a n ++ l))%list.
  rewrite first_skip_same. exact IH.
Qed.

(** The levels of [levels], each as often as [count] says, against the
    levels that occur at all. *)
Lemma first_skip_counts (count : Z -> nat) (levels : list Z) :
  let all := flat_map (fun level => repeat level (count level)) levels in
  let present := List.filter (fun level => (0 <? count level)%nat) levels in
  first_skip all = first_skip present
  /\ (forall a, first_skip (a :: all) = first_skip (a :: present))
  /\ (all = [] <-> present = []).
Proof.
  induction levels as [| b levels (IH1 & IH2 & IH3)]; cbv zeta in *.
  - repeat split; reflexivity.
  - cbn [flat_map List.filter]. destruct (count b) as [| n] eqn:Hcount.
    + cbn [repeat app Nat.ltb Nat.leb]. repeat split; auto; apply IH3.
    + change (0 <? S n)%nat with true. cbv iota.
      rewrite first_skip_repeat.
      split; [apply IH2 |]. split.
      * intros a.
        set (rest := flat_map (fun level => repeat level (count level)) levels) in *.
        change (a :: repeat b (S n) ++ rest)%list
          with (a :: b :: (repeat b n ++ rest))%list.
        rewrite !first_skip_cons.
        destruct (1 <? b - a)%Z; [reflexivity |].
        change (b :: repeat b n ++ rest)%list with (repeat b (S n) ++ rest)%list.
        rewrite first_skip_repeat. apply IH2.
      * split; discriminate.
Qed.

Lemma heading_levels_counts (s : soup) :
  heading_levels s
  = flat_map (fun level =>
                repeat level (List.length (find_all ["h" ++ str_of_Z level] s)))
             [1; 2; 3; 4; 5; 6]%Z.
Proof.
  unfold heading_levels. cbn [flat_map]. now rewrite !map_const_repeat.
Qed.

(** The verdict of [check_heading_hierarchy], from the levels that occur. *)
Lemma heading_check_by_levels (s : soup) :
  check_heading_hierarchy s
  = match levels_present s with
    | [] => {| pr_score := 50; pr_issues := ["No headings found"] |}
    | _ =>
        match first_skip (levels_present s) with
        | Some (a, b) =>
            {| pr_score := 50;
               pr_issues := ["Heading hierarchy skips from H" ++ str_of_Z a
                               ++ " to H" ++ str_of_Z b] |}
        | None => {| pr_score := 100; pr_issues := [] |}
        end
    end.
Proof.
  unfold check_heading_hierarchy, levels_present. rewrite heading_levels_counts.
  destruct (first_skip_counts
              (fun level => List.length (find_all ["h" ++ str_of_Z level] s))
              [1; 2; 3; 4; 5; 6]%Z) as (Hskip & _ & Hnil).
  cbv zeta in Hskip, Hnil. rewrite Hskip.
  destruct (flat_map _ _) as [| x all]; destruct (List.filter _ _) as [| y present];
    try reflexivity.
  - destruct Hnil as [Hnil _]. discriminate (Hnil eq_refl).
  - destruct Hnil as [_ Hnil]. discriminate (Hnil eq_refl).
Qed.

(** X9.  [check_heading_hierarchy] looks only at which heading levels
    occur: two pages on which the same levels occur get the same score
    and issues, however often and in whatever order the headings
    stand.  A jump from H1 to H3 in the page is not reported when an H2
    stands anywhere on it. *)
Theorem heading_check_ignores_order (s1 s2 : soup) :
  (forall name, In name heading_names ->
                (find_all [name] s1 = [] <-> find_all [name] s2 = [])) ->
  check_heading_hierarchy s1 = check_heading_hierarchy s2.
Proof.
  intros Hsame.
  assert (Hlevels : levels_present s1 = levels_present s2).
  { unfold levels_present.
    assert (Hname : forall name, In name heading_names ->
              (0 <? List.length (find_all [name] s1))%nat
              = (0 <? List.length (find_all [name] s2))%nat).
    { intros name Hin. specialize (Hsame name Hin).
      destruct (find_all [name] s1), (find_all [name] s2); try reflexivity.
      - destruct Hsame as [Hsame _]. discriminate (Hsame eq_refl).
      - destruct Hsame as [_ Hsame]. discriminate (Hsame eq_refl). }
    cbn [List.filter].
    change ("h" ++ str_of_Z 1) with "h1". change ("h" ++ str_of_Z 2) with "h2".
    change ("h" ++ str_of_Z 3) with "h3". change ("h" ++ str_of_Z 4) with "h4".
    change ("h" ++ str_of_Z 5) with "h5". change ("h" ++ str_of_Z 6) with "h6".
    rewrite !(Hname _) by (cbn; tauto). reflexivity. }
  rewrite !heading_check_by_levels, Hlevels. reflexivity.
Qed.

(** *** utils/html_to_text.py: the metadata *)

Lemma attr_pyval_not_none (v : attr_value) : attr_pyval v <> PyNone.
Proof. destruct v; discriminate. Qed.

Ltac other_issue :=
  let H := fresh in
  intros H; first [discriminate H | injection H as H; cbv [String.append] in H;
                                    discriminate H].

Lemma title_missing_iff (s : soup) :
  find "title" s = None <-> lr_issues (check_title_tag s) = ["Missing title tag"].
Proof.
  unfold check_title_tag. destruct (find "title" s) as [title_tag |].
  - split; [discriminate |]. split_ifs; other_issue.
  - split; reflexivity.
Qed.

(** X10.  [extract_metadata] and the SEO checks read a parsed page alike:
    the title is [None] exactly when the title check reports a missing
    (not an empty) title tag, the meta description is [None] exactly when
    its check reports it missing, the canonical URL is [None] exactly
    when the canonical check scores 0, and both the length of [h1_tags]
    and [headings_count["h1"]] are the [h1_count] of the H1 check. *)
Theorem metadata_agrees_with_seo_checks (html : string) (s : soup) :
  html_parser html = Ok s ->
  let metadata := extract_metadata html in
  (subscript metadata "title" = Ok PyNone
   <-> lr_issues (check_title_tag s) = ["Missing title tag"])
  /\ (subscript metadata "meta_description" = Ok PyNone
      <-> lr_issues (check_meta_description s) = ["Missing meta description"])
  /\ (subscript metadata "canonical_url" = Ok PyNone
      <-> pr_score (check_canonical s) = 0%Z)
  /\ (try! tags <- subscript metadata "h1_tags"; py_len tags)%pyres
     = Ok (cr_count (check_h1_tags s))
  /\ (try! counts <- subscript metadata "headings_count";
      subscript counts "h1")%pyres
     = Ok (PyInt (cr_count (check_h1_tags s))).
Proof.
  intros Hparse metadata. subst metadata. unfold extract_metadata. rewrite Hparse.
  cbn [subscript dict_get String.eqb Ascii.eqb Bool.eqb pyres_bind].
  split; [| split; [| split; [| split]]].
  - rewrite <- title_missing_iff.
    destruct (find "title" s); split; try discriminate; reflexivity.
  - unfold check_meta_description.
    destruct (find_attr "meta" "name" "description" s) as [meta_desc |];
      [| split; reflexivity].
    destruct (tag_get meta_desc "content") as [content |]; [| split; reflexivity].
    destruct (attr_truthy (Some content)); cbn [negb]; [| split; reflexivity].
    split.
    + intros [= Hnone]. now apply attr_pyval_not_none in Hnone.
    + split_ifs; other_issue.
  - unfold check_canonical.
    destruct (find_attr "link" "rel" "canonical" s) as [canonical |];
      [| split; reflexivity].
    destruct (tag_get canonical "href") as [href |]; [| split; reflexivity].
    destruct (attr_truthy (Some href)); cbn [negb pr_score]; [| split; reflexivity].
    split.
    + intros [= Hnone]. now apply attr_pyval_not_none in Hnone.
    + discriminate.
  - cbn [py_len]. rewrite length_map. unfold check_h1_tags. split_ifs; reflexivity.
  - cbn [map]. change ("h" ++ str_of_Z 1) with "h1".
    cbn [dict_get String.eqb Ascii.eqb Bool.eqb].
    unfold check_h1_tags. split_ifs; reflexivity.
Qed.

End RuleProperties.

(** X9 on two pages with the levels 1 to 3: one with the H3 before the
    H2, one in order and with two H2. *)
Lemma heading_check_ignores_order_witness :
  check_heading_hierarchy skipping_page = check_heading_hierarchy orderly_page
  /\ pr_score (check_heading_hierarchy skipping_page) = 100%Z.
Proof.
  split; [| reflexivity].
  apply heading_check_ignores_order.
  intros name Hin. cbn in Hin.
  repeat (destruct Hin as [<- | Hin]; [split; intros H; vm_compute in H |- *;
                                       first [reflexivity | discriminate H] |]).
  contradiction.
Defined.

(** X10 on the page the stand-in parser makes of a line of text. *)
Lemma metadata_agrees_with_seo_checks_witness :
  html_parser (External := Mock.external) "x" = Ok [NTag "p" [] [NText "x"]]
  /\ subscript (extract_metadata (E := Mock.external) "x") "title" = Ok PyNone
  /\ lr_issues (check_title_tag [NTag "p" [] [NText "x"]]) = ["Missing title tag"].
Proof.
  split; [reflexivity |]. split; [reflexivity |].
  apply (metadata_agrees_with_seo_checks (E := Mock.external) "x"
           [NTag "p" [] [NText "x"]] eq_refl).
  reflexivity.
Defined.

(** ** chains/tone_chain.py *)

Section ToneProperties.
Context {E : External}.

Lemma length_take (n : nat) (s : string) :
  String.length (take n s) = Nat.min n (String.length s).
Proof.
  unfold take. revert s. induction n as [| n IH]; intros [| c s]; cbn;
    try reflexivity. now rewrite IH.
Qed.

Lemma take_all (n : nat) (s : string) :
  (String.length s <= n)%nat -> take n s = s.
Proof.
  unfold take. revert s. induction n as [| n IH]; intros [| c s] Hlen; cbn in *;
    try reflexivity; try lia.
  rewrite IH by lia. reflexivity.
Qed.

Lemma take_prefix (n : nat) (s : string) : String.prefix (take n s) s = true.
Proof.
  unfold take. revert s. induction n as [| n IH]; intros [| c s]; cbn;
    try reflexivity.
  rewrite IH. now destruct (Ascii.ascii_dec c c).
Qed.

Lemma tone_text_take (text : string) :
  tone_text (take (Z.to_nat tone_max_length) text) = tone_text text.
Proof.
  unfold tone_text, len.
  destruct (tone_max_length <? Z.of_nat (String.length text))%Z eqn:Hlong.
  - apply Z.ltb_lt in Hlong. rewrite length_take.
    destruct (tone_max_length <?
                Z.of_nat (Nat.min (Z.to_nat tone_max_length) (String.length text)))%Z
      eqn:Hagain; [| reflexivity].
    apply Z.ltb_lt in Hagain. unfold tone_max_length in *. lia.
  - pose proof (proj1 (Z.ltb_ge _ _) Hlong) as Hshort.
    rewrite take_all; [now rewrite Hlong |].
    unfold tone_max_length in *. lia.
Qed.

(** X11.  [analyze_tone] reads at most the first 1200 characters of the
    text: the text in the prompt is a prefix of the text of at most that
    length, the whole text when it is not longer, and the call on a text
    is the call on its first 1200 characters. *)
Theorem analyze_tone_reads_a_prefix (text : string) (w : World) :
  (len (tone_text text) <= tone_max_length)%Z
  /\ String.prefix (tone_text text) text = true
  /\ ((len text <= tone_max_length)%Z -> tone_text text = text)
  /\ analyze_tone_body text w
     = (Ok (tone_outcome text (env w)),
        {| files := files w; budget := budget w;
           env := snd (ollama_invoke (tone_prompt (tone_text text)) (env w));
           calls := calls w |})
  /\ analyze_tone (take (Z.to_nat tone_max_length) text) w = analyze_tone text w.
Proof.
  split; [| split; [| split; [| split]]].
  - unfold tone_text, len.
    destruct (tone_max_length <? Z.of_nat (String.length text))%Z eqn:Hlong.
    + rewrite length_take. unfold tone_max_length. lia.
    + now apply Z.ltb_ge in Hlong.
  - unfold tone_text. destruct (tone_max_length <? len text)%Z.
    + apply take_prefix.
    + rewrite <- (take_all (String.length text) text) at 1 by lia. apply take_prefix.
  - intros Hshort. unfold tone_text. apply Z.ltb_ge in Hshort. now rewrite Hshort.
  - apply analyze_tone_body_spec.
  - rewrite !analyze_tone_spec. unfold tone_value, tone_outcome, after_tone.
    now rewrite tone_text_take.
Qed.

Lemma all_in_scalar (v : pyval) :
  is_scalar v = true -> all_in required_keys v = Raise TypeError.
Proof. destruct v; try discriminate; reflexivity. Qed.

(** X12.  An answer of the model that is valid JSON but a number, a
    boolean or [null] is not treated as malformed output: the key check
    raises [TypeError], [analyze_tone] returns [None] and not a
    placeholder, and the tone step records no call. *)
Theorem scalar_answer_is_a_failure (text : string) (w : World)
    (response : string) (v : pyval) :
  fst (ollama_invoke (tone_prompt (tone_text text)) (env w)) = Ok response ->
  json_loads (clean_response response) = Ok v ->
  is_scalar v = true ->
  BudgetManager.can_make_call (budget w) "tone_analysis" = true ->
  tone_outcome text (env w) = Raise TypeError
  /\ fst (analyze_tone text w) = Ok PyNone
  /\ fst (tone_step text true w) = Ok PyNone
  /\ budget (snd (tone_step text true w)) = budget w
  /\ recorded "tone_analysis" (calls (snd (tone_step text true w)))
     = recorded "tone_analysis" (calls w).
Proof.
  intros Hanswer Hloads Hscalar Hcan.
  assert (Hout : tone_outcome text (env w) = Raise TypeError).
  { unfold tone_outcome. rewrite Hanswer. unfold parse_response. rewrite Hloads.
    now rewrite all_in_scalar. }
  assert (Hvalue : tone_value text (env w) = PyNone)
    by (unfold tone_value; now rewrite Hout).
  rewrite analyze_tone_spec, tone_step_taken by assumption.
  unfold tone_taken. rewrite Hvalue. cbn [fst snd budget calls truthy].
  repeat split; try assumption.
  rewrite recorded_app. unfold recorded. cbn. lia.
Qed.

Lemma all_in_dict (d : list (string * pyval)) (keys : list string) :
  (forall key, In key keys -> dict_get key d <> None) ->
  all_in keys (PyDict d) = Ok true.
Proof.
  induction keys as [| key keys IH]; intros Hkeys; [reflexivity |].
  cbn [all_in py_in pyres_bind].
  destruct (dict_get key d) eqn:Hget.
  - apply IH. intros k Hk. apply Hkeys. now right.
  - exfalso. apply (Hkeys key); [now left | assumption].
Qed.

Lemma all_in_str (s : string) (keys : list string) :
  (forall key, In key keys -> contains s key = true) ->
  all_in keys (PyStr s) = Ok true.
Proof.
  induction keys as [| key keys IH]; intros Hkeys; [reflexivity |].
  cbn [all_in py_in pyres_bind]. rewrite (Hkeys key) by now left.
  apply IH. intros k Hk. apply Hkeys. now right.
Qed.

(** X13.  The answer of the model is validated by key membership alone.
    A JSON object with the three keys is returned as it is, whatever the
    types of its values and whatever other keys it has; and since the
    check is Python's [in], a JSON string in which the three key names
    occur is returned as the tone summary too. *)
Theorem answer_validated_by_membership (text : string) (e : Env) (response : string) :
  fst (ollama_invoke (tone_prompt (tone_text text)) e) = Ok response ->
  (forall d,
     json_loads (clean_response response) = Ok (PyDict d) ->
     (forall key, In key required_keys -> dict_get key d <> None) ->
     tone_value text e = PyDict d)
  /\ (forall s,
        json_loads (clean_response response) = Ok (PyStr s) ->
        (forall key, In key required_keys -> contains s key = true) ->
        tone_value text e = PyStr s).
Proof.
  intros Hanswer. unfold tone_value, tone_outcome. rewrite Hanswer.
  unfold parse_response. split.
  - intros d Hloads Hkeys. rewrite Hloads, (all_in_dict d) by assumption.
    reflexivity.
  - intros s Hloads Hkeys. rewrite Hloads, (all_in_str s) by assumption.
    reflexivity.
Qed.

End ToneProperties.

(** X12 on a page of the stand-ins, with a model that answers 42. *)
Lemma scalar_answer_is_a_failure_witness :
  fst (analyze_tone (E := model_answering "42") "Some text"
         (fresh_world (E := model_answering "42") ∅ 0%nat 5)) = Ok PyNone
  /\ budget (snd (tone_step (E := model_answering "42") "Some text" true
                    (fresh_world (E := model_answering "42") ∅ 0%nat 5)))
     = BudgetManager.new 5.
Proof.
  destruct (scalar_answer_is_a_failure (E := model_answering "42") "Some text"
              (fresh_world (E := model_answering "42") ∅ 0%nat 5) "42" (PyInt 42))
    as (_ & Hnone & _ & Hbudget & _); try reflexivity.
  split; assumption.
Defined.

(** X13 on a model that answers with an object of three numbers and an
    extra key, and on one that answers with a JSON string. *)
Lemma answer_validated_by_membership_witness :
  tone_value (E := model_answering numbers_answer) "Some text" 0%nat
  = PyDict [("readability", PyInt 1); ("tone", PyInt 2); ("risks", PyInt 3);
            ("extra", PyInt 4)]
  /\ tone_value (E := model_answering prose_answer) "Some text" 0%nat
     = PyStr "readability, tone and risks are fine".
Proof.
  split.
  - apply (answer_validated_by_membership (E := model_answering numbers_answer)
             "Some text" 0%nat numbers_answer eq_refl); [reflexivity |].
    intros key Hkey. unfold required_keys in Hkey. cases_of_In; discriminate.
  - apply (answer_validated_by_membership (E := model_answering prose_answer)
             "Some text" 0%nat prose_answer eq_refl); [reflexivity |].
    intros key Hkey. unfold required_keys in Hkey. cases_of_In; reflexivity.
Defined.

(** ** utils/html_to_text.py: extract_text *)

Section ExtractProperties.
Context {E : External}.

Lemma collapsed_collapse_ws_aux (s : string) (in_run after_space : bool) :
  in_run = true \/ after_space = false ->
  collapsed_from after_space (collapse_ws_aux s in_run) = true.
Proof.
  revert in_run after_space.
  induction s as [| c s IH]; intros in_run after_space Hrun; [reflexivity |].
  cbn [collapse_ws_aux]. destruct (is_space c) eqn:Hc.
  - destruct in_run.
    + apply IH. now left.
    + destruct Hrun as [Hrun | ->]; [discriminate |].
      cbn [collapsed_from]. change (is_space " ") with true.
      cbn. apply IH. now left.
  - cbn [collapsed_from]. rewrite Hc. cbn. apply IH. now right.
Qed.

Lemma collapse_ws_aux_fixed (s : string) (after_space : bool) :
  collapsed_from after_space s = true -> collapse_ws_aux s after_space = s.
Proof.
  revert after_space. induction s as [| c s IH]; intros after_space Hs;
    [reflexivity |].
  cbn [collapsed_from collapse_ws_aux] in *. destruct (is_space c) eqn:Hc.
  - apply andb_prop in Hs as [Hblank Hrest].
    apply andb_prop in Hblank as [Hblank Hafter].
    apply Ascii.eqb_eq in Hblank. subst c.
    destruct after_space; [discriminate |]. now rewrite IH.
  - cbn in Hs. now rewrite IH.
Qed.

Lemma collapsed_after_any (s : string) (a b : bool) :
  starts_clean s = true -> collapsed_from a s = true -> collapsed_from b s = true.
Proof.
  destruct s as [| c s]; [reflexivity |]. cbn [starts_clean collapsed_from].
  intros Hc. apply negb_true_iff in Hc. now rewrite Hc.
Qed.

Lemma starts_clean_lstrip (s : string) : starts_clean (lstrip s) = true.
Proof.
  induction s as [| c s IH]; [reflexivity |]. cbn [lstrip].
  destruct (is_space c) eqn:Hc; [assumption |]. cbn. now rewrite Hc.
Qed.

Lemma lstrip_clean (s : string) : starts_clean s = true -> lstrip s = s.
Proof.
  destruct s as [| c s]; [reflexivity |]. cbn [starts_clean lstrip].
  intros Hc. apply negb_true_iff in Hc. now rewrite Hc.
Qed.

Lemma collapsed_lstrip (s : string) (a : bool) :
  collapsed_from a s = true -> collapsed_from a (lstrip s) = true.
Proof.
  revert a. induction s as [| c s IH]; intros a Hs; [reflexivity |].
  cbn [lstrip]. destruct (is_space c) eqn:Hc; [| assumption].
  cbn [collapsed_from] in Hs. rewrite Hc in Hs.
  apply andb_prop in Hs as [_ Hrest].
  apply (collapsed_after_any _ true a); [apply starts_clean_lstrip |].
  now apply IH.
Qed.

Lemma rstrip_cons (c : ascii) (s : string) :
  rstrip (String c s)
  = match rstrip s with
    | EmptyString => if is_space c then EmptyString else String c EmptyString
    | t => String c t
    end.
Proof. reflexivity. Qed.

Lemma collapsed_rstrip (s : string) (a : bool) :
  collapsed_from a s = true -> collapsed_from a (rstrip s) = true.
Proof.
  revert a. induction s as [| c s IH]; intros a Hs; [reflexivity |].
  rewrite rstrip_cons. cbn [collapsed_from] in Hs.
  apply andb_prop in Hs as [Hc Hrest]. apply IH in Hrest.
  destruct (rstrip s) as [| c' t].
  - destruct (is_space c) eqn:Hspace; [reflexivity |].
    cbn [collapsed_from]. now rewrite Hspace.
  - cbn [collapsed_from] in *. now rewrite Hc, Hrest.
Qed.

Lemma starts_clean_rstrip (s : string) :
  starts_clean s = true -> starts_clean (rstrip s) = true.
Proof.
  destruct s as [| c s]; [reflexivity |]. rewrite rstrip_cons.
  cbn [starts_clean]. intros Hc.
  destruct (rstrip s); [| assumption].
  apply negb_true_iff in Hc. rewrite Hc. cbn. now rewrite Hc.
Qed.

Lemma rstrip_idem (s : string) : rstrip (rstrip s) = rstrip s.
Proof.
  induction s as [| c s IH]; [reflexivity |]. rewrite rstrip_cons.
  destruct (rstrip s) as [| c' t] eqn:Hrest.
  - destruct (is_space c) eqn:Hc; [reflexivity |]. cbn. now rewrite Hc.
  - rewrite rstrip_cons, IH. reflexivity.
Qed.

Lemma collapsed_take (n : nat) (s : string) (a : bool) :
  collapsed_from a s = true -> collapsed_from a (take n s) = true.
Proof.
  unfold take. revert s a. induction n as [| n IH]; intros [| c s] a Hs;
    try reflexivity.
  cbn [substring collapsed_from] in *.
  apply andb_prop in Hs as [Hc Hrest]. now rewrite Hc, IH.
Qed.

Lemma starts_clean_take (n : nat) (s : string) :
  starts_clean s = true -> starts_clean (take n s) = true.
Proof. unfold take. destruct n, s; try reflexivity. cbn. auto. Qed.

(** X14.  [extract_text] returns [None] exactly when readability or the
    parser raises; a returned text has at most 50000 characters, does not
    begin with white space, and is white-space normalised: substituting
    runs of white space by a blank once more changes nothing. *)
Theorem extract_text_normalised (html : string) :
  match extract_text html with
  | Some text =>
      (len text <= extract_text_max_length)%Z
      /\ collapse_ws text = text
      /\ lstrip text = text
      /\ ((len text < extract_text_max_length)%Z -> strip text = text)
      /\ exists content_html s,
           readability_summary html = Ok content_html
           /\ html_parser content_html = Ok s
  | None =>
      (exists e, readability_summary html = Raise e)
      \/ (exists content_html e,
            readability_summary html = Ok content_html
            /\ html_parser content_html = Raise e)
  end.
Proof.
  unfold extract_text, extract_text_body.
  destruct (readability_summary html) as [content_html | e] eqn:Hsummary;
    cbn [pyres_bind]; [| left; now exists e].
  destruct (html_parser content_html) as [s | e] eqn:Hparse; cbn [pyres_bind];
    [| right; now exists content_html, e].
  set (text := strip _).
  assert (Hcollapsed : collapsed_from false text = true).
  { apply collapsed_rstrip, collapsed_lstrip, collapsed_collapse_ws_aux.
    now right. }
  assert (Hclean : starts_clean text = true)
    by apply starts_clean_rstrip, starts_clean_lstrip.
  assert (Hstrip : strip text = text).
  { unfold strip at 1. rewrite (lstrip_clean text Hclean).
    unfold text, strip. apply rstrip_idem. }
  destruct (extract_text_max_length <? len text)%Z eqn:Hlong.
  - split; [| split; [| split; [| split]]].
    + unfold len. rewrite length_take. unfold extract_text_max_length. lia.
    + apply collapse_ws_aux_fixed. now apply collapsed_take.
    + apply lstrip_clean. now apply starts_clean_take.
    + unfold len. rewrite length_take. apply Z.ltb_lt in Hlong.
      unfold len, extract_text_max_length in *. lia.
    + now exists content_html, s.
  - split; [| split; [| split; [| split]]].
    + now apply Z.ltb_ge in Hlong.
    + now apply collapse_ws_aux_fixed.
    + now apply lstrip_clean.
    + intros _. exact Hstrip.
    + now exists content_html, s.
Qed.

End ExtractProperties.

(** ** main.py: process_page *)

Section PageProperties.
Context {E : External}.

(** The four ways [process_page] ends. *)
Lemma process_page_cases (url : string) (use_llm : bool) (w : World) :
  exists result w',
    process_page url use_llm w = (Ok result, w')
    /\ truthy result = true
    /\ ((result = Cache.get (files w) url /\ w' = w)
        \/ (exists msg,
              result = error_result url msg /\ files w' = files w
              /\ budget w' = budget w)
        \/ (subscript result "url" = Ok (PyStr url)
            /\ subscript result "error" = Raise (KeyError "error")
            /\ files w' = Cache.set (files w) url result)).
Proof.
  destruct (truthy (Cache.get (files w) url)) eqn:Hcache.
  { rewrite process_page_hit by assumption. eexists _, _.
    split; [reflexivity |]. split; [assumption |]. now left. }
  destruct (truthy_str (fetched url (env w))) eqn:Hfetch.
  2:{ rewrite process_page_fetch_failed by assumption. eexists _, _.
      split; [reflexivity |]. split; [reflexivity |]. right; left.
      now exists "Failed to fetch page". }
  destruct (fetched url (env w)) as [html |] eqn:Hhtml; [| discriminate].
  assert (Hne : html <> "").
  { cbn in Hfetch. apply negb_true_iff in Hfetch. now apply String.eqb_neq. }
  destruct (truthy_str (extract_text html)) eqn:Hextract.
  2:{ rewrite (process_page_extract_failed url use_llm w html) by assumption.
      eexists _, _. split; [reflexivity |]. split; [reflexivity |]. right; left.
      now exists "Failed to extract text". }
  destruct (extract_text html) as [text |] eqn:Htext; [| discriminate].
  assert (Htne : text <> "").
  { cbn in Hextract. apply negb_true_iff in Hextract. now apply String.eqb_neq. }
  rewrite (process_page_analysed url use_llm w html text) by assumption.
  eexists _, _. split; [reflexivity |].
  set (tone := fst (tone_result text use_llm (world_checked url html text w))).
  destruct (page_result_spec url (check_seo html text) (check_a11y html text) tone
              (check_seo_is_bundle html text) (check_a11y_is_bundle html text))
    as (Hcompile & Hurl & _ & Htruthy).
  split; [assumption |]. right; right. split; [assumption |].
  split; [| reflexivity].
  destruct (compile_result_bundles url (check_seo html text) (check_a11y html text)
              tone (check_seo_is_bundle html text) (check_a11y_is_bundle html text))
    as (issues & scores & Hshape).
  unfold page_result. rewrite Hshape. reflexivity.
Qed.

(** X15.  The result of a page that was fetched and extracted: the two
    rule results as they were returned, the issues of the SEO checks
    followed by those of the accessibility checks, the two overall scores
    with 0 for a missing one, and a tone summary that is [None] unless the
    analysis was asked for and the budget allowed it.  The result is
    written to the cache whatever the tone summary is. *)
Theorem analysed_page_result (url : string) (use_llm : bool) (w : World)
    (html text : string) :
  truthy (Cache.get (files w) url) = false ->
  fetched url (env w) = Some html ->
  html <> "" ->
  extract_text html = Some text ->
  text <> "" ->
  exists result w' seo_issues a11y_issues,
    process_page url use_llm w = (Ok result, w')
    /\ subscript (check_seo html text) "issues" = Ok (PyList seo_issues)
    /\ subscript (check_a11y html text) "issues" = Ok (PyList a11y_issues)
    /\ subscript result "seo_rules" = Ok (check_seo html text)
    /\ subscript result "a11y_rules" = Ok (check_a11y html text)
    /\ subscript result "issues" = Ok (PyList (seo_issues ++ a11y_issues))
    /\ sub_score result "seo" = py_get (check_seo html text) "overall_score" (PyInt 0)
    /\ sub_score result "a11y" = py_get (check_a11y html text) "overall_score" (PyInt 0)
    /\ subscript result "tone_summary"
       = Ok (if use_llm && BudgetManager.can_make_call (budget w) "tone_analysis"
             then tone_value text (after_fetch url (env w))
             else PyNone)
    /\ files w' = Cache.set (files w) url result.
Proof.
  intros Hmiss Hfetch Hhtml Hextract Htext.
  rewrite (process_page_analysed url use_llm w html text) by assumption.
  destruct (check_seo_is_bundle html text) as (ds & ls & Hseo & Hls).
  destruct (check_a11y_is_bundle html text) as (da & la & Ha11y & Hla).
  eexists _, _, ls, la. split; [reflexivity |].
  rewrite Hseo, Ha11y. unfold page_result, compile_result, sub_score.
  cbn [py_get subscript pyres_bind]. rewrite Hls, Hla.
  cbn [concat_issues pyres_bind subscript dict_get String.eqb Ascii.eqb Bool.eqb].
  repeat (split; [reflexivity |]). split; [| reflexivity].
  unfold tone_result. cbn [budget world_checked env].
  now destruct (use_llm && BudgetManager.can_make_call (budget w) "tone_analysis").
Qed.

(** X16.  Processing a URL a second time is served from the cache: when
    the first call returned a result that is no error result and that
    survives the JSON round trip, the second call returns the same
    result and changes nothing: no fetch, no tone analysis, the budget
    as it was. *)
Theorem second_call_is_a_hit (url : string) (use_llm use_llm' : bool)
    (w w' : World) (result : pyval) :
  process_page url use_llm w = (Ok result, w') ->
  (forall msg, result <> error_result url msg) ->
  json_round_trips result ->
  process_page url use_llm' w' = (Ok result, w').
Proof.
  intros Hfirst Hok Hjson.
  destruct (process_page_cases url use_llm w)
    as (r & w1 & Hrun & Htruthy & Hcases).
  rewrite Hrun in Hfirst. injection Hfirst as -> ->.
  destruct Hcases as [[Hhit ->] | [(msg & Herr & _) | (_ & _ & Hfiles)]].
  - rewrite Hhit. apply process_page_hit. now rewrite <- Hhit.
  - now destruct (Hok msg).
  - assert (Hget : Cache.get (files w') url = result).
    { rewrite Hfiles. unfold Cache.get, Cache.set. rewrite lookup_insert_eq.
      unfold json_round_trips in Hjson. now rewrite Hjson. }
    rewrite (process_page_hit url use_llm' w') by now rewrite Hget.
    now rewrite Hget.
Qed.

(** X17.  A cache file that does not give a non-empty value, because it
    does not parse or because it holds an empty one, counts as a miss:
    the page is processed and its result replaces the file. *)
Theorem unusable_entry_is_replaced (url : string) (use_llm : bool) (w : World)
    (content html text : string) :
  files w !! Cache._get_cache_path url = Some content ->
  match json_loads content with
  | Ok data => truthy data = false
  | Raise _ => True
  end ->
  fetched url (env w) = Some html ->
  html <> "" ->
  extract_text html = Some text ->
  text <> "" ->
  exists result w',
    process_page url use_llm w = (Ok result, w')
    /\ subscript result "url" = Ok (PyStr url)
    /\ files w' = <[Cache._get_cache_path url := json_dump_indent result]> (files w)
    /\ dom (files w') = dom (files w).
Proof.
  intros Hfile Hcontent Hfetch Hhtml Hextract Htext.
  assert (Hmiss : truthy (Cache.get (files w) url) = false).
  { unfold Cache.get. rewrite Hfile.
    destruct (json_loads content); [assumption | reflexivity]. }
  rewrite (process_page_analysed url use_llm w html text) by assumption.
  eexists _, _. split; [reflexivity |].
  split; [apply page_result_spec;
          [apply check_seo_is_bundle | apply check_a11y_is_bundle] |].
  cbn [files]. split; [reflexivity |].
  unfold Cache.set. apply set_eq. intros path.
  rewrite dom_insert, elem_of_union, elem_of_singleton.
  split; [| now right]. intros [-> | Hin]; [| assumption].
  apply elem_of_dom. now exists content.
Qed.

End PageProperties.

(** X15 on a page of the stand-ins, without the tone analysis. *)
Lemma analysed_page_result_witness :
  exists result w' seo_issues a11y_issues,
    process_page (E := Mock.external) "http://a" false (mock_world ∅ 5)
    = (Ok result, w')
    /\ subscript result "issues" = Ok (PyList (seo_issues ++ a11y_issues))
    /\ subscript result "tone_summary" = Ok PyNone
    /\ files w' = Cache.set (E := Mock.external) ∅ "http://a" result.
Proof.
  destruct (analysed_page_result (E := Mock.external) "http://a" false
              (mock_world ∅ 5) "Page at http://a" "Page at http://a")
    as (result & w' & seo_issues & a11y_issues & Hrun & _ & _ & _ & _ & Hissues
        & _ & _ & Htone & Hfiles);
    try reflexivity; try discriminate.
  exists result, w', seo_issues, a11y_issues.
  split; [exact Hrun |]. split; [exact Hissues |]. split; [exact Htone | exact Hfiles].
Defined.

(** X16 on a page of the stand-ins with the exact codec: the second call,
    with the tone analysis switched off, returns the first result. *)
Lemma second_call_is_a_hit_witness :
  json_round_trips (E := exact_codec) (first_result "http://a")
  /\ process_page (E := exact_codec) "http://a" false
       (snd (process_page (E := exact_codec) "http://a" true (exact_world ∅ 5)))
     = (Ok (first_result "http://a"),
        snd (process_page (E := exact_codec) "http://a" true (exact_world ∅ 5))).
Proof.
  assert (Hjson : json_round_trips (E := exact_codec) (first_result "http://a"))
    by (vm_compute; reflexivity).
  split; [exact Hjson |].
  apply (second_call_is_a_hit (E := exact_codec) "http://a" true false
           (exact_world ∅ 5)).
  - unfold first_result.
    destruct (process_page_cases (E := exact_codec) "http://a" true (exact_world ∅ 5))
      as (result & w' & -> & _).
    reflexivity.
  - intros msg Herror. vm_compute in Herror. discriminate Herror.
  - exact Hjson.
Defined.

(** X17 on a cache directory whose file for the page is no JSON. *)
Lemma unusable_entry_is_replaced_witness :
  exists result w',
    process_page (E := Mock.external) "http://a" true (mock_world corrupt_dir 5)
    = (Ok result, w')
    /\ subscript result "url" = Ok (PyStr "http://a")
    /\ files w' !! Cache._get_cache_path (E := Mock.external) "http://a"
       = Some (json_dump_indent (External := Mock.external) result).
Proof.
  destruct (unusable_entry_is_replaced (E := Mock.external) "http://a" true
              (mock_world corrupt_dir 5) "not json"
              "Page at http://a" "Page at http://a")
    as (result & w' & Hrun & Hurl & Hfiles & _).
  - apply lookup_singleton_eq.
  - vm_compute. exact I.
  - reflexivity.
  - discriminate.
  - reflexivity.
  - discriminate.
  - exists result, w'. split; [exact Hrun |]. split; [exact Hurl |].
    rewrite Hfiles. apply lookup_insert_eq.
Defined.

(** ** main.py: the reports *)

Section ReportProperties.
Context {E : External}.

Lemma rule_bundle_scored scores issues metrics :
  scored_bundle (rule_bundle scores issues metrics).
Proof.
  unfold scored_bundle, rule_bundle.
  destruct scores as [| score scores];
    eexists _, issues, _, _;
    (split; [reflexivity |]); (split; [reflexivity |]); split; reflexivity.
Qed.

Lemma rule_bundle_error_scored msg : scored_bundle (rule_bundle_error msg).
Proof.
  unfold scored_bundle, rule_bundle_error. eexists _, [], (PyInt 0), _.
  split; [reflexivity |]. split; [reflexivity |]. split; reflexivity.
Qed.

Lemma check_seo_scored html text : scored_bundle (check_seo html text).
Proof.
  unfold check_seo, seo_checks. destruct (html_parser html).
  - apply rule_bundle_scored.
  - apply rule_bundle_error_scored.
Qed.

Lemma check_a11y_scored html text : scored_bundle (check_a11y html text).
Proof.
  unfold check_a11y, a11y_checks. destruct (html_parser html).
  - apply rule_bundle_scored.
  - apply rule_bundle_error_scored.
Qed.

Lemma page_result_scored url seo_results a11y_results tone_summary :
  scored_bundle seo_results -> scored_bundle a11y_results ->
  exists seo_score a11y_score,
    page_result url seo_results a11y_results tone_summary
    = PyDict [("url", PyStr url); ("seo_rules", seo_results);
              ("a11y_rules", a11y_results); ("tone_summary", tone_summary);
              ("issues", PyList (issues_of seo_results ++ issues_of a11y_results));
              ("scores", PyDict [("seo", seo_score); ("a11y", a11y_score)])]
    /\ format_score seo_score = Ok (score_cell seo_results)
    /\ format_score a11y_score = Ok (score_cell a11y_results)
    /\ forallb hashable (issues_of seo_results ++ issues_of a11y_results) = true.
Proof.
  intros (ds & si & ss & cs & -> & Hsi & Hss & Hcs)
         (da & ai & sa & ca & -> & Hai & Hsa & Hca).
  exists ss, sa. unfold page_result, compile_result, issues_of, score_cell.
  rewrite Hss, Hsa. cbn [py_get subscript pyres_bind]. rewrite Hsi, Hai, Hcs, Hca.
  unfold str_list. cbn [concat_issues pyres_bind].
  split; [reflexivity |]. split; [reflexivity |]. split; [reflexivity |].
  rewrite forallb_app. apply andb_true_intro.
  split; apply forallb_forall; intros v Hv;
    apply in_map_iff in Hv as (s & <- & _); reflexivity.
Qed.

Lemma summary_row_compiled url seo_results a11y_results tone_summary :
  scored_bundle seo_results -> scored_bundle a11y_results ->
  summary_row (page_result url seo_results a11y_results tone_summary)
  = Ok [PyStr url; PyStr (score_cell seo_results); PyStr (score_cell a11y_results);
        PyInt (Z.of_nat (List.length (issues_of seo_results)
                         + List.length (issues_of a11y_results)));
        PyStr (if truthy tone_summary then "Yes" else "No")].
Proof.
  intros Hseo Ha11y.
  destruct (page_result_scored url _ _ tone_summary Hseo Ha11y)
    as (ss & sa & -> & Hcs & Hca & _).
  unfold summary_row.
  cbn [subscript dict_get String.eqb Ascii.eqb Bool.eqb pyres_bind py_get py_len].
  rewrite Hcs, Hca. cbn [pyres_bind]. now rewrite List.length_app.
Qed.

Lemma all_issues_compiled (results : list pyval) :
  Forall compiled_result results ->
  exists issues, all_issues results = Ok issues /\ forallb hashable issues = true.
Proof.
  induction 1 as [| result results Hresult _ (rest & Hrest & Hhash)].
  - now exists [].
  - destruct Hresult as (url & html & text & html' & text' & tone & ->).
    destruct (page_result_scored url _ _ tone (check_seo_scored html text)
                (check_a11y_scored html' text'))
      as (ss & sa & Hshape & _ & _ & Hissues).
    cbn [all_issues]. rewrite Hshape.
    cbn [subscript dict_get String.eqb Ascii.eqb Bool.eqb pyres_bind py_iter].
    rewrite Hrest. cbn [pyres_bind]. eexists. split; [reflexivity |].
    rewrite forallb_app. now rewrite Hissues, Hhash.
Qed.

(** X18.  The report writing on compiled results.  The row of
    [summary.csv] for a result compiled from the two rule results holds
    the URL, the two overall scores, the number of SEO issues plus the
    number of accessibility issues, and Yes exactly when the tone summary
    is a non-empty value.  When every result of a run is of that kind,
    both reports are written, with one row per result after the header,
    and the statistics raise only if there is no result. *)
Theorem reports_of_compiled_results :
  (forall url html text html' text' tone_summary,
     summary_row (page_result url (check_seo html text) (check_a11y html' text')
                    tone_summary)
     = Ok [PyStr url; PyStr (score_cell (check_seo html text));
           PyStr (score_cell (check_a11y html' text'));
           PyInt (Z.of_nat (List.length (issues_of (check_seo html text))
                            + List.length (issues_of (check_a11y html' text'))));
           PyStr (if truthy tone_summary then "Yes" else "No")])
  /\ (forall results,
        Forall compiled_result results ->
        exists rows,
          save_reports results
          = Ok {| pages_jsonl := map (fun result => json_dumps result ++ newline) results;
                  summary_csv := summary_header :: rows |}
          /\ List.length rows = List.length results
          /\ run_statistics results
             = match results with [] => Raise ZeroDivisionError | _ => Ok tt end).
Proof.
  split.
  - intros. apply summary_row_compiled; [apply check_seo_scored | apply check_a11y_scored].
  - intros results Hall.
    assert (Hrows : exists rows, summary_rows results = Ok rows
                                 /\ List.length rows = List.length results).
    { induction Hall as [| result results Hresult _ (rows & Hrows & Hlen)].
      - now exists [].
      - destruct Hresult as (url & html & text & html' & text' & tone & ->).
        cbn [summary_rows].
        rewrite summary_row_compiled
          by (apply check_seo_scored || apply check_a11y_scored).
        cbn [pyres_bind]. rewrite Hrows. cbn [pyres_bind].
        eexists. split; [reflexivity |]. cbn [List.length]. now rewrite Hlen. }
    destruct Hrows as (rows & Hrows & Hlen). exists rows.
    unfold save_reports. rewrite Hrows. cbn [pyres_bind].
    split; [reflexivity |]. split; [assumption |].
    destruct (all_issues_compiled results Hall) as (issues & Hissues & Hhash).
    unfold run_statistics. rewrite Hissues. cbn [pyres_bind]. rewrite Hhash.
    now destruct results.
Qed.

End ReportProperties.

(** ** main.py: the loop over the pages and [audit] *)

Section AuditProperties.
Context {E : External}.

Lemma batch_loop_shape (urls : list string) (no_llm : bool) (acc : list pyval)
    (w : World) :
  exists new w',
    batch_loop urls no_llm acc w = (Ok (acc ++ new)%list, w')
    /\ (List.length new <= List.length urls)%nat
    /\ (urls <> [] -> new <> [])
    /\ ((List.length new < List.length urls)%nat ->
        no_llm = false
        /\ BudgetManager.can_make_call (budget w') "default" = false).
Proof.
  revert acc w. induction urls as [| url urls IH]; intros acc w.
  - exists [], w. cbn [batch_loop]. unfold ret. rewrite app_nil_r.
    split; [reflexivity |]. split; [cbn; lia |]. split; [congruence |].
    cbn. lia.
  - destruct (process_page_cases url (negb no_llm) w)
      as (result & w1 & Hrun & _ & _).
    cbn [batch_loop]. unfold bind at 1. rewrite Hrun.
    unfold bind at 1, get_budget.
    destruct (negb no_llm && negb (BudgetManager.can_make_call (budget w1) "default"))
      eqn:Hstop.
    + exists [result], w1. unfold ret.
      split; [reflexivity |]. split; [cbn; lia |]. split; [discriminate |].
      intros _. apply andb_prop in Hstop as [Hllm Hcan].
      apply negb_true_iff in Hllm, Hcan. now split.
    + destruct (IH (acc ++ [result])%list w1) as (new & w' & Hloop & Hlen & _ & Hshort).
      exists (result :: new), w'. rewrite Hloop, <- app_assoc.
      split; [reflexivity |]. split; [cbn; lia |]. split; [discriminate |].
      intros Hless. apply Hshort. cbn in Hless. lia.
Qed.

Lemma process_page_without_llm (url : string) (w : World) :
  budget (snd (process_page url false w)) = budget w
  /\ List.filter is_tone_call (calls (snd (process_page url false w)))
     = List.filter is_tone_call (calls w).
Proof.
  destruct (truthy (Cache.get (files w) url)) eqn:Hcache.
  { rewrite process_page_hit by assumption. now split. }
  destruct (truthy_str (fetched url (env w))) eqn:Hfetch.
  2:{ rewrite process_page_fetch_failed by assumption.
      cbn [snd world_fetched budget calls]. split; [reflexivity |].
      rewrite List.filter_app. cbn. apply app_nil_r. }
  destruct (fetched url (env w)) as [html |] eqn:Hhtml; [| discriminate].
  assert (Hne : html <> "").
  { cbn in Hfetch. apply negb_true_iff in Hfetch. now apply String.eqb_neq. }
  destruct (truthy_str (extract_text html)) eqn:Hextract.
  2:{ rewrite (process_page_extract_failed url false w html) by assumption.
      cbn [snd world_extracted budget calls]. split; [reflexivity |].
      rewrite List.filter_app. cbn. apply app_nil_r. }
  destruct (extract_text html) as [text |] eqn:Htext; [| discriminate].
  assert (Htne : text <> "").
  { cbn in Hextract. apply negb_true_iff in Hextract. now apply String.eqb_neq. }
  rewrite (process_page_analysed url false w html text) by assumption.
  unfold tone_result. cbn [andb snd world_checked budget calls].
  split; [reflexivity |]. rewrite List.filter_app. cbn. apply app_nil_r.
Qed.

Lemma audit_spec (all_urls : list string) (max_pages : Z) (no_llm : bool)
    (max_llm_calls : Z) (clear_cache : bool) (dir : gmap string string) (e : Env) :
  audit all_urls max_pages no_llm max_llm_calls clear_cache dir e
  = let run := batch_loop (slice_to max_pages all_urls) no_llm []
                 (initial_world dir e max_llm_calls clear_cache) in
    (match fst run with
     | Ok results =>
         (try! reports <- save_reports results;
          try! done <- run_statistics results;
          Ok reports)%pyres
     | Raise err => Raise err
     end, snd run).
Proof.
  unfold audit, audit_pages, bind, lift, ret. cbv zeta.
  destruct (batch_loop _ _ _ _) as [[results | err] w']; cbn [fst snd];
    [| reflexivity].
  destruct (save_reports results); cbn [pyres_bind]; [| reflexivity].
  destruct (run_statistics results); reflexivity.
Qed.

Lemma length_slice_to {A} (n : Z) (l : list A) :
  (List.length (slice_to n l) <= List.length l)%nat
  /\ ((0 <= n)%Z -> (Z.of_nat (List.length (slice_to n l)) <= n)%Z).
Proof.
  unfold slice_to. destruct (0 <=? n)%Z eqn:Hn; rewrite List.length_firstn.
  - split; lia.
  - apply Z.leb_gt in Hn. split; lia.
Qed.

(** X19.  A run of [audit] that ends without an exception wrote one line
    of [pages.jsonl] and one row of [summary.csv] for each page it
    processed: at least one page, at most [max_pages] for a [max_pages]
    that is not negative, and fewer than the URLs it was to process only
    when the budget is exhausted at the end, in a run with the tone
    analysis. *)
Theorem audit_reports_shape (all_urls : list string) (max_pages : Z) (no_llm : bool)
    (max_llm_calls : Z) (clear_cache : bool) (dir : gmap string string) (e : Env)
    (reports : Reports) :
  fst (audit all_urls max_pages no_llm max_llm_calls clear_cache dir e) = Ok reports ->
  let pages := List.length (pages_jsonl reports) in
  let final := snd (audit all_urls max_pages no_llm max_llm_calls clear_cache dir e) in
  List.length (summary_csv reports) = S pages
  /\ (1 <= pages <= List.length all_urls)%nat
  /\ ((0 <= max_pages)%Z -> (Z.of_nat pages <= max_pages)%Z)
  /\ ((pages < List.length (slice_to max_pages all_urls))%nat ->
      no_llm = false
      /\ BudgetManager.can_make_call (budget final) "default" = false).
Proof.
  rewrite audit_spec. cbv zeta. cbn [fst snd].
  destruct (batch_loop_shape (slice_to max_pages all_urls) no_llm []
              (initial_world dir e max_llm_calls clear_cache))
    as (results & w' & Hloop & Hlen & _ & Hshort).
  rewrite Hloop. cbn [fst snd app].
  unfold save_reports.
  destruct (summary_rows results) as [rows | err] eqn:Hrows; cbn [pyres_bind];
    [| discriminate].
  destruct (run_statistics results) eqn:Hstats; cbn [pyres_bind]; [| discriminate].
  intros [= <-]. cbn [pages_jsonl summary_csv]. rewrite List.length_map.
  assert (Hcount : List.length rows = List.length results).
  { clear -Hrows. revert rows Hrows.
    induction results as [| result results IH]; intros rows Hrows.
    - cbn in Hrows. now injection Hrows as <-.
    - cbn [summary_rows] in Hrows.
      destruct (summary_row result); [| discriminate].
      destruct (summary_rows results) as [rows' |]; [| discriminate].
      cbn in Hrows. injection Hrows as <-. cbn. now rewrite (IH rows'). }
  destruct (length_slice_to max_pages all_urls) as [Hall Hmax].
  split; [cbn; now rewrite Hcount |].
  split; [| split].
  - split; [| lia]. destruct results; [discriminate | cbn; lia].
  - intros Hpos. specialize (Hmax Hpos). lia.
  - exact Hshort.
Qed.

(** X20.  With [--no-llm] the loop processes every URL it is given and the
    budget manager is never touched: no call is recorded, the tone
    analyzer is not invoked, and [audit] ends with the budget it
    started with. *)
Theorem batch_without_llm (urls : list string) (acc : list pyval) (w : World) :
  (exists new w',
     batch_loop urls true acc w = (Ok (acc ++ new)%list, w')
     /\ List.length new = List.length urls
     /\ budget w' = budget w
     /\ List.filter is_tone_call (calls w') = List.filter is_tone_call (calls w))
  /\ forall max_pages max_llm_calls clear_cache dir e,
       budget (snd (audit urls max_pages true max_llm_calls clear_cache dir e))
       = BudgetManager.new max_llm_calls.
Proof.
  assert (Hloop : forall urls acc w,
             exists new w',
               batch_loop urls true acc w = (Ok (acc ++ new)%list, w')
               /\ List.length new = List.length urls
               /\ budget w' = budget w
               /\ List.filter is_tone_call (calls w')
                  = List.filter is_tone_call (calls w)).
  { clear. induction urls as [| url urls IH]; intros acc w.
    - exists [], w. cbn [batch_loop]. unfold ret. now rewrite app_nil_r.
    - destruct (process_page_cases url false w) as (result & w1 & Hrun & _ & _).
      destruct (process_page_without_llm url w) as [Hbudget Hcalls].
      rewrite Hrun in Hbudget, Hcalls. cbn [snd] in Hbudget, Hcalls.
      cbn [batch_loop negb andb]. unfold bind at 1. rewrite Hrun.
      unfold bind at 1, get_budget.
      destruct (IH (acc ++ [result])%list w1) as (new & w' & -> & Hlen & Hb & Hc).
      exists (result :: new), w'. rewrite <- app_assoc.
      split; [reflexivity |]. split; [cbn; now rewrite Hlen |].
      split; congruence. }
  split; [apply Hloop |].
  intros max_pages max_llm_calls clear_cache dir e. rewrite audit_spec.
  cbv zeta. cbn [snd].
  destruct (Hloop (slice_to max_pages urls) []
              (initial_world dir e max_llm_calls clear_cache))
    as (new & w' & -> & _ & Hbudget & _).
  cbn [snd]. now rewrite Hbudget.
Qed.

(** X21.  [audit] on no URL, be it that the input has none, that
    [max_pages] is 0 or that a negative [max_pages] cuts all of them
    off, writes a [pages.jsonl] without a line and a [summary.csv] with
    the header alone and then ends with [ZeroDivisionError], raised by
    the average time per page; nothing is fetched. *)
Theorem audit_without_urls_raises (all_urls : list string) (max_pages : Z)
    (no_llm : bool) (max_llm_calls : Z) (clear_cache : bool)
    (dir : gmap string string) (e : Env) :
  all_urls = [] \/ max_pages = 0%Z
  \/ (max_pages < 0 /\ Z.of_nat (List.length all_urls) <= - max_pages)%Z ->
  audit all_urls max_pages no_llm max_llm_calls clear_cache dir e
  = (Raise ZeroDivisionError, initial_world dir e max_llm_calls clear_cache)
  /\ save_reports []
     = Ok {| pages_jsonl := []; summary_csv := [summary_header] |}.
Proof.
  intros Hnone.
  assert (Hslice : slice_to max_pages all_urls = []).
  { unfold slice_to. destruct Hnone as [-> | [-> | [Hneg Hlen]]].
    - now rewrite !firstn_nil; destruct (0 <=? max_pages)%Z.
    - reflexivity.
    - destruct (0 <=? max_pages)%Z eqn:Hsign; [apply Z.leb_le in Hsign; lia |].
      replace (List.length all_urls - Z.to_nat (- max_pages))%nat with 0%nat by lia.
      reflexivity. }
  split; [| reflexivity].
  rewrite audit_spec, Hslice. reflexivity.
Qed.

End AuditProperties.

(** X19 on a run over one page of the stand-ins. *)
Lemma audit_reports_shape_witness :
  fst (audit (E := Mock.external) ["http://a"] 200 false 200 false ∅ 0%nat)
  = Ok (mock_reports ["http://a"] 200)
  /\ List.length (summary_csv (mock_reports ["http://a"] 200))
     = S (List.length (pages_jsonl (mock_reports ["http://a"] 200))).
Proof.
  assert (Hrun : fst (audit (E := Mock.external) ["http://a"] 200 false 200 false
                        ∅ 0%nat)
                 = Ok (mock_reports ["http://a"] 200))
    by (vm_compute; reflexivity).
  split; [exact Hrun |].
  exact (proj1 (audit_reports_shape (E := Mock.external) ["http://a"] 200 false 200
                  false ∅ 0%nat (mock_reports ["http://a"] 200) Hrun)).
Defined.

(** X21 on a run with [max_pages] 0 over three pages. *)
Lemma audit_without_urls_raises_witness :
  fst (audit (E := Mock.external) served_urls 0 false 200 false ∅ 0%nat)
  = Raise ZeroDivisionError.
Proof.
  rewrite (proj1 (audit_without_urls_raises (E := Mock.external) served_urls 0 false
                    200 false ∅ 0%nat (or_intror (or_introl eq_refl)))).
  reflexivity.
Defined.

(** ** main.py: load_urls_from_csv *)

Lemma strip_idem (s : string) : strip (strip s) = strip s.
Proof.
  unfold strip at 1.
  rewrite (lstrip_clean (strip s))
    by (unfold strip; apply starts_clean_rstrip, starts_clean_lstrip).
  unfold strip. apply rstrip_idem.
Qed.

Lemma py_or_some (a b : option string) (v : string) :
  py_or a b = Some v -> v <> "" -> (a = Some v) \/ (b = Some v).
Proof.
  unfold py_or. destruct (truthy_str a); intros H _; [now left | now right].
Qed.

Lemma url_of_row (row : csv_row) (v : string) :
  py_or (py_or (py_or (row_get row "url") (row_get row "URL")) (row_get row "Url"))
        (row_get row "link") = Some v ->
  v <> "" ->
  exists column, In column url_columns /\ row_get row column = Some v.
Proof.
  intros Hor Hv. unfold url_columns.
  apply py_or_some in Hor as [Hor | Hlink]; [| exists "link"; cbn; tauto | assumption].
  apply py_or_some in Hor as [Hor | Hurl3]; [| exists "Url"; cbn; tauto | assumption].
  apply py_or_some in Hor as [Hurl | Hurl2]; [| | assumption].
  - exists "url". cbn. tauto.
  - exists "URL". cbn. tauto.
Qed.

(** X22.  [load_urls_from_csv] raises what reading the file raises, and
    otherwise every URL it returns is stripped of white space on both
    sides and is the stripped non-empty value of one of the columns
    [url], [URL], [Url] and [link] of a row; a row gives at most one
    URL. *)
Theorem load_urls_are_stripped_values (reader : pyres (list csv_row)) :
  match load_urls_from_csv reader with
  | Ok urls =>
      exists rows,
        reader = Ok rows
        /\ (List.length urls <= List.length rows)%nat
        /\ forall u,
             In u urls ->
             strip u = u
             /\ exists row column v,
                  In row rows /\ In column url_columns
                  /\ row_get row column = Some v /\ v <> "" /\ u = strip v
  | Raise e => reader = Raise e
  end.
Proof.
  destruct reader as [rows | e]; [| reflexivity]. cbn [load_urls_from_csv].
  exists rows. split; [reflexivity |].
  induction rows as [| row rows [IHlen IH]];
    [cbn; split; [lia | contradiction] |].
  cbn [urls_of_rows].
  set (url := py_or _ _) in *.
  destruct (truthy_str url) eqn:Htruthy.
  - split; [cbn; lia |]. intros u [<- | Hin].
    + split; [apply strip_idem |].
      destruct url as [v |] eqn:Hurl; [| discriminate].
      assert (Hv : v <> "").
      { cbn in Htruthy. apply negb_true_iff in Htruthy. now apply String.eqb_neq. }
      destruct (url_of_row row v Hurl Hv) as (column & Hcolumn & Hget).
      exists row, column, v. cbn. tauto.
    + destruct (IH u Hin) as (Hstrip & row' & column & v & Hrow & Hrest).
      split; [assumption |]. exists row', column, v. split; [now right | assumption].
  - split; [cbn; lia |]. intros u Hin.
    destruct (IH u Hin) as (Hstrip & row' & column & v & Hrow & Hrest).
    split; [assumption |]. exists row', column, v. split; [now right | assumption].
Qed.

(** A value of blanks in the [url] column is taken, before a URL in the
    [link] column, and gives the empty URL. *)
Example blank_url_column :
  load_urls_from_csv (Ok [[("url", Some "  "); ("link", Some "http://a")];
                          [("link", Some " http://b ")];
                          [("url", Some ""); ("name", Some "c")];
                          [("url", None)]])
  = Ok [""; "http://b"].
Proof. reflexivity. Qed.
